(** * An in-memory book store: validation, CRUD, search and pagination

    A shallow embedding of [src/utils.ts], [src/types.ts] and
    [src/BookService.ts], and of the handlers of [src/BookCLI.ts], followed
    by the properties of the store and of the front end.

    Conventions of the embedding.
    - A JavaScript string is a [string]: a sequence of code units, here the
      code units 0..255 (the Latin-1 range), on which [trim] and
      [toLowerCase] act as ECMAScript defines them. The search methods are
      given a second time over sequences of UTF-16 code units of any value
      ([Utf16]), where [toLowerCase] depends on the context of a letter; the
      two agree on the Latin-1 range.
    - The [Map<string, Book>] of the service is an association list kept in
      insertion order, as [Map.prototype.values] enumerates it.
    - Readings of the clock and of the random generator are inputs ([Env]).
    - [throw] is the second constructor of [outcome]; the methods of the
      service run in a state-and-exception monad over the map. *)

From Stdlib Require Import ZArith NArith List Bool Lia Permutation.
From Stdlib Require Import Ascii String DecimalString DecimalPos DecimalN DecimalZ.
Import ListNotations.

Local Open Scope string_scope.
Local Open Scope Z_scope.

(** ** String primitives of the JavaScript runtime *)

Module JsString.

(** [WhiteSpace] and [LineTerminator] code points below 256: TAB, LF, VT, FF,
    CR, SP and NBSP. *)
Definition isWhiteSpace (c : ascii) : bool :=
  let n := N_of_ascii c in
  ((n =? 9) || (n =? 10) || (n =? 11) || (n =? 12) || (n =? 13)
   || (n =? 32) || (n =? 160))%N.

(** Lower-case mapping of one code unit: A-Z and the upper-case letters of
    the Latin-1 supplement (0xC0-0xDE without the multiplication sign). *)
Definition toLowerChar (c : ascii) : ascii :=
  let n := N_of_ascii c in
  if (((65 <=? n) && (n <=? 90))
      || ((192 <=? n) && (n <=? 222) && negb (n =? 215)))%N
  then ascii_of_N (n + 32) else c.

Fixpoint toLowerCase (s : string) : string :=
  match s with
  | EmptyString => EmptyString
  | String c s' => String (toLowerChar c) (toLowerCase s')
  end.

Fixpoint trimStart (s : string) : string :=
  match s with
  | EmptyString => EmptyString
  | String c s' => if isWhiteSpace c then trimStart s' else s
  end.

Fixpoint trimEnd (s : string) : string :=
  match s with
  | EmptyString => EmptyString
  | String c s' =>
      match trimEnd s' with
      | EmptyString => if isWhiteSpace c then EmptyString else String c EmptyString
      | t => String c t
      end
  end.

Definition trim (s : string) : string := trimEnd (trimStart s).

Fixpoint startsWith (s search : string) {struct search} : bool :=
  match search, s with
  | EmptyString, _ => true
  | String _ _, EmptyString => false
  | String a search', String b s' => Ascii.eqb a b && startsWith s' search'
  end.

(** [s.includes(search)]: [search] occurs in [s] at some position. *)
Fixpoint includes (s search : string) : bool :=
  startsWith s search
  || match s with
     | EmptyString => false
     | String _ s' => includes s' search
     end.

Fixpoint drop (n : nat) (s : string) : string :=
  match n, s with
  | O, _ => s
  | S _, EmptyString => EmptyString
  | S n', String _ s' => drop n' s'
  end.

Fixpoint take (n : nat) (s : string) : string :=
  match n, s with
  | O, _ => EmptyString
  | S _, EmptyString => EmptyString
  | S n', String c s' => String c (take n' s')
  end.

(** [s.substr(start, len)] for non-negative arguments. *)
Definition substr (start len : nat) (s : string) : string :=
  take len (drop start s).

(** A string is truthy unless it is empty. *)
Definition truthy (s : string) : bool :=
  match s with EmptyString => false | String _ _ => true end.

(** Template-literal rendering of integers. *)
Definition ofN (n : N) : string := NilZero.string_of_uint (N.to_uint n).
Definition ofZ (z : Z) : string := NilZero.string_of_int (Z.to_int z).

(** The first code unit of a string, if any, is not white space. *)
Definition clean_head (s : string) : Prop :=
  match s with
  | EmptyString => True
  | String c _ => isWhiteSpace c = false
  end.

End JsString.

(** ** Numbers *)

(** A value of type [number] as the validators see it: [Number.isInteger]
    separates the integral doubles from the fractional ones, NaN and the
    infinities; only integral values are ever compared. *)
Inductive number : Type :=
| Int (z : Z)
| NonInteger.

(** ** [types.ts] *)

Module Book.
Record t : Type := mk
  { id : string; title : string; author : string; year : number }.
End Book.

Module CreateBookData.
Record t : Type := mk
  { title : string; author : string; year : number }.
End CreateBookData.

(** An optional property: the key may be missing, or present and holding
    [undefined], or present and holding a value. [Object.keys] counts the
    last two. *)
Inductive optional (A : Type) : Type :=
| Absent
| Undefined
| Value (a : A).
Arguments Absent {A}.
Arguments Undefined {A}.
Arguments Value {A} a.

Definition hasKey {A} (o : optional A) : bool :=
  match o with Absent => false | _ => true end.

Module UpdateBookData.
Record t : Type := mk
  { title : optional string; author : optional string;
    year : optional number }.

(** [Object.keys(data).length] *)
Definition keys_length (d : t) : nat :=
  ((if hasKey (title d) then 1 else 0)
   + (if hasKey (author d) then 1 else 0)
   + (if hasKey (year d) then 1 else 0))%nat.
End UpdateBookData.

(** The two error classes; [name] stands for the class ([instanceof]). *)
Record Error : Type := mkError { name : string; message : string }.

Definition BookNotFoundError (id : string) : Error :=
  {| name := "BookNotFoundError";
     message := "Book with id '" ++ id ++ "' not found" |}.

Definition ValidationError (msg : string) : Error :=
  {| name := "ValidationError";
     message := "Validation error: " ++ msg |}.

(** [Result<T>] *)
Inductive Result (T : Type) : Type :=
| success (data : T)
| failure (error : Error).
Arguments success {T} data.
Arguments failure {T} error.

(** A call either returns or throws. *)
Inductive outcome (A : Type) : Type :=
| Returned (a : A)
| Thrown (e : Error).
Arguments Returned {A} a.
Arguments Thrown {A} e.

(** ** The environment of one call *)

Record Env : Type := mkEnv
  { now : N;              (* Date.now() *)
    random36 : string;    (* Math.random().toString(36) *)
    fullYear : Z          (* new Date().getFullYear() *) }.

(** ** [utils.ts] *)

Definition generateId (e : Env) : string :=
  "book_" ++ JsString.ofN (now e) ++ "_" ++ JsString.substr 2 9 (random36 e).

(** [!s || typeof s !== 'string' || s.trim().length === 0] on a string. *)
Definition blank (s : string) : bool :=
  negb (JsString.truthy s) || (String.length (JsString.trim s) =? 0)%nat.

(** The two checks on [data.year], written out in both validators;
    [currentYear] is the reading of [new Date().getFullYear()]. *)
Definition validateYear (currentYear : Z) (y : number) : outcome unit :=
  match y with
  | NonInteger => Thrown (ValidationError "Year must be a valid integer")
  | Int z =>
      if (z <? 0) || (z >? currentYear)
      then Thrown (ValidationError
                     ("Year must be between 0 and " ++ JsString.ofZ currentYear))
      else Returned tt
  end.

Definition validateCreateBookData (currentYear : Z) (data : CreateBookData.t)
  : outcome unit :=
  if blank (CreateBookData.title data)
  then Thrown (ValidationError "Title is required and must be a non-empty string")
  else if blank (CreateBookData.author data)
  then Thrown (ValidationError "Author is required and must be a non-empty string")
  else validateYear currentYear (CreateBookData.year data).

(** The check of one supplied string field of an update. *)
Definition validateField (what : string) (o : optional string) : outcome unit :=
  match o with
  | Value s =>
      if (String.length (JsString.trim s) =? 0)%nat
      then Thrown (ValidationError (what ++ " must be a non-empty string"))
      else Returned tt
  | _ => Returned tt
  end.

Definition validateUpdateBookData (currentYear : Z) (data : UpdateBookData.t)
  : outcome unit :=
  if (UpdateBookData.keys_length data =? 0)%nat
  then Thrown (ValidationError "At least one field must be provided for update")
  else
    match validateField "Title" (UpdateBookData.title data) with
    | Thrown e => Thrown e
    | Returned _ =>
        match validateField "Author" (UpdateBookData.author data) with
        | Thrown e => Thrown e
        | Returned _ =>
            match UpdateBookData.year data with
            | Value y => validateYear currentYear y
            | _ => Returned tt
            end
        end
    end.

Definition sanitizeString (input : string) : string := JsString.trim input.

(** ** The [Map] holding the books *)

Module JsMap.
Section WithValues.
Context {V : Type}.

(** Entries in insertion order; [set] keeps the position of a key that is
    already present and appends a new one. *)
Definition t : Type := list (string * V).

Definition empty : t := [].

Fixpoint get (k : string) (m : t) : option V :=
  match m with
  | [] => None
  | (k', v) :: m' => if String.eqb k k' then Some v else get k m'
  end.

Definition has (k : string) (m : t) : bool :=
  match get k m with Some _ => true | None => false end.

Fixpoint set (k : string) (v : V) (m : t) : t :=
  match m with
  | [] => [(k, v)]
  | (k', v') :: m' =>
      if String.eqb k k' then (k, v) :: m' else (k', v') :: set k v m'
  end.

(** [m.delete(k)] returns [has k m] and leaves [remove k m]. *)
Fixpoint remove (k : string) (m : t) : t :=
  match m with
  | [] => []
  | (k', v') :: m' =>
      if String.eqb k k' then m' else (k', v') :: remove k m'
  end.

Definition values (m : t) : list V := map snd m.
Definition keys (m : t) : list string := map fst m.
Definition size (m : t) : nat := List.length m.
End WithValues.
Arguments t V : clear implicits.
End JsMap.

(** ** The state-and-exception monad of the service *)

Definition Store : Type := JsMap.t Book.t.

Definition M (A : Type) : Type := Store -> outcome A * Store.

Definition ret {A} (a : A) : M A := fun st => (Returned a, st).

Definition bind {A B} (c : M A) (k : A -> M B) : M B :=
  fun st =>
    match c st with
    | (Returned a, st') => k a st'
    | (Thrown e, st') => (Thrown e, st')
    end.

Definition throw {A} (e : Error) : M A := fun st => (Thrown e, st).

Definition lift {A} (o : outcome A) : M A := fun st => (o, st).

Definition gets {A} (f : Store -> A) : M A := fun st => (Returned (f st), st).

Definition modify (f : Store -> Store) : M unit := fun st => (Returned tt, f st).

Definition try_catch {A} (c : M A) (handler : Error -> M A) : M A :=
  fun st =>
    match c st with
    | (Returned a, st') => (Returned a, st')
    | (Thrown e, st') => handler e st'
    end.

Notation "x <- c ;; k" := (bind c (fun x => k))
  (at level 61, c at next level, right associativity).
Notation "c ;;; k" := (bind c (fun _ => k))
  (at level 61, right associativity).

(** ** Arithmetic of [getPaginated] *)

(** Integers extended by what a division by zero produces. *)
Inductive xnum : Type :=
| Fin (z : Z)
| NaN
| Inf (positive : bool).

Module JsMath.

(** [Math.ceil(a / b)] for integers [a] and [b]; the quotient of two
    integers below 2^53 is rounded to an integer only when it is one. *)
Definition ceil_div (a b : Z) : xnum :=
  if b =? 0 then (if a =? 0 then NaN else Inf (0 <? a))
  else Fin (- ((- a) / b)).

Definition min (x y : xnum) : xnum :=
  match x, y with
  | NaN, _ | _, NaN => NaN
  | Inf false, _ | _, Inf false => Inf false
  | Inf true, o | o, Inf true => o
  | Fin a, Fin b => Fin (Z.min a b)
  end.

Definition max (x y : xnum) : xnum :=
  match x, y with
  | NaN, _ | _, NaN => NaN
  | Inf true, _ | _, Inf true => Inf true
  | Inf false, o | o, Inf false => o
  | Fin a, Fin b => Fin (Z.max a b)
  end.

Definition add (x y : xnum) : xnum :=
  match x, y with
  | NaN, _ | _, NaN => NaN
  | Inf s, Inf s' => if Bool.eqb s s' then Inf s else NaN
  | Inf s, Fin _ | Fin _, Inf s => Inf s
  | Fin a, Fin b => Fin (a + b)
  end.

Definition neg (x : xnum) : xnum :=
  match x with
  | NaN => NaN
  | Inf s => Inf (negb s)
  | Fin a => Fin (- a)
  end.

Definition sub (x y : xnum) : xnum := add x (neg y).

Definition mul (x y : xnum) : xnum :=
  match x, y with
  | NaN, _ | _, NaN => NaN
  | Inf s, Inf s' => Inf (Bool.eqb s s')
  | Inf s, Fin a | Fin a, Inf s =>
      if a =? 0 then NaN else Inf (Bool.eqb s (0 <? a))
  | Fin a, Fin b => Fin (a * b)
  end.

Definition lt (x y : xnum) : bool :=
  match x, y with
  | NaN, _ | _, NaN => false
  | Inf true, _ => false
  | _, Inf false => false
  | Inf false, _ => true
  | _, Inf true => true
  | Fin a, Fin b => a <? b
  end.

Definition gt (x y : xnum) : bool := lt y x.

End JsMath.

Module JsArray.

(** A relative index of [slice], brought into [0, len]. *)
Definition toIndex (len : Z) (x : xnum) : Z :=
  match x with
  | NaN => 0
  | Inf true => len
  | Inf false => 0
  | Fin z => if z <? 0 then Z.max (len + z) 0 else Z.min z len
  end.

(** [l.slice(start, end)] *)
Definition slice {A} (l : list A) (start end_ : xnum) : list A :=
  let len := Z.of_nat (List.length l) in
  let k := toIndex len start in
  let final := toIndex len end_ in
  firstn (Z.to_nat (final - k)) (skipn (Z.to_nat k) l).

End JsArray.

(** ** [BookService.ts] *)

Record Page : Type := mkPage
  { books : list Book.t;
    totalBooks : Z;
    totalPages : xnum;
    currentPage : xnum;
    hasNextPage : bool;
    hasPreviousPage : bool }.

(** [x === year] for an integral [year]: a number that is not integral is
    strictly equal to no integer. *)
Definition strictEqualsInt (x : number) (year : Z) : bool :=
  match x with
  | Int z => z =? year
  | NonInteger => false
  end.

Module BookService.

Definition create (e : Env) (data : CreateBookData.t) : M Book.t :=
  lift (validateCreateBookData (fullYear e) data) ;;;
  let book :=
    {| Book.id := generateId e;
       Book.title := sanitizeString (CreateBookData.title data);
       Book.author := sanitizeString (CreateBookData.author data);
       Book.year := CreateBookData.year data |} in
  modify (JsMap.set (Book.id book) book) ;;;
  ret book.

Definition safeCreate (e : Env) (data : CreateBookData.t)
  : M (Result Book.t) :=
  try_catch
    (book <- create e data ;; ret (success book))
    (fun error => ret (failure error)).

Definition findById (id : string) : M (option Book.t) :=
  gets (JsMap.get id).

Definition findAll : M (list Book.t) :=
  gets JsMap.values.

Definition findByAuthor (author : string) : M (list Book.t) :=
  let normalizedAuthor := JsString.trim (JsString.toLowerCase author) in
  all <- findAll ;;
  ret (filter (fun book =>
                 JsString.includes (JsString.toLowerCase (Book.author book))
                                   normalizedAuthor) all).

Definition findByTitle (title : string) : M (list Book.t) :=
  let normalizedTitle := JsString.trim (JsString.toLowerCase title) in
  all <- findAll ;;
  ret (filter (fun book =>
                 JsString.includes (JsString.toLowerCase (Book.title book))
                                   normalizedTitle) all).

(** [findByYear] with an integral argument, as its callers pass it. *)
Definition findByYear (year : Z) : M (list Book.t) :=
  all <- findAll ;;
  ret (filter (fun book => strictEqualsInt (Book.year book) year) all).

Definition update (e : Env) (id : string) (data : UpdateBookData.t)
  : M (option Book.t) :=
  lift (validateUpdateBookData (fullYear e) data) ;;;
  existing <- gets (JsMap.get id) ;;
  match existing with
  | None => ret None
  | Some existingBook =>
      let updatedBook :=
        {| Book.id := Book.id existingBook;
           Book.title :=
             match UpdateBookData.title data with
             | Value s => if JsString.truthy s then sanitizeString s
                          else Book.title existingBook
             | _ => Book.title existingBook
             end;
           Book.author :=
             match UpdateBookData.author data with
             | Value s => if JsString.truthy s then sanitizeString s
                          else Book.author existingBook
             | _ => Book.author existingBook
             end;
           Book.year :=
             match UpdateBookData.year data with
             | Value y => y
             | _ => Book.year existingBook
             end |} in
      modify (JsMap.set id updatedBook) ;;;
      ret (Some updatedBook)
  end.

Definition safeUpdate (e : Env) (id : string) (data : UpdateBookData.t)
  : M (Result Book.t) :=
  try_catch
    (book <- update e id data ;;
     match book with
     | None => ret (failure (BookNotFoundError id))
     | Some b => ret (success b)
     end)
    (fun error => ret (failure error)).

Definition delete (id : string) : M bool :=
  fun st => (Returned (JsMap.has id st), JsMap.remove id st).

Definition safeDelete (id : string) : M unit :=
  deleted <- delete id ;;
  if deleted then ret tt else throw (BookNotFoundError id).

Definition count : M Z :=
  gets (fun st => Z.of_nat (JsMap.size st)).

Definition clear : M unit :=
  modify (fun _ => JsMap.empty).

Definition isEmpty : M bool :=
  gets (fun st => (JsMap.size st =? 0)%nat).

Definition getPaginated (page pageSize : Z) : M Page :=
  totalBooks <- count ;;
  let totalPages := JsMath.ceil_div totalBooks pageSize in
  let currentPage := JsMath.max (Fin 1) (JsMath.min (Fin page) totalPages) in
  let startIndex := JsMath.mul (JsMath.sub currentPage (Fin 1)) (Fin pageSize) in
  let endIndex := JsMath.add startIndex (Fin pageSize) in
  allBooks <- findAll ;;
  let books := JsArray.slice allBooks startIndex endIndex in
  ret {| books := books;
         totalBooks := totalBooks;
         totalPages := totalPages;
         currentPage := currentPage;
         hasNextPage := JsMath.lt currentPage totalPages;
         hasPreviousPage := JsMath.gt currentPage (Fin 1) |}.

End BookService.

(** ** Runs of the service *)

Inductive Op : Type :=
| OpCreate (e : Env) (data : CreateBookData.t)
| OpSafeCreate (e : Env) (data : CreateBookData.t)
| OpUpdate (e : Env) (id : string) (data : UpdateBookData.t)
| OpSafeUpdate (e : Env) (id : string) (data : UpdateBookData.t)
| OpDelete (id : string)
| OpSafeDelete (id : string)
| OpClear.

(** The store after one call, whatever the call returned or threw. *)
Definition exec (o : Op) (st : Store) : Store :=
  match o with
  | OpCreate e data => snd (BookService.create e data st)
  | OpSafeCreate e data => snd (BookService.safeCreate e data st)
  | OpUpdate e id data => snd (BookService.update e id data st)
  | OpSafeUpdate e id data => snd (BookService.safeUpdate e id data st)
  | OpDelete id => snd (BookService.delete id st)
  | OpSafeDelete id => snd (BookService.safeDelete id st)
  | OpClear => snd (BookService.clear st)
  end.

Definition run (ops : list Op) (st : Store) : Store :=
  fold_left (fun st o => exec o st) ops st.

(** A store the service can be in: the result of some run from the empty map. *)
Definition reachable (st : Store) : Prop :=
  exists ops, st = run ops JsMap.empty.

(** * Further code: the front end *)

(** ** [parseInt(s, 10)] and [isNaN] *)

Module JsGlobal.

(** The value of a decimal digit. *)
Definition digitOf (c : ascii) : option Z :=
  let n := N_of_ascii c in
  if ((48 <=? n) && (n <=? 57))%N then Some (Z.of_N n - 48) else None.

(** The integer written by the longest run of digits at the start of [s],
    read after digits worth [acc]. *)
Fixpoint digitsValue (acc : Z) (s : string) : Z :=
  match s with
  | EmptyString => acc
  | String c s' =>
      match digitOf c with
      | Some d => digitsValue (10 * acc + d) s'
      | None => acc
      end
  end.

(** The Number value of a mathematical integer: from [2^1024 - 2^970] on
    the nearest double is an infinity, which is not an integer; below, the
    integral double nearest to [z] is written [Int z]. *)
Definition ofInteger (z : Z) : number :=
  if Z.abs z <? 2 ^ 1024 - 2 ^ 970 then Int z else NonInteger.

(** [parseInt(s, 10)]; [None] is NaN. White space at the start is skipped,
    one sign is read, then the digits up to the first code unit that is not
    one. *)
Definition parseInt10 (s : string) : option number :=
  let S := JsString.trimStart s in
  let sign := match S with String "-" _ => -1 | _ => 1 end in
  let S' := match S with
            | String "-" rest => rest
            | String "+" rest => rest
            | _ => S
            end in
  match S' with
  | EmptyString => None
  | String c _ =>
      match digitOf c with
      | Some _ => Some (ofInteger (sign * digitsValue 0 S'))
      | None => None
      end
  end.

Definition isNaN (x : option number) : bool :=
  match x with None => true | Some _ => false end.

End JsGlobal.

(** ** [BookCLI.ts] *)

Module BookCLI.

(** What a handler writes to the console, one constructor for each
    [console.log] that reports an outcome, with the record or the message it
    shows; the wording and decoration of the lines are left out. *)
Inductive Line : Type :=
| InvalidYear
| BookAdded (book : Book.t)
| ValidationErrorLine (message : string)
| OtherErrorLine (message : string)
| BookNotFound
| BookDetails (book : Book.t)
| NoChanges
| BookUpdated (book : Book.t)
| BookDeleted
| NotFoundErrorLine (message : string)
| DeleteCancelled.

(** [error instanceof C], the class being read off [name]. *)
Definition instanceof (error : Error) (class : string) : bool :=
  String.eqb (name error) class.

(** [addBook], given the three answers typed by the user. *)
Definition addBook (e : Env) (title author yearStr : string) : M (list Line) :=
  let year := JsGlobal.parseInt10 yearStr in
  match year with
  | None => ret [InvalidYear]
  | Some year =>
      let bookData :=
        {| CreateBookData.title := title;
           CreateBookData.author := author;
           CreateBookData.year := year |} in
      try_catch
        (newBook <- BookService.create e bookData ;;
         ret [BookAdded newBook])
        (fun error =>
           if instanceof error "ValidationError"
           then ret [ValidationErrorLine (message error)]
           else ret [OtherErrorLine (message error)])
  end.

(** [if (answer.trim()) updateData.field = answer] *)
Definition typed (answer : string) : optional string :=
  if JsString.truthy (JsString.trim answer) then Value answer else Absent.

(** [updateBook], given the identifier and the three answers. *)
Definition updateBook (e : Env) (id title author yearStr : string)
  : M (list Line) :=
  existingBook <- BookService.findById id ;;
  match existingBook with
  | None => ret [BookNotFound]
  | Some existingBook =>
      let year :=
        if JsString.truthy (JsString.trim yearStr)
        then match JsGlobal.parseInt10 yearStr with
             | None => None
             | Some year => Some (Value year)
             end
        else Some Absent in
      match year with
      | None => ret [BookDetails existingBook; InvalidYear]
      | Some year =>
          let updateData :=
            {| UpdateBookData.title := typed title;
               UpdateBookData.author := typed author;
               UpdateBookData.year := year |} in
          if (UpdateBookData.keys_length updateData =? 0)%nat
          then ret [BookDetails existingBook; NoChanges]
          else
            try_catch
              (updatedBook <- BookService.update e id updateData ;;
               match updatedBook with
               | Some book => ret [BookDetails existingBook; BookUpdated book]
               | None => ret [BookDetails existingBook]
               end)
              (fun error =>
                 if instanceof error "ValidationError"
                 then ret [BookDetails existingBook;
                           ValidationErrorLine (message error)]
                 else ret [BookDetails existingBook;
                           OtherErrorLine (message error)])
      end
  end.

(** [deleteBook], given the identifier and the answer to the confirmation. *)
Definition deleteBook (id confirm : string) : M (list Line) :=
  existingBook <- BookService.findById id ;;
  match existingBook with
  | None => ret [BookNotFound]
  | Some existingBook =>
      if String.eqb (JsString.toLowerCase confirm) "yes"
         || String.eqb (JsString.toLowerCase confirm) "y"
      then
        try_catch
          (BookService.safeDelete id ;;;
           ret [BookDetails existingBook; BookDeleted])
          (fun error =>
             if instanceof error "BookNotFoundError"
             then ret [BookDetails existingBook;
                       NotFoundErrorLine (message error)]
             else ret [BookDetails existingBook;
                       OtherErrorLine (message error)])
      else ret [BookDetails existingBook; DeleteCancelled]
  end.

(** The tally [viewStatistics] builds: how many books each author has, the
    authors in the order in which they first appear. *)
Definition authorCounts (books : list Book.t) : JsMap.t nat :=
  fold_left
    (fun counts book =>
       let count := match JsMap.get (Book.author book) counts with
                    | Some n => n
                    | None => 0%nat
                    end in
       JsMap.set (Book.author book) (count + 1)%nat counts)
    books JsMap.empty.

(** The author [viewStatistics] finds by walking the tally and keeping an
    entry only when its count is greater than the best so far. *)
Definition mostProlific (counts : JsMap.t nat) : string * nat :=
  fold_left
    (fun best entry =>
       if (snd best <? snd entry)%nat then entry else best)
    counts (EmptyString, 0%nat).

End BookCLI.

(** * Text beyond Latin-1 *)

(** The search methods compare text through [toLowerCase], which maps a
    capital sigma by the letters around it; the letters concerned lie
    outside Latin-1. For the search the strings are therefore also given as
    sequences of UTF-16 code units of any value. The entries of the Unicode
    Character Database that the runtime consults are a parameter
    ([CaseData]): nothing is assumed of them here. *)

Module Utf16.

Module JsString.

(** A string: its UTF-16 code units. *)
Definition t : Type := list N.

(** [WhiteSpace] and [LineTerminator]: TAB, LF, VT, FF, CR, SP, NBSP, the
    other space separators, LS, PS and the byte order mark. *)
Definition isWhiteSpace (u : N) : bool :=
  (((9 <=? u) && (u <=? 13)) || (u =? 32) || (u =? 160) || (u =? 0x1680)
   || ((0x2000 <=? u) && (u <=? 0x200A)) || (u =? 0x2028) || (u =? 0x2029)
   || (u =? 0x202F) || (u =? 0x205F) || (u =? 0x3000) || (u =? 0xFEFF))%N.

Fixpoint trimStart (s : t) : t :=
  match s with
  | [] => []
  | u :: s' => if isWhiteSpace u then trimStart s' else s
  end.

Fixpoint trimEnd (s : t) : t :=
  match s with
  | [] => []
  | u :: s' =>
      match trimEnd s' with
      | [] => if isWhiteSpace u then [] else [u]
      | r => u :: r
      end
  end.

Definition trim (s : t) : t := trimEnd (trimStart s).

Fixpoint startsWith (s search : t) {struct search} : bool :=
  match search, s with
  | [], _ => true
  | _ :: _, [] => false
  | a :: search', b :: s' => (a =? b)%N && startsWith s' search'
  end.

(** [s.includes(search)] *)
Fixpoint includes (s search : t) : bool :=
  startsWith s search
  || match s with
     | [] => false
     | _ :: s' => includes s' search
     end.

Definition isLeadingSurrogate (u : N) : bool :=
  ((0xD800 <=? u) && (u <=? 0xDBFF))%N.

Definition isTrailingSurrogate (u : N) : bool :=
  ((0xDC00 <=? u) && (u <=? 0xDFFF))%N.

(** [StringToCodePoints]: a leading surrogate followed by a trailing one is
    one code point, any other code unit is a code point by itself. *)
Fixpoint codePoints (s : t) : list N :=
  match s with
  | [] => []
  | u :: s' =>
      match s' with
      | v :: s'' =>
          if isLeadingSurrogate u && isTrailingSurrogate v
          then (0x10000 + (u - 0xD800) * 0x400 + (v - 0xDC00))%N
               :: codePoints s''
          else u :: codePoints s'
      | [] => [u]
      end
  end.

(** [CodePointsToString] *)
Definition codeUnits (cp : N) : list N :=
  if (cp <? 0x10000)%N then [cp]
  else [(0xD800 + (cp - 0x10000) / 0x400)%N;
        (0xDC00 + (cp - 0x10000) mod 0x400)%N].

Definition ofCodePoints (l : list N) : t := flat_map codeUnits l.

(** What [toLowerCase] reads in the Unicode Character Database: the
    lower-case mapping of a code point taken by itself, and the properties
    Cased and Case_Ignorable. *)
Record CaseData : Type := mkCaseData
  { lowercase : N -> list N;
    cased : N -> bool;
    caseIgnorable : N -> bool }.

Section Lowercase.
Variable ucd : CaseData.

(** Going through [l], case-ignorable code points are passed over and the
    first other one is a cased letter. *)
Fixpoint reachesCased (l : list N) : bool :=
  match l with
  | [] => false
  | c :: l' => if caseIgnorable ucd c then reachesCased l' else cased ucd c
  end.

(** The condition Final_Sigma on a capital sigma: [before] holds the code
    points that precede it, the nearest first, [after] those that follow. *)
Definition finalSigma (before after : list N) : bool :=
  reachesCased before && negb (reachesCased after).

(** The lower-case mapping of the code points [l], which [before] precede:
    a capital sigma (U+03A3) in final position becomes the final small
    sigma (U+03C2), every other code point its mapping in the database. *)
Fixpoint lowerFrom (before l : list N) : list N :=
  match l with
  | [] => []
  | c :: l' =>
      ((if (c =? 0x3A3)%N && finalSigma before l'
        then [0x3C2%N] else lowercase ucd c)
       ++ lowerFrom (c :: before) l')%list
  end.

Definition toLowerCase (s : t) : t :=
  ofCodePoints (lowerFrom [] (codePoints s)).

End Lowercase.

End JsString.

Module Book.
(** Identifiers are generated, title and author are typed by the user. *)
Record t : Type := mk
  { id : string; title : JsString.t; author : JsString.t; year : number }.
End Book.

(** The search methods of [BookService.ts]; they read the map and neither
    write it nor throw. *)
Module BookService.
Section Search.
Variable ucd : JsString.CaseData.

Definition findAll (books : JsMap.t Book.t) : list Book.t :=
  JsMap.values books.

Definition findByAuthor (author : JsString.t) (books : JsMap.t Book.t)
  : list Book.t :=
  let normalizedAuthor := JsString.trim (JsString.toLowerCase ucd author) in
  filter (fun book =>
            JsString.includes (JsString.toLowerCase ucd (Book.author book))
                              normalizedAuthor)
         (findAll books).

Definition findByTitle (title : JsString.t) (books : JsMap.t Book.t)
  : list Book.t :=
  let normalizedTitle := JsString.trim (JsString.toLowerCase ucd title) in
  filter (fun book =>
            JsString.includes (JsString.toLowerCase ucd (Book.title book))
                              normalizedTitle)
         (findAll books).

End Search.
End BookService.

End Utf16.

(** * Vocabulary of the statements *)

(** The years [validateYear] accepts. *)
Definition valid_year (currentYear : Z) (y : number) : Prop :=
  exists z, y = Int z /\ 0 <= z <= currentYear.

(** The record [create] builds from a request. *)
Definition created (e : Env) (data : CreateBookData.t) : Book.t :=
  {| Book.id := generateId e;
     Book.title := sanitizeString (CreateBookData.title data);
     Book.author := sanitizeString (CreateBookData.author data);
     Book.year := CreateBookData.year data |}.

(** The record [update] builds from the stored one and a request. *)
Definition merged (old : Book.t) (data : UpdateBookData.t) : Book.t :=
  {| Book.id := Book.id old;
     Book.title :=
       match UpdateBookData.title data with
       | Value s => if JsString.truthy s then sanitizeString s else Book.title old
       | _ => Book.title old
       end;
     Book.author :=
       match UpdateBookData.author data with
       | Value s => if JsString.truthy s then sanitizeString s else Book.author old
       | _ => Book.author old
       end;
     Book.year :=
       match UpdateBookData.year data with
       | Value y => y
       | _ => Book.year old
       end |}.

Definition keys_match (st : Store) : Prop :=
  forall k b, In (k, b) st -> Book.id b = k.

(** The calendar year a call reads, for the calls that validate. *)
Definition op_year (o : Op) : option Z :=
  match o with
  | OpCreate e _ | OpSafeCreate e _ | OpUpdate e _ _ | OpSafeUpdate e _ _ =>
      Some (fullYear e)
  | OpDelete _ | OpSafeDelete _ | OpClear => None
  end.

Definition years (ops : list Op) : list Z :=
  flat_map (fun o => match op_year o with Some y => [y] | None => [] end) ops.

(** The calendar does not run backwards. *)
Fixpoint nondecreasing (l : list Z) : bool :=
  match l with
  | a :: (b :: _) as rest => (a <=? b) && nondecreasing rest
  | _ => true
  end.

(** The key a call writes a record under, if it writes one. *)
Definition written (o : Op) (st : Store) : option string :=
  match o with
  | OpCreate e data | OpSafeCreate e data =>
      match BookService.create e data st with
      | (Returned b, _) => Some (Book.id b)
      | (Thrown _, _) => None
      end
  | OpUpdate e id data | OpSafeUpdate e id data =>
      match BookService.update e id data st with
      | (Returned (Some _), _) => Some id
      | _ => None
      end
  | OpDelete _ | OpSafeDelete _ | OpClear => None
  end.

(** For each key, the calendar year at the time of its last write. *)
Definition Stamps : Type := string -> option Z.

Definition stamp (o : Op) (st : Store) (g : Stamps) : Stamps :=
  match written o st, op_year o with
  | Some k, Some y => fun k' => if String.eqb k' k then Some y else g k'
  | _, _ => g
  end.

Fixpoint lastWriteYear (ops : list Op) (st : Store) (g : Stamps) : Stamps :=
  match ops with
  | [] => g
  | o :: ops' => lastWriteYear ops' (exec o st) (stamp o st g)
  end.

(** A record that passes validation in calendar year [cy]. *)
Definition valid_record (cy : Z) (b : Book.t) : Prop :=
  JsString.trim (Book.title b) <> EmptyString /\
  JsString.trim (Book.author b) <> EmptyString /\
  valid_year cy (Book.year b).

(** Every entry was valid in the year of its last write, and no such year is
    later than [hi]. *)
Definition stamped (hi : Z) (st : Store) (g : Stamps) : Prop :=
  forall k b, In (k, b) st ->
    exists w, g k = Some w /\ w <= hi /\ valid_record w b.

Definition create_succeeds (e : Env) (data : CreateBookData.t) (st : Store) : Prop :=
  exists b st', BookService.create e data st = (Returned b, st').

Definition update_succeeds
  (e : Env) (id : string) (data : UpdateBookData.t) (st : Store) : Prop :=
  exists b st', BookService.update e id data st = (Returned (Some b), st').

Definition raises_ValidationError {A} (r : outcome A * Store) : Prop :=
  exists msg, fst r = Thrown (ValidationError msg).

(** The elements of [l] whose index [j], counted from [i], satisfies
    [lo <= j < hi]. *)
Fixpoint range_from {A} (i : Z) (l : list A) (lo hi : Z) : list A :=
  match l with
  | [] => []
  | x :: l' =>
      if (lo <=? i) && (i <? hi)
      then x :: range_from (i + 1) l' lo hi
      else range_from (i + 1) l' lo hi
  end.

(** The slice of [l] over the indices [lo, hi). *)
Definition index_range {A} (l : list A) (lo hi : Z) : list A :=
  range_from 0 l lo hi.

(** [field], compared without regard to case, contains the trimmed search
    string [s]. *)
Definition contains_ci (field s : string) : Prop :=
  exists pre post,
    JsString.toLowerCase field
    = pre ++ JsString.toLowerCase (JsString.trim s) ++ post.

Definition contains_cib (field s : string) : bool :=
  JsString.includes (JsString.toLowerCase field)
                    (JsString.toLowerCase (JsString.trim s)).

Definition isDigit (c : ascii) : bool :=
  ((48 <=? N_of_ascii c) && (N_of_ascii c <=? 57))%N.

Fixpoint digits (s : string) : bool :=
  match s with
  | EmptyString => true
  | String c s' => isDigit c && digits s'
  end.

(** What every version of the Unicode Character Database says of the
    letters alpha and sigma: the capital alpha (U+0391) is a cased letter,
    not case-ignorable, with the small alpha (U+03B1) as its lower case;
    outside the final position the lower case of the capital sigma (U+03A3)
    is the small sigma (U+03C3); the two small letters are their own lower
    case. *)
Definition greek_entries (ucd : Utf16.JsString.CaseData) : Prop :=
  Utf16.JsString.lowercase ucd 0x391%N = [0x3B1%N] /\
  Utf16.JsString.lowercase ucd 0x3A3%N = [0x3C3%N] /\
  Utf16.JsString.cased ucd 0x391%N = true /\
  Utf16.JsString.caseIgnorable ucd 0x391%N = false /\
  Utf16.JsString.lowercase ucd 0x3B1%N = [0x3B1%N] /\
  Utf16.JsString.lowercase ucd 0x3C3%N = [0x3C3%N].

(** A string of the Latin-1 embedding as a sequence of UTF-16 code units,
    and the same for records and for the map. *)
Definition widen (s : string) : Utf16.JsString.t :=
  map N_of_ascii (list_ascii_of_string s).

Definition widenBook (b : Book.t) : Utf16.Book.t :=
  {| Utf16.Book.id := Book.id b;
     Utf16.Book.title := widen (Book.title b);
     Utf16.Book.author := widen (Book.author b);
     Utf16.Book.year := Book.year b |}.

Definition widenStore (st : Store) : JsMap.t Utf16.Book.t :=
  map (fun entry => (fst entry, widenBook (snd entry))) st.

(** The lower-case mappings of the database below U+0100 are those of
    [JsString.toLowerChar]. *)
Definition latin1_entries (ucd : Utf16.JsString.CaseData) : Prop :=
  forall c : ascii,
    Utf16.JsString.lowercase ucd (N_of_ascii c)
    = [N_of_ascii (JsString.toLowerChar c)].

(** * Vocabulary of the further statements *)

(** A record in the form the service stores it: title and author trimmed and
    not empty, the year an integer that is not negative. *)
Definition normalized (b : Book.t) : Prop :=
  JsString.trim (Book.title b) = Book.title b /\
  Book.title b <> EmptyString /\
  JsString.trim (Book.author b) = Book.author b /\
  Book.author b <> EmptyString /\
  exists z, Book.year b = Int z /\ 0 <= z.

(** The call came back without an effect to report: it threw, returned
    [null] or [false], or returned a failure. *)
Definition reports_failure (o : Op) (st : Store) : bool :=
  match o with
  | OpCreate e data =>
      match fst (BookService.create e data st) with
      | Thrown _ => true
      | Returned _ => false
      end
  | OpSafeCreate e data =>
      match fst (BookService.safeCreate e data st) with
      | Returned (success _) => false
      | _ => true
      end
  | OpUpdate e id data =>
      match fst (BookService.update e id data st) with
      | Returned (Some _) => false
      | _ => true
      end
  | OpSafeUpdate e id data =>
      match fst (BookService.safeUpdate e id data st) with
      | Returned (success _) => false
      | _ => true
      end
  | OpDelete id =>
      match fst (BookService.delete id st) with
      | Returned true => false
      | _ => true
      end
  | OpSafeDelete id =>
      match fst (BookService.safeDelete id st) with
      | Returned _ => false
      | Thrown _ => true
      end
  | OpClear => false
  end.

(** Every code unit of the string is white space. *)
Fixpoint allWhite (s : string) : bool :=
  match s with
  | EmptyString => true
  | String c s' => JsString.isWhiteSpace c && allWhite s'
  end.

(** The last code unit of a string, if any, is not white space. *)
Fixpoint clean_last (s : string) : Prop :=
  match s with
  | EmptyString => True
  | String c EmptyString => JsString.isWhiteSpace c = false
  | String _ s' => clean_last s'
  end.

(** The records [getPaginated(page, pageSize)] returns. *)
Definition pageBooks (page pageSize : Z) (st : Store) : list Book.t :=
  match fst (BookService.getPaginated page pageSize st) with
  | Returned p => books p
  | Thrown _ => []
  end.

(** The page numbers 1, ..., [n]. *)
Definition pagesUpTo (n : Z) : list Z :=
  map Z.of_nat (seq 1 (Z.to_nat n)).

(** The update request that supplies every field of a creation request. *)
Definition fullUpdate (c : CreateBookData.t) : UpdateBookData.t :=
  {| UpdateBookData.title := Value (CreateBookData.title c);
     UpdateBookData.author := Value (CreateBookData.author c);
     UpdateBookData.year := Value (CreateBookData.year c) |}.

(** No field of the request holds a value. *)
Definition suppliesNothing (d : UpdateBookData.t) : Prop :=
  (forall s, UpdateBookData.title d <> Value s) /\
  (forall s, UpdateBookData.author d <> Value s) /\
  (forall y, UpdateBookData.year d <> Value y).

(** The string does not start with a decimal digit. *)
Definition noDigitAhead (s : string) : Prop :=
  match s with
  | EmptyString => True
  | String c _ => JsGlobal.digitOf c = None
  end.

(** The number of books of [books] whose author is [a]. *)
Definition booksBy (a : string) (books : list Book.t) : nat :=
  List.length (filter (fun b => String.eqb (Book.author b) a) books).

(** The count the tally holds for [a], 0 when it has none. *)
Definition tallyOf (a : string) (counts : JsMap.t nat) : nat :=
  match JsMap.get a counts with Some n => n | None => 0%nat end.

(** One step of the tally. *)
Definition tallyStep (counts : JsMap.t nat) (book : Book.t) : JsMap.t nat :=
  JsMap.set (Book.author book) (tallyOf (Book.author book) counts + 1)%nat counts.

(** The sum of the counts of a tally. *)
Definition tallySum (counts : JsMap.t nat) : nat :=
  fold_right Nat.add 0%nat (JsMap.values counts).

(** The record the answers typed into [updateBook] ask for: an answer that
    is not blank replaces the field, trimmed; a blank one keeps it. *)
Definition answered (old : Book.t) (title author : string)
  (year : optional number) : Book.t :=
  {| Book.id := Book.id old;
     Book.title := if JsString.truthy (JsString.trim title)
                   then JsString.trim title else Book.title old;
     Book.author := if JsString.truthy (JsString.trim author)
                    then JsString.trim author else Book.author old;
     Book.year := match year with Value y => y | _ => Book.year old end |}.

(** The error a call throws, if it throws. *)
Definition thrown (o : Op) (st : Store) : option Error :=
  let caught {A} (r : outcome A * Store) : option Error :=
    match fst r with Thrown err => Some err | Returned _ => None end in
  match o with
  | OpCreate e data => caught (BookService.create e data st)
  | OpSafeCreate e data => caught (BookService.safeCreate e data st)
  | OpUpdate e id data => caught (BookService.update e id data st)
  | OpSafeUpdate e id data => caught (BookService.safeUpdate e id data st)
  | OpDelete id => caught (BookService.delete id st)
  | OpSafeDelete id => caught (BookService.safeDelete id st)
  | OpClear => caught (BookService.clear st)
  end.

(** The identifier a call may write or remove; [None] for [clear], which
    removes all. *)
Definition target (o : Op) : option string :=
  match o with
  | OpCreate e _ | OpSafeCreate e _ => Some (generateId e)
  | OpUpdate _ id _ | OpSafeUpdate _ id _ | OpDelete id | OpSafeDelete id =>
      Some id
  | OpClear => None
  end.

(** * Sample inputs *)

Module Sample.
(** The random readings of the samples are the base-36 renderings of doubles
    that are multiples of 2^-52, as [Math.random] returns them: here of
    555996395596649 * 2^-52 and of 2515636277571220 * 2^-52. *)
Definition env : Env :=
  {| now := 1700000000000; random36 := "0.4fzyo82mvwd"; fullYear := 2024 |}.
Definition later : Env :=
  {| now := 1700000000500; random36 := "0.k3x9q0aa1ed"; fullYear := 2024 |}.
Definition request : CreateBookData.t :=
  {| CreateBookData.title := "  Test Book  ";
     CreateBookData.author := "Test Author";
     CreateBookData.year := Int 2023 |}.
Definition other : CreateBookData.t :=
  {| CreateBookData.title := "Another Book";
     CreateBookData.author := " Different Author";
     CreateBookData.year := Int 1999 |}.
Definition retitle : UpdateBookData.t :=
  {| UpdateBookData.title := Value "  Updated Title ";
     UpdateBookData.author := Absent;
     UpdateBookData.year := Undefined |}.
Definition nothing : UpdateBookData.t :=
  {| UpdateBookData.title := Absent;
     UpdateBookData.author := Absent;
     UpdateBookData.year := Absent |}.
Definition store1 : Store := run [OpCreate env request] JsMap.empty.
Definition id1 : string := generateId env.
(** The string written ['\t\nworld\t\n'] in the tests. *)
Definition padded : string :=
  String "009" (String "010" ("world" ++ String "009" (String "010" EmptyString))).
End Sample.

Module SampleRun.
(** Two creations, a title-only update of the first record a year later,
    a deletion of a key that does not exist and a rejected creation. The
    random reading is the rendering of 4500901074580728 * 2^-52. *)
Definition nextYear : Env :=
  {| now := 1735700000000; random36 := "0.zz81kq0c3ih"; fullYear := 2025 |}.
Definition ops : list Op :=
  [ OpCreate Sample.env Sample.request;
    OpSafeCreate Sample.later Sample.other;
    OpUpdate nextYear Sample.id1 Sample.retitle;
    OpDelete "non-existent-id";
    OpCreate nextYear
      {| CreateBookData.title := "   ";
         CreateBookData.author := "Nobody";
         CreateBookData.year := Int 2025 |} ].
Definition record : Book.t :=
  {| Book.id := Sample.id1;
     Book.title := "Updated Title";
     Book.author := "Test Author";
     Book.year := Int 2023 |}.
End SampleRun.

Module SampleYear.
(** An update that supplies a year in range together with an empty title. *)
Definition untitled : UpdateBookData.t :=
  {| UpdateBookData.title := Value "";
     UpdateBookData.author := Absent;
     UpdateBookData.year := Value (Int 2000) |}.
Definition reyear : UpdateBookData.t :=
  {| UpdateBookData.title := Absent;
     UpdateBookData.author := Value "New Author";
     UpdateBookData.year := Value (Int 2024) |}.
End SampleYear.

Module SamplePages.
Definition book (i : Z) : Op :=
  OpCreate {| now := 1700000000000 + Z.to_N i;
              random36 := "0.4fzyo82mvwd";
              fullYear := 2025 |}
           {| CreateBookData.title := "Book " ++ JsString.ofZ i;
              CreateBookData.author := "Author " ++ JsString.ofZ i;
              CreateBookData.year := Int (2020 + i) |}.
Definition five : Store :=
  run [book 1; book 2; book 3; book 4; book 5] JsMap.empty.
End SamplePages.

Module SampleSearch.
Definition library : Store :=
  run [OpCreate Sample.env Sample.request; OpCreate Sample.later Sample.other]
      JsMap.empty.
End SampleSearch.

Module SampleIds.
(** Two readings within the same millisecond whose random draws differ
    only after the ninth base-36 digit: [Math.random()] returns
    0.12345599999999934 (555996395596649 * 2^-52) in the first call and
    0.12345599999999957 (555996395596650 * 2^-52), the next multiple of
    2^-52, in the second; [toString(36)] renders them as below. *)
Definition first : Env :=
  {| now := 1700000000000; random36 := "0.4fzyo82mvwd"; fullYear := 2024 |}.
Definition second : Env :=
  {| now := 1700000000000; random36 := "0.4fzyo82mvx6"; fullYear := 2024 |}.
Definition store : Store := run [OpCreate first Sample.request] JsMap.empty.
End SampleIds.

Module SampleGreek.
(** The entries of the database for the Basic Latin and Latin-1 Supplement
    blocks and for the Greek letters U+0391 to U+03A9 and U+03B1 to U+03C9;
    the other code points are entered without case. *)
Definition ucd : Utf16.JsString.CaseData :=
  {| Utf16.JsString.lowercase := fun c =>
       if (((0x41 <=? c) && (c <=? 0x5A))
           || ((0xC0 <=? c) && (c <=? 0xDE) && negb (c =? 0xD7))
           || ((0x391 <=? c) && (c <=? 0x3A9) && negb (c =? 0x3A2)))%N
       then [(c + 32)%N] else [c];
     Utf16.JsString.cased := fun c =>
       (((0x41 <=? c) && (c <=? 0x5A)) || ((0x61 <=? c) && (c <=? 0x7A))
        || (c =? 0xAA) || (c =? 0xB5) || (c =? 0xBA)
        || ((0xC0 <=? c) && (c <=? 0xFF) && negb (c =? 0xD7) && negb (c =? 0xF7))
        || ((0x391 <=? c) && (c <=? 0x3A9) && negb (c =? 0x3A2))
        || ((0x3B1 <=? c) && (c <=? 0x3C9)))%N;
     Utf16.JsString.caseIgnorable := fun c =>
       ((c =? 0x27) || (c =? 0x2E) || (c =? 0x3A) || (c =? 0x5E) || (c =? 0x60)
        || (c =? 0xA8) || (c =? 0xAD) || (c =? 0xAF) || (c =? 0xB4)
        || (c =? 0xB7) || (c =? 0xB8))%N |}.
(** The strings written with the capital letters alpha, sigma, alpha and
    alpha, sigma, and with the small letters alpha, sigma. *)
Definition title : Utf16.JsString.t := [0x391; 0x3A3; 0x391]%N.
Definition query : Utf16.JsString.t := [0x391; 0x3A3]%N.
Definition small : Utf16.JsString.t := [0x3B1; 0x3C3]%N.
Definition book : Utf16.Book.t :=
  {| Utf16.Book.id := Sample.id1;
     Utf16.Book.title := title;
     Utf16.Book.author := title;
     Utf16.Book.year := Int 2020 |}.
Definition store : JsMap.t Utf16.Book.t := [(Sample.id1, book)].
End SampleGreek.

(** * Further sample inputs *)

Module Sample2.
(** The store at the end of the sample run. *)
Definition final : Store := run SampleRun.ops JsMap.empty.
(** A search string of white space only. *)
Definition padding : string := String "009" (String " " (String "010" EmptyString)).
End Sample2.

Module Sample3.
(** A request whose only key holds [undefined]. *)
Definition undefinedTitle : UpdateBookData.t :=
  {| UpdateBookData.title := Undefined;
     UpdateBookData.author := Absent;
     UpdateBookData.year := Absent |}.
End Sample3.

Module Sample4.
Definition shelf : list Book.t :=
  [ {| Book.id := "a"; Book.title := "Emma"; Book.author := "Jane Austen";
       Book.year := Int 1815 |};
    {| Book.id := "b"; Book.title := "1984"; Book.author := "George Orwell";
       Book.year := Int 1949 |};
    {| Book.id := "c"; Book.title := "Animal Farm"; Book.author := "George Orwell";
       Book.year := Int 1945 |};
    {| Book.id := "d"; Book.title := "Persuasion"; Book.author := "Jane Austen";
       Book.year := Int 1817 |} ].
End Sample4.

(** * Properties *)


(** ** Strings *)

Module JsStringFacts.
Import JsString.

Lemma isWhiteSpace_toLowerChar (c : ascii) :
  isWhiteSpace (toLowerChar c) = isWhiteSpace c.
Proof. destruct c as [[] [] [] [] [] [] [] []]; reflexivity. Qed.

Lemma trimStart_toLowerCase (s : string) :
  trimStart (toLowerCase s) = toLowerCase (trimStart s).
Proof.
  induction s as [|c s IH]; simpl; [reflexivity|].
  rewrite isWhiteSpace_toLowerChar.
  destruct (isWhiteSpace c); [exact IH | reflexivity].
Qed.

Lemma trimEnd_toLowerCase (s : string) :
  trimEnd (toLowerCase s) = toLowerCase (trimEnd s).
Proof.
  induction s as [|c s IH]; simpl; [reflexivity|].
  rewrite IH, isWhiteSpace_toLowerChar.
  destruct (trimEnd s); simpl; [|reflexivity].
  destruct (isWhiteSpace c); reflexivity.
Qed.

(** Lower-casing and trimming commute: no letter is white space. *)
Lemma trim_toLowerCase (s : string) :
  trim (toLowerCase s) = toLowerCase (trim s).
Proof.
  unfold trim. now rewrite trimStart_toLowerCase, trimEnd_toLowerCase.
Qed.

Lemma trimStart_clean_head (s : string) : clean_head (trimStart s).
Proof.
  induction s as [|c s IH]; simpl; [exact I|].
  destruct (isWhiteSpace c) eqn:E; [exact IH | exact E].
Qed.

Lemma trimStart_id (s : string) : clean_head s -> trimStart s = s.
Proof.
  destruct s as [|c s]; simpl; [reflexivity|]. now intros ->.
Qed.

Lemma trimEnd_clean_head (s : string) : clean_head s -> clean_head (trimEnd s).
Proof.
  destruct s as [|c s]; simpl; [exact id|]. intros H.
  destruct (trimEnd s); simpl; [rewrite H|]; exact H.
Qed.

Lemma trimEnd_idempotent (s : string) : trimEnd (trimEnd s) = trimEnd s.
Proof.
  induction s as [|c s IH]; simpl; [reflexivity|].
  destruct (trimEnd s) as [|d t] eqn:E.
  - destruct (isWhiteSpace c) eqn:W; simpl; [reflexivity | now rewrite W].
  - change (trimEnd (String c (String d t))) with
      (match trimEnd (String d t) with
       | EmptyString =>
           if isWhiteSpace c then EmptyString else String c EmptyString
       | u => String c u
       end).
    now rewrite IH.
Qed.

Lemma trim_idempotent (s : string) : trim (trim s) = trim s.
Proof.
  unfold trim.
  rewrite (trimStart_id (trimEnd (trimStart s))).
  - apply trimEnd_idempotent.
  - apply trimEnd_clean_head, trimStart_clean_head.
Qed.

Lemma length_zero (s : string) :
  (String.length s =? 0)%nat = true <-> s = EmptyString.
Proof.
  destruct s; simpl; split; intros H; try reflexivity; discriminate.
Qed.

Lemma trim_empty : trim EmptyString = EmptyString.
Proof. reflexivity. Qed.

Lemma startsWith_spec (s search : string) :
  startsWith s search = true <-> exists post, s = search ++ post.
Proof.
  revert s. induction search as [|a search IH]; intros s; simpl.
  - split; [intros _; now exists s | reflexivity].
  - destruct s as [|b s].
    + split; [discriminate | intros [post H]; discriminate].
    + rewrite andb_true_iff, Ascii.eqb_eq, IH. split.
      * intros [-> [post ->]]. now exists post.
      * intros [post H]. injection H as -> ->. split; [reflexivity|now exists post].
Qed.

(** [includes] decides the substring relation. *)
Lemma includes_spec (s search : string) :
  includes s search = true <-> exists pre post, s = pre ++ search ++ post.
Proof.
  induction s as [|c s IH].
  - simpl. rewrite orb_false_r, startsWith_spec. split.
    + intros [post H]. now exists EmptyString, post.
    + intros [pre [post H]]. destruct pre; [now exists post|discriminate].
  - cbn [includes]. rewrite orb_true_iff, startsWith_spec, IH. split.
    + intros [[post H] | [pre [post H]]].
      * now exists EmptyString, post.
      * exists (String c pre), post. simpl. now rewrite H.
    + intros [pre [post H]]. destruct pre as [|d pre]; simpl in H.
      * left. now exists post.
      * right. injection H as _ H. now exists pre, post.
Qed.

End JsStringFacts.

(** ** Validation *)

Lemma blank_false (s : string) :
  blank s = false <-> JsString.trim s <> EmptyString.
Proof.
  unfold blank. rewrite orb_false_iff, negb_false_iff.
  destruct s as [|c s].
  - simpl. split; [intros [H _]; discriminate | intros H; now elim H].
  - simpl JsString.truthy. split.
    + intros [_ H] E. rewrite E in H. discriminate.
    + intros H. split; [reflexivity|].
      destruct (JsString.trim (String c s)); [now elim H | reflexivity].
Qed.

Lemma validateYear_Returned (cy : Z) (y : number) :
  validateYear cy y = Returned tt <-> valid_year cy y.
Proof.
  unfold validateYear, valid_year. destruct y as [z|].
  - destruct ((z <? 0) || (z >? cy)) eqn:E.
    + split; [discriminate|]. intros [z' [H R]]. injection H as <-.
      rewrite orb_true_iff, Z.ltb_lt, Z.gtb_gt in E. lia.
    + split; [|reflexivity]. intros _. exists z. split; [reflexivity|].
      rewrite orb_false_iff, Z.ltb_ge, Z.gtb_ltb, Z.ltb_ge in E. lia.
  - split; [discriminate | intros [z [H _]]; discriminate].
Qed.

(** Every exception of the validators is a [ValidationError]. *)
Lemma validateYear_Thrown (cy : Z) (y : number) (e : Error) :
  validateYear cy y = Thrown e -> exists msg, e = ValidationError msg.
Proof.
  unfold validateYear. destruct y as [z|].
  - destruct ((z <? 0) || (z >? cy)); [|discriminate].
    intros H. injection H as <-. eauto.
  - intros H. injection H as <-. eauto.
Qed.

Lemma validateField_Thrown (what : string) (o : optional string) (e : Error) :
  validateField what o = Thrown e -> exists msg, e = ValidationError msg.
Proof.
  unfold validateField. destruct o as [| |s]; try discriminate.
  destruct (_ =? _)%nat; [|discriminate]. intros H. injection H as <-. eauto.
Qed.

Lemma validateField_Returned (what : string) (o : optional string) :
  validateField what o = Returned tt <->
  (forall s, o = Value s -> JsString.trim s <> EmptyString).
Proof.
  unfold validateField. destruct o as [| |s].
  - split; [intros _ s H; discriminate | reflexivity].
  - split; [intros _ s H; discriminate | reflexivity].
  - destruct (JsString.trim s) eqn:E; simpl.
    + split; [discriminate|]. intros H. now elim (H s eq_refl).
    + split; [|reflexivity]. intros _ s' H. injection H as <-.
      rewrite E. discriminate.
Qed.

Lemma outcome_unit_cases (o : outcome unit) :
  o = Returned tt \/ exists e, o = Thrown e.
Proof. destruct o as [[]|e]; [now left | right; now exists e]. Qed.

Lemma validateCreateBookData_Thrown cy data e :
  validateCreateBookData cy data = Thrown e -> exists msg, e = ValidationError msg.
Proof.
  unfold validateCreateBookData.
  destruct (blank _); [intros H; injection H as <-; eauto|].
  destruct (blank _); [intros H; injection H as <-; eauto|].
  apply validateYear_Thrown.
Qed.

Lemma validateUpdateBookData_Thrown cy data e :
  validateUpdateBookData cy data = Thrown e -> exists msg, e = ValidationError msg.
Proof.
  unfold validateUpdateBookData.
  destruct (_ =? _)%nat; [intros H; injection H as <-; eauto|].
  destruct (validateField "Title" _) eqn:T;
    [|intros H; injection H as <-; eapply validateField_Thrown; eauto].
  destruct (validateField "Author" _) eqn:A;
    [|intros H; injection H as <-; eapply validateField_Thrown; eauto].
  destruct (UpdateBookData.year data); try discriminate.
  apply validateYear_Thrown.
Qed.

(** What a creation request that passes validation looks like. *)
Lemma validateCreateBookData_Returned cy data :
  validateCreateBookData cy data = Returned tt <->
  JsString.trim (CreateBookData.title data) <> EmptyString /\
  JsString.trim (CreateBookData.author data) <> EmptyString /\
  valid_year cy (CreateBookData.year data).
Proof.
  unfold validateCreateBookData.
  rewrite <- !blank_false, <- validateYear_Returned.
  destruct (blank (CreateBookData.title data)).
  - split; [discriminate | intros [H _]; discriminate].
  - destruct (blank (CreateBookData.author data)).
    + split; [discriminate | intros [_ [H _]]; discriminate].
    + tauto.
Qed.

(** What an update request that passes validation looks like. *)
Lemma validateUpdateBookData_Returned cy data :
  validateUpdateBookData cy data = Returned tt <->
  UpdateBookData.keys_length data <> 0%nat /\
  (forall s, UpdateBookData.title data = Value s -> JsString.trim s <> EmptyString) /\
  (forall s, UpdateBookData.author data = Value s -> JsString.trim s <> EmptyString) /\
  (forall y, UpdateBookData.year data = Value y -> valid_year cy y).
Proof.
  unfold validateUpdateBookData.
  rewrite <- (validateField_Returned "Title"), <- (validateField_Returned "Author").
  destruct (Nat.eqb_spec (UpdateBookData.keys_length data) 0) as [K|K].
  - split; [discriminate | intros [H _]; now elim H].
  - destruct (outcome_unit_cases (validateField "Title" (UpdateBookData.title data)))
      as [T|[e T]]; rewrite T.
    2:{ split; [discriminate | intros [_ [H _]]; discriminate]. }
    destruct (outcome_unit_cases (validateField "Author" (UpdateBookData.author data)))
      as [A|[e A]]; rewrite A.
    2:{ split; [discriminate | intros [_ [_ [H _]]]; discriminate]. }
    destruct (UpdateBookData.year data) as [| |y].
    + split; [|reflexivity]. intros _. repeat split; auto; discriminate.
    + split; [|reflexivity]. intros _. repeat split; auto; discriminate.
    + rewrite validateYear_Returned. split.
      * intros H. repeat split; auto. intros y' E. now injection E as <-.
      * intros [_ [_ [_ H]]]. now apply H.
Qed.

(** ** The map *)

Module JsMapFacts.
Section Facts.
Context {V : Type}.
Implicit Types (k : string) (v : V) (m : JsMap.t V).

Lemma get_set_same k v m : JsMap.get k (JsMap.set k v m) = Some v.
Proof.
  induction m as [|[k' v'] m IH]; simpl.
  - now rewrite String.eqb_refl.
  - destruct (String.eqb k k') eqn:E; simpl.
    + now rewrite String.eqb_refl.
    + now rewrite E.
Qed.

Lemma get_set_other k k' v m :
  k' <> k -> JsMap.get k' (JsMap.set k v m) = JsMap.get k' m.
Proof.
  intros N. apply String.eqb_neq in N.
  induction m as [|[k0 v0] m IH]; simpl.
  - now rewrite N.
  - destruct (String.eqb k k0) eqn:E; simpl.
    + apply String.eqb_eq in E. subst k0. now rewrite N.
    + now rewrite IH.
Qed.

Lemma get_remove_other k k' m :
  k' <> k -> JsMap.get k' (JsMap.remove k m) = JsMap.get k' m.
Proof.
  intros N. apply String.eqb_neq in N.
  induction m as [|[k0 v0] m IH]; simpl; [reflexivity|].
  destruct (String.eqb k k0) eqn:E; simpl.
  - apply String.eqb_eq in E. subst k0. now rewrite N.
  - now rewrite IH.
Qed.

(** A key that is not present is appended. *)
Lemma set_fresh k v m :
  JsMap.get k m = None -> JsMap.set k v m = (m ++ [(k, v)])%list.
Proof.
  induction m as [|[k0 v0] m IH]; simpl; [reflexivity|].
  destruct (String.eqb k k0); [discriminate|].
  intros H. now rewrite IH.
Qed.

(** A key that is present keeps its position. *)
Lemma size_set_present k v m :
  JsMap.get k m <> None -> JsMap.size (JsMap.set k v m) = JsMap.size m.
Proof.
  unfold JsMap.size.
  induction m as [|[k0 v0] m IH]; simpl; [intros H; now elim H|].
  destruct (String.eqb k k0); simpl; [reflexivity|].
  intros H. now rewrite IH.
Qed.

Lemma get_Some_In k v m : JsMap.get k m = Some v -> In v (JsMap.values m).
Proof.
  unfold JsMap.values.
  induction m as [|[k0 v0] m IH]; simpl; [discriminate|].
  destruct (String.eqb k k0).
  - intros H. injection H as ->. now left.
  - intros H. right. now apply IH.
Qed.

Lemma In_values_get v m :
  In v (JsMap.values m) -> exists k, In (k, v) m.
Proof.
  unfold JsMap.values. rewrite in_map_iff.
  intros [[k v'] [E H]]. simpl in E. subst v'. now exists k.
Qed.
End Facts.
End JsMapFacts.

(** ** The service, call by call *)

Lemma create_eq e data st :
  BookService.create e data st =
  match validateCreateBookData (fullYear e) data with
  | Returned _ =>
      (Returned (created e data), JsMap.set (generateId e) (created e data) st)
  | Thrown err => (Thrown err, st)
  end.
Proof.
  unfold BookService.create, bind, lift, modify, ret.
  destruct (validateCreateBookData (fullYear e) data); reflexivity.
Qed.

Lemma update_eq e id data st :
  BookService.update e id data st =
  match validateUpdateBookData (fullYear e) data with
  | Returned _ =>
      match JsMap.get id st with
      | Some old => (Returned (Some (merged old data)),
                     JsMap.set id (merged old data) st)
      | None => (Returned None, st)
      end
  | Thrown err => (Thrown err, st)
  end.
Proof.
  unfold BookService.update, bind, lift, gets, modify, ret.
  destruct (validateUpdateBookData (fullYear e) data); [|reflexivity].
  destruct (JsMap.get id st); reflexivity.
Qed.

Lemma safeCreate_store e data st :
  snd (BookService.safeCreate e data st) = snd (BookService.create e data st).
Proof.
  unfold BookService.safeCreate, try_catch, bind, ret.
  destruct (BookService.create e data st) as [[b|err] st']; reflexivity.
Qed.

Lemma safeUpdate_store e id data st :
  snd (BookService.safeUpdate e id data st) = snd (BookService.update e id data st).
Proof.
  unfold BookService.safeUpdate, try_catch, bind, ret.
  destruct (BookService.update e id data st) as [[[b|]|err] st']; reflexivity.
Qed.

Lemma safeDelete_store id st :
  snd (BookService.safeDelete id st) = JsMap.remove id st.
Proof.
  unfold BookService.safeDelete, BookService.delete, bind, ret, throw.
  destruct (JsMap.has id st); reflexivity.
Qed.

(** A truthy test on a string that survived validation always succeeds. *)
Lemma truthy_of_trim (s : string) :
  JsString.trim s <> EmptyString -> JsString.truthy s = true.
Proof. destruct s; [intros H; now elim H | reflexivity]. Qed.

(** The fields of the merged record when the request passed validation. *)
Lemma merged_title old data :
  (forall s, UpdateBookData.title data = Value s -> JsString.trim s <> EmptyString) ->
  Book.title (merged old data) =
  match UpdateBookData.title data with
  | Value s => JsString.trim s
  | _ => Book.title old
  end.
Proof.
  intros H. unfold merged; simpl.
  destruct (UpdateBookData.title data) as [| |s]; try reflexivity.
  now rewrite (truthy_of_trim s (H s eq_refl)).
Qed.

Lemma merged_author old data :
  (forall s, UpdateBookData.author data = Value s -> JsString.trim s <> EmptyString) ->
  Book.author (merged old data) =
  match UpdateBookData.author data with
  | Value s => JsString.trim s
  | _ => Book.author old
  end.
Proof.
  intros H. unfold merged; simpl.
  destruct (UpdateBookData.author data) as [| |s]; try reflexivity.
  now rewrite (truthy_of_trim s (H s eq_refl)).
Qed.

(** ** Keys and identifiers agree in every reachable store *)

Lemma In_set {V} (k k' : string) (v v' : V) (m : JsMap.t V) :
  In (k', v') (JsMap.set k v m) -> (k', v') = (k, v) \/ In (k', v') m.
Proof.
  induction m as [|[k0 v0] m IH]; simpl.
  - intros [H|[]]. now left.
  - destruct (String.eqb k k0); simpl.
    + intros [H|H]; [now left | right; now right].
    + intros [H|H]; [right; now left|]. destruct (IH H); [now left | right; now right].
Qed.

Lemma In_remove {V} (k k' : string) (v' : V) (m : JsMap.t V) :
  In (k', v') (JsMap.remove k m) -> In (k', v') m.
Proof.
  induction m as [|[k0 v0] m IH]; simpl; [exact id|].
  destruct (String.eqb k k0); simpl.
  - intros H. now right.
  - intros [H|H]; [now left | right; now apply IH].
Qed.

Lemma get_In {V} (k : string) (v : V) (m : JsMap.t V) :
  JsMap.get k m = Some v -> In (k, v) m.
Proof.
  induction m as [|[k0 v0] m IH]; simpl; [discriminate|].
  destruct (String.eqb k k0) eqn:E.
  - apply String.eqb_eq in E. subst k0. intros H. injection H as ->. now left.
  - intros H. right. now apply IH.
Qed.

Lemma keys_match_set k b st :
  keys_match st -> Book.id b = k -> keys_match (JsMap.set k b st).
Proof.
  intros H E k' b' I. destruct (In_set _ _ _ _ _ I) as [X|X].
  - now injection X as -> ->.
  - now apply H.
Qed.

Lemma keys_match_remove k st : keys_match st -> keys_match (JsMap.remove k st).
Proof. intros H k' b' I. apply H. eapply In_remove; eauto. Qed.

Lemma keys_match_exec o st : keys_match st -> keys_match (exec o st).
Proof.
  intros H. destruct o as [e d|e d|e id d|e id d|id|id|]; simpl;
    rewrite ?safeCreate_store, ?safeUpdate_store, ?safeDelete_store,
            ?create_eq, ?update_eq.
  - destruct (validateCreateBookData _ _); simpl; [|exact H].
    now apply keys_match_set.
  - destruct (validateCreateBookData _ _); simpl; [|exact H].
    now apply keys_match_set.
  - destruct (validateUpdateBookData _ _); simpl; [|exact H].
    destruct (JsMap.get id st) as [old|] eqn:G; simpl; [|exact H].
    apply keys_match_set; [exact H|]. simpl. apply H. now apply get_In.
  - destruct (validateUpdateBookData _ _); simpl; [|exact H].
    destruct (JsMap.get id st) as [old|] eqn:G; simpl; [|exact H].
    apply keys_match_set; [exact H|]. simpl. apply H. now apply get_In.
  - now apply keys_match_remove.
  - now apply keys_match_remove.
  - intros k b [].
Qed.

Lemma run_cons o ops st : run (o :: ops) st = run ops (exec o st).
Proof. reflexivity. Qed.

Lemma keys_match_run ops : forall st, keys_match st -> keys_match (run ops st).
Proof.
  induction ops as [|o ops IH]; intros st H; [exact H|].
  rewrite run_cons. apply IH, keys_match_exec, H.
Qed.

Lemma reachable_keys_match st : reachable st -> keys_match st.
Proof.
  intros [ops ->]. apply keys_match_run. intros k b [].
Qed.

(** ** Keys are unique in every reachable store *)

Lemma keys_set {V} (k : string) (v : V) (m : JsMap.t V) :
  JsMap.keys (JsMap.set k v m)
  = if JsMap.has k m then JsMap.keys m else (JsMap.keys m ++ [k])%list.
Proof.
  unfold JsMap.has.
  induction m as [|[k0 v0] m IH]; simpl; [reflexivity|].
  destruct (String.eqb k k0) eqn:E; simpl.
  - apply String.eqb_eq in E. now subst k0.
  - rewrite IH. now destruct (JsMap.get k m).
Qed.

Lemma get_None_keys {V} (k : string) (m : JsMap.t V) :
  JsMap.get k m = None <-> ~ In k (JsMap.keys m).
Proof.
  induction m as [|[k0 v0] m IH]; simpl.
  - tauto.
  - destruct (String.eqb k k0) eqn:E.
    + apply String.eqb_eq in E. subst k0. split; [discriminate | tauto].
    + apply String.eqb_neq in E. rewrite IH. split.
      * intros H [X|X]; [congruence | tauto].
      * tauto.
Qed.

Lemma NoDup_set {V} (k : string) (v : V) (m : JsMap.t V) :
  NoDup (JsMap.keys m) -> NoDup (JsMap.keys (JsMap.set k v m)).
Proof.
  intros H. rewrite keys_set. unfold JsMap.has.
  destruct (JsMap.get k m) eqn:G; [exact H|].
  apply get_None_keys in G.
  apply NoDup_app; [exact H | constructor; [intros []|constructor] |].
  intros x I [<-|[]]. tauto.
Qed.

Lemma In_keys_remove {V} (k k' : string) (m : JsMap.t V) :
  In k' (JsMap.keys (JsMap.remove k m)) -> In k' (JsMap.keys m).
Proof.
  induction m as [|[k0 v0] m IH]; simpl; [exact id|].
  destruct (String.eqb k k0); simpl; tauto.
Qed.

Lemma NoDup_remove {V} (k : string) (m : JsMap.t V) :
  NoDup (JsMap.keys m) -> NoDup (JsMap.keys (JsMap.remove k m)).
Proof.
  induction m as [|[k0 v0] m IH]; simpl; [exact id|].
  intros H. inversion H as [|? ? N D]; subst.
  destruct (String.eqb k k0); simpl; [exact D|].
  constructor; [|now apply IH].
  intros I. apply N. eapply In_keys_remove; eauto.
Qed.

(** A call leaves the map as it is, sets one key, removes one key or
    empties the map. *)
Lemma exec_cases o st :
  exec o st = st \/
  (exists k b, exec o st = JsMap.set k b st) \/
  (exists k, exec o st = JsMap.remove k st) \/
  exec o st = JsMap.empty.
Proof.
  destruct o as [e d|e d|e id d|e id d|id|id|]; simpl;
    rewrite ?safeCreate_store, ?safeUpdate_store, ?safeDelete_store,
            ?create_eq, ?update_eq.
  1,2: destruct (validateCreateBookData _ _); simpl; eauto.
  1,2: destruct (validateUpdateBookData _ _); simpl; eauto;
       destruct (JsMap.get id st); simpl; eauto.
  all: eauto.
Qed.

Lemma unique_keys_run ops :
  forall st, NoDup (JsMap.keys st) -> NoDup (JsMap.keys (run ops st)).
Proof.
  induction ops as [|o ops IH]; intros st H; [exact H|].
  rewrite run_cons. apply IH.
  destruct (exec_cases o st) as [E|[[k [b E]]|[[k E]|E]]]; rewrite E.
  - exact H.
  - now apply NoDup_set.
  - now apply NoDup_remove.
  - constructor.
Qed.

Lemma reachable_unique_keys st : reachable st -> NoDup (JsMap.keys st).
Proof. intros [ops ->]. apply unique_keys_run. constructor. Qed.

(** With unique keys [delete] leaves no entry under the key. *)
Lemma get_remove_same {V} (k : string) (m : JsMap.t V) :
  NoDup (JsMap.keys m) -> JsMap.get k (JsMap.remove k m) = None.
Proof.
  induction m as [|[k0 v0] m IH]; simpl; [reflexivity|].
  intros H. inversion H as [|? ? N D]; subst.
  destruct (String.eqb k k0) eqn:E; simpl.
  - apply String.eqb_eq in E. subst k0. now apply get_None_keys.
  - rewrite E. now apply IH.
Qed.

(** ** Round trip, precedence of validation, not-found wrapping, merge *)

(** C8. For every creation request that passes validation, [findById] on the
    identifier of the record [create] returned, called right after, returns
    that very record: same id, title, author and year. *)
Theorem create_findById_roundtrip (e : Env) (data : CreateBookData.t) (st : Store) :
  validateCreateBookData (fullYear e) data = Returned tt ->
  exists b st',
    BookService.create e data st = (Returned b, st') /\
    BookService.findById (Book.id b) st' = (Returned (Some b), st').
Proof.
  intros V. exists (created e data), (JsMap.set (generateId e) (created e data) st).
  rewrite create_eq, V. split; [reflexivity|].
  unfold BookService.findById, gets. simpl.
  now rewrite JsMapFacts.get_set_same.
Qed.

Lemma create_findById_roundtrip_witness :
  validateCreateBookData (fullYear Sample.env) Sample.request = Returned tt /\
  exists b st',
    BookService.create Sample.env Sample.request Sample.store1 = (Returned b, st') /\
    BookService.findById (Book.id b) st' = (Returned (Some b), st').
Proof.
  split; [reflexivity|].
  apply (create_findById_roundtrip Sample.env Sample.request Sample.store1).
  reflexivity.
Defined.

(** A request that fails validation stops [update] before the lookup. *)
Lemma update_throws_before_lookup e id data st :
  validateUpdateBookData (fullYear e) data <> Returned tt ->
  exists msg, BookService.update e id data st = (Thrown (ValidationError msg), st).
Proof.
  intros V. rewrite update_eq.
  destruct (outcome_unit_cases (validateUpdateBookData (fullYear e) data))
    as [R|[err T]]; [now elim V|].
  destruct (validateUpdateBookData_Thrown _ _ _ T) as [msg ->].
  exists msg. now rewrite T.
Qed.

(** C2. An update request that fails validation makes [update] throw a
    [ValidationError] for every identifier, present in the store or not; the
    call never gets as far as the lookup, so it does not return the
    not-found result [null], and the store is left as it was. *)
Theorem update_validation_first
  (e : Env) (id : string) (data : UpdateBookData.t) (st : Store) :
  validateUpdateBookData (fullYear e) data <> Returned tt ->
  exists msg,
    BookService.update e id data st = (Thrown (ValidationError msg), st) /\
    fst (BookService.update e id data st) <> Returned None.
Proof.
  intros V. destruct (update_throws_before_lookup e id data st V) as [msg H].
  exists msg. rewrite H. split; [reflexivity | discriminate].
Qed.

Lemma update_validation_first_witness :
  validateUpdateBookData (fullYear Sample.env) Sample.nothing <> Returned tt /\
  JsMap.get "non-existent-id" Sample.store1 = None /\
  exists msg,
    BookService.update Sample.env "non-existent-id" Sample.nothing Sample.store1
    = (Thrown (ValidationError msg), Sample.store1) /\
    fst (BookService.update Sample.env "non-existent-id" Sample.nothing Sample.store1)
    <> Returned None.
Proof.
  split; [discriminate|]. split; [reflexivity|].
  apply (update_validation_first Sample.env "non-existent-id" Sample.nothing
           Sample.store1).
  discriminate.
Defined.

(** C6. For an identifier that is not in the store and an update request that
    passes validation, [safeUpdate] returns a failure whose error is the
    [BookNotFoundError] built from that identifier, with the identifier inside
    its message, while [update] on the same input returns [null] and throws
    nothing. Neither call changes the store. *)
Theorem safeUpdate_not_found
  (e : Env) (id : string) (data : UpdateBookData.t) (st : Store) :
  JsMap.get id st = None ->
  validateUpdateBookData (fullYear e) data = Returned tt ->
  BookService.safeUpdate e id data st
  = (Returned (failure (BookNotFoundError id)), st) /\
  name (BookNotFoundError id) = "BookNotFoundError" /\
  message (BookNotFoundError id) = "Book with id '" ++ id ++ "' not found" /\
  BookService.update e id data st = (Returned None, st).
Proof.
  intros G V.
  assert (U : BookService.update e id data st = (Returned None, st))
    by now rewrite update_eq, V, G.
  repeat split; try exact U.
  unfold BookService.safeUpdate, try_catch, bind. now rewrite U.
Qed.

Lemma safeUpdate_not_found_witness :
  JsMap.get "non-existent-id" Sample.store1 = None /\
  validateUpdateBookData (fullYear Sample.env) Sample.retitle = Returned tt /\
  BookService.safeUpdate Sample.env "non-existent-id" Sample.retitle Sample.store1
  = (Returned (failure (BookNotFoundError "non-existent-id")), Sample.store1) /\
  name (BookNotFoundError "non-existent-id") = "BookNotFoundError" /\
  message (BookNotFoundError "non-existent-id")
  = "Book with id '" ++ "non-existent-id" ++ "' not found" /\
  BookService.update Sample.env "non-existent-id" Sample.retitle Sample.store1
  = (Returned None, Sample.store1).
Proof.
  split; [reflexivity|]. split; [reflexivity|].
  apply (safeUpdate_not_found Sample.env "non-existent-id" Sample.retitle
           Sample.store1); reflexivity.
Defined.

(** C4. In a store the service can reach, for a record [old] stored under
    [id] and an update request that passes validation, [update] returns a
    record and stores it under [id]; it carries the identifier [id]; its
    title and author are the trimmed supplied strings where the request
    supplies them and those of [old] otherwise; its year is the supplied
    year where the request supplies one and that of [old] otherwise. *)
Theorem update_merge
  (e : Env) (id : string) (data : UpdateBookData.t) (st : Store) (old : Book.t) :
  reachable st ->
  JsMap.get id st = Some old ->
  validateUpdateBookData (fullYear e) data = Returned tt ->
  exists b st',
    BookService.update e id data st = (Returned (Some b), st') /\
    JsMap.get id st' = Some b /\
    Book.id b = id /\
    Book.title b = match UpdateBookData.title data with
                   | Value s => JsString.trim s
                   | _ => Book.title old
                   end /\
    Book.author b = match UpdateBookData.author data with
                    | Value s => JsString.trim s
                    | _ => Book.author old
                    end /\
    Book.year b = match UpdateBookData.year data with
                  | Value y => y
                  | _ => Book.year old
                  end.
Proof.
  intros R G V.
  exists (merged old data), (JsMap.set id (merged old data) st).
  rewrite update_eq, V, G.
  apply validateUpdateBookData_Returned in V. destruct V as [_ [T [A _]]].
  split; [reflexivity|]. split; [apply JsMapFacts.get_set_same|].
  split; [simpl; apply (reachable_keys_match st R), get_In, G|].
  split; [now apply merged_title|]. split; [now apply merged_author|].
  reflexivity.
Qed.

Lemma reachable_store1 : reachable Sample.store1.
Proof. now exists [OpCreate Sample.env Sample.request]. Defined.

Lemma update_merge_witness :
  JsMap.get Sample.id1 Sample.store1 = Some (created Sample.env Sample.request) /\
  validateUpdateBookData (fullYear Sample.later) Sample.retitle = Returned tt /\
  exists b st',
    BookService.update Sample.later Sample.id1 Sample.retitle Sample.store1
    = (Returned (Some b), st') /\
    JsMap.get Sample.id1 st' = Some b /\
    Book.id b = Sample.id1 /\
    Book.title b = "Updated Title" /\
    Book.author b = "Test Author" /\
    Book.year b = Int 2023.
Proof.
  split; [reflexivity|]. split; [reflexivity|].
  exact (update_merge Sample.later Sample.id1 Sample.retitle Sample.store1
           (created Sample.env Sample.request)
           reachable_store1 eq_refl eq_refl).
Defined.

(** ** The store invariant *)

Lemma valid_year_mono cy cy' y : cy <= cy' -> valid_year cy y -> valid_year cy' y.
Proof. intros L [z [E R]]. exists z. split; [exact E | lia]. Qed.

Lemma valid_record_mono cy cy' b :
  cy <= cy' -> valid_record cy b -> valid_record cy' b.
Proof.
  intros L [T [A Y]]. repeat split; auto. eapply valid_year_mono; eauto.
Qed.

Lemma stamped_mono hi hi' st g : hi <= hi' -> stamped hi st g -> stamped hi' st g.
Proof.
  intros L H k b I. destruct (H k b I) as [w [G [W V]]].
  exists w. repeat split; auto; try apply V. lia.
Qed.

Lemma valid_record_created e data :
  validateCreateBookData (fullYear e) data = Returned tt ->
  valid_record (fullYear e) (created e data).
Proof.
  intros V. apply validateCreateBookData_Returned in V. destruct V as [T [A Y]].
  unfold valid_record, created, sanitizeString; simpl.
  rewrite !JsStringFacts.trim_idempotent. auto.
Qed.

Lemma valid_record_merged e old data w :
  validateUpdateBookData (fullYear e) data = Returned tt ->
  valid_record w old -> w <= fullYear e ->
  valid_record (fullYear e) (merged old data).
Proof.
  intros V [T [A Y]] L.
  apply validateUpdateBookData_Returned in V. destruct V as [_ [VT [VA VY]]].
  unfold valid_record.
  rewrite merged_title, merged_author by assumption.
  unfold merged; simpl. repeat split.
  - destruct (UpdateBookData.title data) as [| |s]; auto.
    rewrite JsStringFacts.trim_idempotent. now apply VT.
  - destruct (UpdateBookData.author data) as [| |s]; auto.
    rewrite JsStringFacts.trim_idempotent. now apply VA.
  - destruct (UpdateBookData.year data) as [| |y];
      try (eapply valid_year_mono; eassumption).
    now apply VY.
Qed.

(** Writing a valid record under [k] in year [y] keeps the store stamped. *)
Lemma stamped_write hi y k b st g :
  stamped hi st g -> hi <= y -> valid_record y b ->
  stamped y (JsMap.set k b st)
          (fun k' => if String.eqb k' k then Some y else g k').
Proof.
  intros H L V k' b' I.
  destruct (String.eqb k' k) eqn:E.
  - exists y. split; [reflexivity|]. split; [lia|].
    destruct (In_set _ _ _ _ _ I) as [X|X].
    + injection X as _ ->. exact V.
    + destruct (H k' b' X) as [w [_ [W V']]].
      apply (valid_record_mono w); [lia | exact V'].
  - destruct (In_set _ _ _ _ _ I) as [X|X].
    + injection X as -> _. now rewrite String.eqb_refl in E.
    + destruct (H k' b' X) as [w [G [W V']]].
      exists w. repeat split; auto; try apply V'. lia.
Qed.

Lemma stamped_create e data st g hi :
  stamped hi st g -> hi <= fullYear e ->
  stamped (fullYear e) (snd (BookService.create e data st))
          (stamp (OpCreate e data) st g).
Proof.
  intros H L. unfold stamp, written, op_year. rewrite create_eq.
  destruct (validateCreateBookData (fullYear e) data) as [[]|err] eqn:V; simpl.
  - apply (stamped_write hi); auto. now apply valid_record_created.
  - now apply (stamped_mono hi).
Qed.

Lemma stamped_update e id data st g hi :
  stamped hi st g -> hi <= fullYear e ->
  stamped (fullYear e) (snd (BookService.update e id data st))
          (stamp (OpUpdate e id data) st g).
Proof.
  intros H L. unfold stamp, written, op_year. rewrite update_eq.
  destruct (validateUpdateBookData (fullYear e) data) as [[]|err] eqn:V; simpl.
  - destruct (JsMap.get id st) as [old|] eqn:G; simpl.
    + apply (stamped_write hi); auto.
      destruct (H id old (get_In _ _ _ G)) as [w [_ [W VR]]].
      apply (valid_record_merged e old data w); auto. lia.
    + now apply (stamped_mono hi).
  - now apply (stamped_mono hi).
Qed.

Lemma stamped_remove hi id st g :
  stamped hi st g -> stamped hi (JsMap.remove id st) g.
Proof. intros H k b I. apply H. eapply In_remove; eauto. Qed.

(** One call keeps the store stamped, the bound moving to the year it read. *)
Lemma stamped_exec o st g hi :
  stamped hi st g ->
  (forall y, op_year o = Some y -> hi <= y) ->
  stamped (match op_year o with Some y => y | None => hi end)
          (exec o st) (stamp o st g).
Proof.
  intros H L.
  destruct o as [e d|e d|e id d|e id d|id|id|]; simpl exec; simpl op_year.
  - apply (stamped_create e d st g hi H). now apply L.
  - rewrite safeCreate_store.
    apply (stamped_create e d st g hi H). now apply L.
  - apply (stamped_update e id d st g hi H). now apply L.
  - rewrite safeUpdate_store.
    apply (stamped_update e id d st g hi H). now apply L.
  - now apply stamped_remove.
  - rewrite safeDelete_store. now apply stamped_remove.
  - intros k b [].
Qed.

Lemma nondecreasing_cons y l :
  nondecreasing (y :: l) = true ->
  Forall (Z.le y) l /\ nondecreasing l = true.
Proof.
  revert y. induction l as [|a l IH]; intros y H.
  - split; [constructor | reflexivity].
  - simpl in H. apply andb_true_iff in H. destruct H as [L N].
    apply Z.leb_le in L. split; [|exact N].
    constructor; [exact L|].
    destruct (IH a N) as [F _].
    eapply Forall_impl; [|exact F]. simpl. intros z. lia.
Qed.

Lemma stamped_run ops :
  forall st g hi,
    stamped hi st g ->
    Forall (Z.le hi) (years ops) ->
    nondecreasing (years ops) = true ->
    exists hi', stamped hi' (run ops st) (lastWriteYear ops st g).
Proof.
  induction ops as [|o ops IH]; intros st g hi H F N.
  - now exists hi.
  - rewrite run_cons. simpl lastWriteYear.
    unfold years in F, N. simpl in F, N. fold (years ops) in F, N.
    destruct (op_year o) as [y|] eqn:Y; simpl in F, N.
    + apply Forall_inv in F.
      destruct (nondecreasing_cons _ _ N) as [F' N'].
      apply (IH _ _ y); auto.
      generalize (stamped_exec o st g hi H). rewrite Y.
      intros X. apply X. intros y' E. injection E as <-. exact F.
    + apply (IH _ _ hi); auto.
      generalize (stamped_exec o st g hi H). rewrite Y.
      intros X. apply X. discriminate.
Qed.

(** C1. Start from the empty store and make any sequence of calls to
    [create], [update], [delete], [clear] and their safe variants, the
    calendar year read by the calls never decreasing. Then every record in
    the map has a title and an author that are non-empty after trimming and
    a year that is an integer between 0 and the calendar year at the time of
    the last write under its key. *)
Theorem store_invariant (ops : list Op) (k : string) (b : Book.t) :
  nondecreasing (years ops) = true ->
  In (k, b) (run ops JsMap.empty) ->
  exists cy,
    lastWriteYear ops JsMap.empty (fun _ => None) k = Some cy /\
    JsString.trim (Book.title b) <> EmptyString /\
    JsString.trim (Book.author b) <> EmptyString /\
    exists y, Book.year b = Int y /\ 0 <= y <= cy.
Proof.
  intros N I.
  assert (B : exists lo, Forall (Z.le lo) (years ops)).
  { generalize (years ops). intros l. induction l as [|a l [lo F]].
    - exists 0. constructor.
    - exists (Z.min a lo). constructor; [lia|].
      eapply Forall_impl; [|exact F]. simpl. intros z. lia. }
  destruct B as [lo F].
  destruct (stamped_run ops JsMap.empty (fun _ => None) lo) as [hi H]; auto.
  - intros k' b' [].
  - destruct (H k b I) as [w [G [_ [T [A Y]]]]]. exists w. auto.
Qed.

Lemma store_invariant_witness :
  nondecreasing (years SampleRun.ops) = true /\
  In (Sample.id1, SampleRun.record) (run SampleRun.ops JsMap.empty) /\
  exists cy,
    lastWriteYear SampleRun.ops JsMap.empty (fun _ => None) Sample.id1 = Some cy /\
    JsString.trim (Book.title SampleRun.record) <> EmptyString /\
    JsString.trim (Book.author SampleRun.record) <> EmptyString /\
    exists y, Book.year SampleRun.record = Int y /\ 0 <= y <= cy.
Proof.
  split; [reflexivity|].
  assert (I : In (Sample.id1, SampleRun.record) (run SampleRun.ops JsMap.empty))
    by (left; reflexivity).
  split; [exact I|].
  exact (store_invariant SampleRun.ops Sample.id1 SampleRun.record eq_refl I).
Defined.

(** ** The bounds on the year *)

Lemma create_succeeds_iff e data st :
  create_succeeds e data st <->
  validateCreateBookData (fullYear e) data = Returned tt.
Proof.
  unfold create_succeeds. rewrite create_eq.
  destruct (outcome_unit_cases (validateCreateBookData (fullYear e) data))
    as [R|[err T]].
  - rewrite R. split; [reflexivity | intros _; eauto].
  - rewrite T. split; [intros [b [st' H]]; discriminate | discriminate].
Qed.

Lemma create_raises e data st :
  validateCreateBookData (fullYear e) data <> Returned tt ->
  raises_ValidationError (BookService.create e data st).
Proof.
  intros N. unfold raises_ValidationError. rewrite create_eq.
  destruct (outcome_unit_cases (validateCreateBookData (fullYear e) data))
    as [R|[err T]]; [now elim N|].
  rewrite T. destruct (validateCreateBookData_Thrown _ _ _ T) as [msg ->].
  now exists msg.
Qed.

Lemma update_succeeds_iff e id data st old :
  JsMap.get id st = Some old ->
  update_succeeds e id data st <->
  validateUpdateBookData (fullYear e) data = Returned tt.
Proof.
  intros G. unfold update_succeeds. rewrite update_eq, G.
  destruct (outcome_unit_cases (validateUpdateBookData (fullYear e) data))
    as [R|[err T]].
  - rewrite R. split; [reflexivity | intros _; eauto].
  - rewrite T. split; [intros [b [st' H]]; discriminate | discriminate].
Qed.

Lemma update_raises e id data st :
  validateUpdateBookData (fullYear e) data <> Returned tt ->
  raises_ValidationError (BookService.update e id data st).
Proof.
  intros N. destruct (update_throws_before_lookup e id data st N) as [msg H].
  exists msg. now rewrite H.
Qed.

(** C3, as amended. In any store, the empty one included, a creation
    request whose title and author are non-empty after trimming succeeds iff
    its year is an integer between 0 and the current year, and otherwise
    throws a [ValidationError]. In any store that holds the identifier, an
    update request that supplies the year [y] and whose title and author,
    where it supplies them, are non-empty after trimming succeeds iff [y] is
    an integer between 0 and the current year, and otherwise throws a
    [ValidationError]. For both calls the years 0 and the current year
    succeed when the current year is not negative, and the years -1 and the
    current year plus one throw a [ValidationError]. *)
Theorem year_boundary (e : Env) :
  (forall (st : Store) (data : CreateBookData.t),
     JsString.trim (CreateBookData.title data) <> EmptyString ->
     JsString.trim (CreateBookData.author data) <> EmptyString ->
     (create_succeeds e data st <->
      valid_year (fullYear e) (CreateBookData.year data)) /\
     (~ valid_year (fullYear e) (CreateBookData.year data) ->
      raises_ValidationError (BookService.create e data st)) /\
     (0 <= fullYear e ->
      CreateBookData.year data = Int 0 \/
      CreateBookData.year data = Int (fullYear e) ->
      create_succeeds e data st) /\
     (CreateBookData.year data = Int (-1) \/
      CreateBookData.year data = Int (fullYear e + 1) ->
      raises_ValidationError (BookService.create e data st))) /\
  (forall (st : Store) (id : string) (old : Book.t)
          (upd : UpdateBookData.t) (y : number),
     JsMap.get id st = Some old ->
     UpdateBookData.year upd = Value y ->
     (forall s, UpdateBookData.title upd = Value s ->
                JsString.trim s <> EmptyString) ->
     (forall s, UpdateBookData.author upd = Value s ->
                JsString.trim s <> EmptyString) ->
     (update_succeeds e id upd st <-> valid_year (fullYear e) y) /\
     (~ valid_year (fullYear e) y ->
      raises_ValidationError (BookService.update e id upd st)) /\
     (0 <= fullYear e -> y = Int 0 \/ y = Int (fullYear e) ->
      update_succeeds e id upd st) /\
     (y = Int (-1) \/ y = Int (fullYear e + 1) ->
      raises_ValidationError (BookService.update e id upd st))).
Proof.
  assert (In_range : forall y, 0 <= fullYear e ->
            y = Int 0 \/ y = Int (fullYear e) -> valid_year (fullYear e) y).
  { intros y P [-> | ->]; eexists; (split; [reflexivity | lia]). }
  assert (Out_of_range : forall y,
            y = Int (-1) \/ y = Int (fullYear e + 1) ->
            ~ valid_year (fullYear e) y).
  { intros y [-> | ->] [z [E R]]; injection E as <-; lia. }
  split.
  - intros st data T A.
    assert (C : validateCreateBookData (fullYear e) data = Returned tt <->
                valid_year (fullYear e) (CreateBookData.year data))
      by (rewrite validateCreateBookData_Returned; tauto).
    assert (S : create_succeeds e data st <->
                valid_year (fullYear e) (CreateBookData.year data))
      by now rewrite create_succeeds_iff.
    assert (R : ~ valid_year (fullYear e) (CreateBookData.year data) ->
                raises_ValidationError (BookService.create e data st))
      by (intros N; apply create_raises; tauto).
    split; [exact S|]. split; [exact R|]. split.
    + intros P B. apply S. now apply In_range.
    + intros B. apply R. now apply Out_of_range.
  - intros st id old upd y G Y UT UA.
    assert (U : validateUpdateBookData (fullYear e) upd = Returned tt <->
                valid_year (fullYear e) y).
    { rewrite validateUpdateBookData_Returned. split.
      - intros [_ [_ [_ H]]]. now apply H.
      - intros H. repeat split; auto.
        + unfold UpdateBookData.keys_length. rewrite Y. simpl. lia.
        + intros y' E. rewrite Y in E. now injection E as <-. }
    assert (S : update_succeeds e id upd st <-> valid_year (fullYear e) y)
      by now rewrite (update_succeeds_iff e id upd st old G).
    assert (R : ~ valid_year (fullYear e) y ->
                raises_ValidationError (BookService.update e id upd st))
      by (intros N; apply update_raises; tauto).
    split; [exact S|]. split; [exact R|]. split.
    + intros P B. apply S. now apply In_range.
    + intros B. apply R. now apply Out_of_range.
Qed.

Lemma year_boundary_witness :
  (create_succeeds Sample.later Sample.other JsMap.empty <->
   valid_year 2024 (Int 1999)) /\
  raises_ValidationError
    (BookService.create Sample.later
       {| CreateBookData.title := "Test Book";
          CreateBookData.author := "Test Author";
          CreateBookData.year := Int 2025 |} JsMap.empty) /\
  JsMap.get Sample.id1 Sample.store1 = Some (created Sample.env Sample.request) /\
  UpdateBookData.year SampleYear.reyear = Value (Int 2024) /\
  (update_succeeds Sample.later Sample.id1 SampleYear.reyear Sample.store1 <->
   valid_year 2024 (Int 2024)).
Proof.
  destruct (year_boundary Sample.later) as [C U].
  split.
  { destruct (C JsMap.empty Sample.other) as [S _];
      [discriminate | discriminate | exact S]. }
  split.
  { destruct (C JsMap.empty
                {| CreateBookData.title := "Test Book";
                   CreateBookData.author := "Test Author";
                   CreateBookData.year := Int 2025 |}) as [_ [_ [_ R]]];
      [discriminate | discriminate |].
    apply R. right. reflexivity. }
  split; [reflexivity|]. split; [reflexivity|].
  assert (UT : forall s, UpdateBookData.title SampleYear.reyear = Value s ->
                         JsString.trim s <> EmptyString) by discriminate.
  assert (UA : forall s, UpdateBookData.author SampleYear.reyear = Value s ->
                         JsString.trim s <> EmptyString).
  { intros s E. injection E as <-. discriminate. }
  exact (proj1 (U Sample.store1 Sample.id1 (created Sample.env Sample.request)
                  SampleYear.reyear (Int 2024) eq_refl eq_refl UT UA)).
Defined.

(** The claim without the amendment fails: an update that supplies the year
    2000, in range in 2024, against a stored identifier is still rejected
    when the title it supplies is empty. *)
Lemma year_boundary_counterexample :
  JsMap.get Sample.id1 Sample.store1 = Some (created Sample.env Sample.request) /\
  UpdateBookData.year SampleYear.untitled = Value (Int 2000) /\
  valid_year (fullYear Sample.env) (Int 2000) /\
  BookService.update Sample.env Sample.id1 SampleYear.untitled Sample.store1
  = (Thrown (ValidationError "Title must be a non-empty string"), Sample.store1) /\
  ~ update_succeeds Sample.env Sample.id1 SampleYear.untitled Sample.store1.
Proof.
  split; [reflexivity|]. split; [reflexivity|].
  split; [exists 2000; split; [reflexivity | simpl; lia]|].
  split; [reflexivity|].
  intros [b [st' H]]. discriminate.
Qed.

(** ** Pagination *)

Lemma range_from_firstn_skipn {A} (l : list A) :
  forall i lo hi,
    range_from i l lo hi
    = firstn (Z.to_nat (hi - Z.max lo i)) (skipn (Z.to_nat (lo - i)) l).
Proof.
  induction l as [|x l IH]; intros i lo hi; simpl.
  - now rewrite skipn_nil, firstn_nil.
  - destruct (Z.leb_spec lo i) as [L|L]; simpl.
    + replace (Z.to_nat (lo - i)) with 0%nat by lia. simpl.
      destruct (Z.ltb_spec i hi) as [H|H]; rewrite IH.
      * replace (Z.to_nat (hi - Z.max lo i))
          with (S (Z.to_nat (hi - Z.max lo (i + 1)))) by lia.
        replace (Z.to_nat (lo - (i + 1))) with 0%nat by lia. reflexivity.
      * replace (Z.to_nat (hi - Z.max lo i)) with 0%nat by lia.
        replace (Z.to_nat (hi - Z.max lo (i + 1))) with 0%nat by lia.
        reflexivity.
    + rewrite IH.
      replace (Z.to_nat (lo - i)) with (S (Z.to_nat (lo - (i + 1)))) by lia.
      replace (Z.max lo (i + 1)) with (Z.max lo i) by lia. reflexivity.
Qed.

Lemma firstn_skipn_clamped {A} (l : list A) (s n : nat) :
  firstn (Nat.min (s + n) (List.length l) - Nat.min s (List.length l))
         (skipn (Nat.min s (List.length l)) l)
  = firstn n (skipn s l).
Proof.
  destruct (Nat.le_gt_cases (List.length l) s) as [L|L].
  - rewrite (skipn_all2 l L), firstn_nil.
    replace (Nat.min s (List.length l)) with (List.length l) by lia.
    now rewrite skipn_all, firstn_nil.
  - replace (Nat.min s (List.length l)) with s by lia.
    destruct (Nat.le_gt_cases (s + n) (List.length l)) as [M|M].
    + f_equal. lia.
    + rewrite !firstn_all2; try reflexivity; rewrite length_skipn; lia.
Qed.

(** [slice] between two indices that are not negative. *)
Lemma slice_index_range {A} (l : list A) (s n : Z) :
  0 <= s -> 0 <= n ->
  JsArray.slice l (Fin s) (Fin (s + n)) = index_range l s (s + n).
Proof.
  intros S N. unfold JsArray.slice, JsArray.toIndex, index_range.
  rewrite range_from_firstn_skipn.
  destruct (Z.ltb_spec s 0) as [X|_]; [lia|].
  destruct (Z.ltb_spec (s + n) 0) as [X|_]; [lia|].
  replace (Z.to_nat (s + n - Z.max s 0)) with (Z.to_nat n) by lia.
  replace (Z.to_nat (s - 0)) with (Z.to_nat s) by lia.
  rewrite <- (firstn_skipn_clamped l (Z.to_nat s) (Z.to_nat n)).
  f_equal; [lia|]. f_equal. lia.
Qed.

(** The quotient [getPaginated] computes is the ceiling of [a / b]. *)
Lemma ceil_div_bounds (a b : Z) :
  0 < b ->
  exists q, JsMath.ceil_div a b = Fin q /\ (q - 1) * b < a <= q * b.
Proof.
  intros B. unfold JsMath.ceil_div.
  destruct (Z.eqb_spec b 0) as [E|_]; [lia|].
  exists (- (- a / b)). split; [reflexivity|].
  pose proof (Z.div_mod (- a) b ltac:(lia)) as D.
  pose proof (Z.mod_pos_bound (- a) b B) as M.
  nia.
Qed.

(** C5, as amended. For a page size of at least 1 and any integer page, on
    any store, [getPaginated] returns: as [totalPages] the ceiling of
    [totalBooks / pageSize]; as [currentPage] the page brought into
    [1, totalPages], and 1 when there is no page; as [books] the slice of
    [findAll()] over the indices from [(currentPage - 1) * pageSize] up to,
    not including, [currentPage * pageSize]; [hasNextPage] iff
    [currentPage < totalPages]; [hasPreviousPage] iff [currentPage > 1]. With
    5 records and page size 2, page 10 becomes page 3, holding 1 record. *)
Theorem getPaginated_contract (st : Store) (page pageSize : Z) :
  1 <= pageSize ->
  exists tp cp,
    BookService.getPaginated page pageSize st
    = (Returned
         {| books := index_range (JsMap.values st)
                                 ((cp - 1) * pageSize) (cp * pageSize);
            totalBooks := Z.of_nat (JsMap.size st);
            totalPages := Fin tp;
            currentPage := Fin cp;
            hasNextPage := cp <? tp;
            hasPreviousPage := 1 <? cp |}, st) /\
    BookService.findAll st = (Returned (JsMap.values st), st) /\
    (tp - 1) * pageSize < Z.of_nat (JsMap.size st) <= tp * pageSize /\
    cp = (if tp =? 0 then 1
          else if page <? 1 then 1
          else if tp <? page then tp
          else page) /\
    (JsMap.size st = 5%nat -> pageSize = 2 -> page = 10 ->
     cp = 3 /\
     List.length (index_range (JsMap.values st)
                              ((cp - 1) * pageSize) (cp * pageSize)) = 1%nat).
Proof.
  intros P.
  destruct (ceil_div_bounds (Z.of_nat (JsMap.size st)) pageSize ltac:(lia))
    as [tp [Q B]].
  set (cp := Z.max 1 (Z.min page tp)).
  exists tp, cp.
  assert (C : cp = (if tp =? 0 then 1
                    else if page <? 1 then 1
                    else if tp <? page then tp
                    else page)).
  { unfold cp. assert (0 <= tp) by nia.
    destruct (Z.eqb_spec tp 0); [lia|].
    destruct (Z.ltb_spec page 1); [lia|].
    destruct (Z.ltb_spec tp page); lia. }
  split; [|split; [reflexivity|split; [exact B|split; [exact C|]]]].
  - unfold BookService.getPaginated, BookService.count, BookService.findAll,
      bind, gets, ret.
    rewrite Q. simpl JsMath.min. simpl JsMath.max. fold cp.
    unfold JsMath.sub, JsMath.gt. simpl.
    replace (cp + -1) with (cp - 1) by lia.
    rewrite slice_index_range by (unfold cp; nia).
    replace ((cp - 1) * pageSize + pageSize) with (cp * pageSize) by lia.
    reflexivity.
  - intros S -> ->. rewrite S in B. simpl in B.
    assert (tp = 3) by lia. subst tp.
    assert (cp = 3) by (unfold cp; lia). split; [assumption|].
    unfold index_range. rewrite range_from_firstn_skipn, length_firstn, length_skipn.
    unfold JsMap.values. rewrite length_map.
    unfold JsMap.size in S. rewrite S. lia.
Qed.

Lemma getPaginated_contract_witness :
  1 <= 2 /\
  exists tp cp,
    BookService.getPaginated 10 2 SamplePages.five
    = (Returned
         {| books := index_range (JsMap.values SamplePages.five)
                                 ((cp - 1) * 2) (cp * 2);
            totalBooks := 5;
            totalPages := Fin tp;
            currentPage := Fin cp;
            hasNextPage := cp <? tp;
            hasPreviousPage := 1 <? cp |}, SamplePages.five) /\
    cp = 3 /\
    List.length (index_range (JsMap.values SamplePages.five)
                             ((cp - 1) * 2) (cp * 2)) = 1%nat.
Proof.
  split; [lia|].
  destruct (getPaginated_contract SamplePages.five 10 2 ltac:(lia))
    as [tp [cp [E [_ [_ [_ F]]]]]].
  exists tp, cp. split; [exact E|]. now apply F.
Defined.

(** The claim without the bound on the page size fails. With 5 records,
    page 1 and page size -2 the current page is 1 and the indices from
    (1 - 1) * -2 up to 1 * -2 are none at all, yet three records come back:
    [slice] counts a negative end from the end of the array. With page size
    0 the number of pages is infinite. *)
Lemma getPaginated_counterexample :
  JsMap.size SamplePages.five = 5%nat /\
  (exists p,
     BookService.getPaginated 1 (-2) SamplePages.five
     = (Returned p, SamplePages.five) /\
     totalPages p = Fin (-2) /\
     currentPage p = Fin 1 /\
     index_range (JsMap.values SamplePages.five) ((1 - 1) * -2) (1 * -2) = [] /\
     List.length (books p) = 3%nat) /\
  (exists p,
     BookService.getPaginated 1 0 SamplePages.five
     = (Returned p, SamplePages.five) /\
     totalPages p = Inf true).
Proof.
  split; [reflexivity|]. split.
  - eexists. split; [vm_compute; reflexivity|]. repeat split.
  - eexists. split; [vm_compute; reflexivity|]. reflexivity.
Qed.

(** ** Search *)

Lemma contains_cib_spec field s : contains_cib field s = true <-> contains_ci field s.
Proof. apply JsStringFacts.includes_spec. Qed.

Lemma findBy_eq (get : Book.t -> string) (s : string) (l : list Book.t) :
  filter (fun book =>
            JsString.includes (JsString.toLowerCase (get book))
                              (JsString.trim (JsString.toLowerCase s))) l
  = filter (fun book => contains_cib (get book) s) l.
Proof.
  apply filter_ext. intros b. unfold contains_cib.
  now rewrite JsStringFacts.trim_toLowerCase.
Qed.

Lemma filter_none {A} (f : A -> bool) (l : list A) :
  (forall x, In x l -> f x <> true) -> filter f l = [].
Proof.
  induction l as [|x l IH]; simpl; [reflexivity|]. intros H.
  destruct (f x) eqn:E.
  - elim (H x (or_introl eq_refl) E).
  - apply IH. intros y I. apply H. now right.
Qed.

(** X26. The search on text of the Latin-1 range (code units below U+0100,
    where no letter is lower-cased by its context). On any such store and for
    any such search string [s], [findByAuthor s] returns the records of
    [findAll()], in the order of [findAll()], whose author contains the
    trimmed [s] when case is ignored: a record is in the result iff it is
    stored and matches, and the result is empty when no stored record
    matches. [findByTitle] does the same with the title. Neither call
    changes the store. *)
Theorem findBy_characterization (st : Store) (s : string) :
  BookService.findAll st = (Returned (JsMap.values st), st) /\
  BookService.findByAuthor s st
  = (Returned (filter (fun b => contains_cib (Book.author b) s) (JsMap.values st)),
     st) /\
  BookService.findByTitle s st
  = (Returned (filter (fun b => contains_cib (Book.title b) s) (JsMap.values st)),
     st) /\
  (forall b,
     In b (filter (fun b => contains_cib (Book.author b) s) (JsMap.values st)) <->
     In b (JsMap.values st) /\ contains_ci (Book.author b) s) /\
  (forall b,
     In b (filter (fun b => contains_cib (Book.title b) s) (JsMap.values st)) <->
     In b (JsMap.values st) /\ contains_ci (Book.title b) s) /\
  ((forall b, In b (JsMap.values st) -> ~ contains_ci (Book.author b) s) ->
   filter (fun b => contains_cib (Book.author b) s) (JsMap.values st) = []) /\
  ((forall b, In b (JsMap.values st) -> ~ contains_ci (Book.title b) s) ->
   filter (fun b => contains_cib (Book.title b) s) (JsMap.values st) = []).
Proof.
  split; [reflexivity|].
  split.
  { unfold BookService.findByAuthor, BookService.findAll, bind, gets, ret.
    now rewrite (findBy_eq Book.author). }
  split.
  { unfold BookService.findByTitle, BookService.findAll, bind, gets, ret.
    now rewrite (findBy_eq Book.title). }
  split; [intros b; now rewrite filter_In, contains_cib_spec|].
  split; [intros b; now rewrite filter_In, contains_cib_spec|].
  split; intros H; apply filter_none; intros b I;
    rewrite contains_cib_spec; now apply H.
Qed.

Lemma findBy_characterization_witness :
  BookService.findByAuthor "  TEST auth " SampleSearch.library
  = (Returned [created Sample.env Sample.request], SampleSearch.library) /\
  BookService.findByTitle "Non-existent Title" SampleSearch.library
  = (Returned [], SampleSearch.library).
Proof.
  destruct (findBy_characterization SampleSearch.library "  TEST auth ")
    as [_ [A _]].
  destruct (findBy_characterization SampleSearch.library "Non-existent Title")
    as [_ [_ [T _]]].
  split; [exact A | exact T].
Defined.

(** C7, at the failing input. The store holds one record, whose title and
    author are written with the capital letters alpha, sigma, alpha; the
    search string is written alpha, sigma, in capitals too, so that title
    and author contain it as it stands. [toLowerCase] turns the sigma that
    ends the search string into the final small sigma and the sigma inside
    the title into the small sigma: [findByTitle] and [findByAuthor] return
    no record, while the same two letters typed in lower case find it. This
    holds whatever else the character database holds. *)
Theorem findBy_misses_capital_sigma (ucd : Utf16.JsString.CaseData) :
  greek_entries ucd ->
  Utf16.JsString.includes SampleGreek.title SampleGreek.query = true /\
  Utf16.JsString.toLowerCase ucd SampleGreek.query = [0x3B1; 0x3C2]%N /\
  Utf16.JsString.toLowerCase ucd SampleGreek.title = [0x3B1; 0x3C3; 0x3B1]%N /\
  Utf16.BookService.findAll SampleGreek.store = [SampleGreek.book] /\
  Utf16.BookService.findByTitle ucd SampleGreek.query SampleGreek.store = [] /\
  Utf16.BookService.findByAuthor ucd SampleGreek.query SampleGreek.store = [] /\
  Utf16.BookService.findByTitle ucd SampleGreek.small SampleGreek.store
  = [SampleGreek.book] /\
  Utf16.BookService.findByAuthor ucd SampleGreek.small SampleGreek.store
  = [SampleGreek.book].
Proof.
  intros [LA [LS [CA [IA [La Ls]]]]].
  assert (Q : Utf16.JsString.toLowerCase ucd SampleGreek.query
              = [0x3B1; 0x3C2]%N).
  { unfold Utf16.JsString.toLowerCase, SampleGreek.query; cbn.
    unfold Utf16.JsString.finalSigma; cbn.
    rewrite LA, IA, CA. reflexivity. }
  assert (T : Utf16.JsString.toLowerCase ucd SampleGreek.title
              = [0x3B1; 0x3C3; 0x3B1]%N).
  { unfold Utf16.JsString.toLowerCase, SampleGreek.title; cbn.
    unfold Utf16.JsString.finalSigma; cbn.
    rewrite LA, LS, IA, CA. reflexivity. }
  assert (S : Utf16.JsString.toLowerCase ucd SampleGreek.small
              = [0x3B1; 0x3C3]%N).
  { unfold Utf16.JsString.toLowerCase, SampleGreek.small; cbn.
    rewrite La, Ls. reflexivity. }
  split; [reflexivity|]. split; [exact Q|]. split; [exact T|].
  split; [reflexivity|].
  unfold Utf16.BookService.findByTitle, Utf16.BookService.findByAuthor,
    Utf16.BookService.findAll, SampleGreek.store, SampleGreek.book.
  cbn [JsMap.values map snd filter Utf16.Book.title Utf16.Book.author].
  rewrite Q, T, S. repeat split; reflexivity.
Qed.

Lemma findBy_misses_capital_sigma_witness :
  greek_entries SampleGreek.ucd /\
  Utf16.BookService.findByTitle SampleGreek.ucd SampleGreek.query SampleGreek.store
  = [] /\
  Utf16.BookService.findByAuthor SampleGreek.ucd SampleGreek.query SampleGreek.store
  = [].
Proof.
  assert (G : greek_entries SampleGreek.ucd) by (repeat split).
  destruct (findBy_misses_capital_sigma SampleGreek.ucd G)
    as [_ [_ [_ [_ [T [A _]]]]]].
  split; [exact G|]. split; [exact T | exact A].
Defined.

(** ** The two embeddings of the search agree below U+0100 *)

Module WidenFacts.

Lemma N_of_ascii_bound (c : ascii) : (N_of_ascii c < 256)%N.
Proof. destruct c as [[] [] [] [] [] [] [] []]; vm_compute; reflexivity. Qed.

Lemma isWhiteSpace_widen (c : ascii) :
  Utf16.JsString.isWhiteSpace (N_of_ascii c) = JsString.isWhiteSpace c.
Proof. destruct c as [[] [] [] [] [] [] [] []]; vm_compute; reflexivity. Qed.

Lemma eqb_widen (a b : ascii) :
  (N_of_ascii a =? N_of_ascii b)%N = Ascii.eqb a b.
Proof.
  destruct (Ascii.eqb_spec a b) as [->|D].
  - apply N.eqb_refl.
  - apply N.eqb_neq. intros E. apply D.
    rewrite <- (ascii_N_embedding a), <- (ascii_N_embedding b). now rewrite E.
Qed.

Lemma widen_cons (c : ascii) (s : string) :
  widen (String c s) = N_of_ascii c :: widen s.
Proof. reflexivity. Qed.

Lemma trimStart_widen (s : string) :
  Utf16.JsString.trimStart (widen s) = widen (JsString.trimStart s).
Proof.
  induction s as [|c s IH]; [reflexivity|].
  rewrite widen_cons. simpl. rewrite isWhiteSpace_widen.
  destruct (JsString.isWhiteSpace c); [exact IH | reflexivity].
Qed.

Lemma trimEnd_widen (s : string) :
  Utf16.JsString.trimEnd (widen s) = widen (JsString.trimEnd s).
Proof.
  induction s as [|c s IH]; [reflexivity|].
  rewrite widen_cons. simpl. rewrite IH, isWhiteSpace_widen.
  destruct (JsString.trimEnd s); [|reflexivity].
  destruct (JsString.isWhiteSpace c); reflexivity.
Qed.

Lemma trim_widen (s : string) :
  Utf16.JsString.trim (widen s) = widen (JsString.trim s).
Proof.
  unfold Utf16.JsString.trim, JsString.trim.
  now rewrite trimStart_widen, trimEnd_widen.
Qed.

Lemma startsWith_widen (search s : string) :
  Utf16.JsString.startsWith (widen s) (widen search)
  = JsString.startsWith s search.
Proof.
  revert s. induction search as [|a search IH]; intros [|b s]; try reflexivity.
  rewrite !widen_cons. simpl. now rewrite eqb_widen, IH.
Qed.

Lemma includes_widen (s search : string) :
  Utf16.JsString.includes (widen s) (widen search) = JsString.includes s search.
Proof.
  induction s as [|b s IH].
  - pose proof (startsWith_widen search EmptyString) as H.
    change (widen EmptyString) with (@nil N) in *.
    simpl. now rewrite H.
  - rewrite widen_cons.
    change (Utf16.JsString.includes (N_of_ascii b :: widen s) (widen search))
      with (Utf16.JsString.startsWith (widen (String b s)) (widen search)
            || Utf16.JsString.includes (widen s) (widen search)).
    rewrite startsWith_widen, IH. reflexivity.
Qed.

(** No code unit below U+0100 is a surrogate or needs two code units. *)
Lemma codePoints_widen (s : string) :
  Utf16.JsString.codePoints (widen s) = widen s.
Proof.
  induction s as [|c s IH]; [reflexivity|].
  rewrite widen_cons. destruct s as [|d s]; [reflexivity|].
  rewrite widen_cons in *.
  change (Utf16.JsString.codePoints (N_of_ascii c :: N_of_ascii d :: widen s))
    with (if Utf16.JsString.isLeadingSurrogate (N_of_ascii c)
             && Utf16.JsString.isTrailingSurrogate (N_of_ascii d)
          then ((0x10000 + (N_of_ascii c - 0xD800) * 0x400
                 + (N_of_ascii d - 0xDC00))%N
                :: Utf16.JsString.codePoints (widen s))
          else N_of_ascii c
               :: Utf16.JsString.codePoints (N_of_ascii d :: widen s)).
  assert (L : Utf16.JsString.isLeadingSurrogate (N_of_ascii c) = false).
  { unfold Utf16.JsString.isLeadingSurrogate.
    pose proof (N_of_ascii_bound c).
    apply andb_false_iff. left. apply N.leb_gt. lia. }
  rewrite L. simpl andb. cbv iota. now rewrite IH.
Qed.

Lemma ofCodePoints_widen (s : string) :
  Utf16.JsString.ofCodePoints (widen s) = widen s.
Proof.
  induction s as [|c s IH]; [reflexivity|].
  rewrite widen_cons. unfold Utf16.JsString.ofCodePoints in *.
  cbn [flat_map]. rewrite IH.
  unfold Utf16.JsString.codeUnits.
  pose proof (N_of_ascii_bound c).
  destruct (N.ltb_spec (N_of_ascii c) 0x10000); [reflexivity | lia].
Qed.

Lemma lowerFrom_widen (ucd : Utf16.JsString.CaseData) (s : string) :
  latin1_entries ucd ->
  forall before,
    Utf16.JsString.lowerFrom ucd before (widen s)
    = widen (JsString.toLowerCase s).
Proof.
  intros E. induction s as [|c s IH]; intros before; [reflexivity|].
  rewrite widen_cons. cbn [Utf16.JsString.lowerFrom JsString.toLowerCase].
  rewrite widen_cons, IH, E.
  pose proof (N_of_ascii_bound c).
  destruct (N.eqb_spec (N_of_ascii c) 0x3A3) as [X|_]; [lia|].
  reflexivity.
Qed.

Lemma toLowerCase_widen (ucd : Utf16.JsString.CaseData) (s : string) :
  latin1_entries ucd ->
  Utf16.JsString.toLowerCase ucd (widen s) = widen (JsString.toLowerCase s).
Proof.
  intros E. unfold Utf16.JsString.toLowerCase.
  now rewrite codePoints_widen, (lowerFrom_widen ucd s E), ofCodePoints_widen.
Qed.

Lemma filter_widen (f : Book.t -> bool) (g : Utf16.Book.t -> bool)
  (l : list Book.t) :
  (forall b, g (widenBook b) = f b) ->
  filter g (map widenBook l) = map widenBook (filter f l).
Proof.
  intros H. induction l as [|b l IH]; [reflexivity|].
  simpl. rewrite H. destruct (f b); simpl; now rewrite IH.
Qed.

Lemma values_widenStore (st : Store) :
  JsMap.values (widenStore st) = map widenBook (JsMap.values st).
Proof.
  unfold JsMap.values, widenStore. rewrite !map_map. reflexivity.
Qed.

End WidenFacts.

(** On strings of code units below U+0100 the search over UTF-16 strings
    returns what the search of the Latin-1 embedding returns. *)
Lemma search_widen (ucd : Utf16.JsString.CaseData) (s : string) (st : Store) :
  latin1_entries ucd ->
  fst (BookService.findByAuthor s st)
  = Returned (filter (fun b => JsString.includes
                                 (JsString.toLowerCase (Book.author b))
                                 (JsString.trim (JsString.toLowerCase s)))
                     (JsMap.values st)) /\
  Utf16.BookService.findByAuthor ucd (widen s) (widenStore st)
  = map widenBook
      (filter (fun b => JsString.includes
                          (JsString.toLowerCase (Book.author b))
                          (JsString.trim (JsString.toLowerCase s)))
              (JsMap.values st)) /\
  fst (BookService.findByTitle s st)
  = Returned (filter (fun b => JsString.includes
                                 (JsString.toLowerCase (Book.title b))
                                 (JsString.trim (JsString.toLowerCase s)))
                     (JsMap.values st)) /\
  Utf16.BookService.findByTitle ucd (widen s) (widenStore st)
  = map widenBook
      (filter (fun b => JsString.includes
                          (JsString.toLowerCase (Book.title b))
                          (JsString.trim (JsString.toLowerCase s)))
              (JsMap.values st)).
Proof.
  intros E.
  split; [reflexivity|]. split; [|split; [reflexivity|]].
  - unfold Utf16.BookService.findByAuthor, Utf16.BookService.findAll.
    rewrite WidenFacts.values_widenStore.
    apply WidenFacts.filter_widen. intros b. simpl.
    now rewrite !WidenFacts.toLowerCase_widen, WidenFacts.trim_widen,
      WidenFacts.includes_widen.
  - unfold Utf16.BookService.findByTitle, Utf16.BookService.findAll.
    rewrite WidenFacts.values_widenStore.
    apply WidenFacts.filter_widen. intros b. simpl.
    now rewrite !WidenFacts.toLowerCase_widen, WidenFacts.trim_widen,
      WidenFacts.includes_widen.
Qed.

Lemma search_widen_witness :
  latin1_entries SampleGreek.ucd /\
  Utf16.BookService.findByAuthor SampleGreek.ucd (widen "  TEST auth ")
    (widenStore Sample.store1)
  = [widenBook (created Sample.env Sample.request)].
Proof.
  assert (E : latin1_entries SampleGreek.ucd).
  { intros c. destruct c as [[] [] [] [] [] [] [] []]; vm_compute; reflexivity. }
  split; [exact E|].
  destruct (search_widen SampleGreek.ucd "  TEST auth " Sample.store1 E)
    as [_ [A _]].
  rewrite A. reflexivity.
Defined.

(** ** Identifiers *)

Lemma digits_string_of_uint d : digits (NilEmpty.string_of_uint d) = true.
Proof. induction d; simpl; auto. Qed.

Lemma digits_ofN n : digits (JsString.ofN n) = true.
Proof.
  unfold JsString.ofN, NilZero.string_of_uint.
  destruct (N.to_uint n) eqn:E; try reflexivity;
    rewrite <- E; apply digits_string_of_uint.
Qed.

Lemma to_uint_nonnil n : N.to_uint n <> Decimal.Nil.
Proof.
  destruct n as [|p]; simpl; [discriminate|].
  apply DecimalPos.Unsigned.to_uint_nonnil.
Qed.

(** Distinct timestamps are written differently. *)
Lemma ofN_inj n n' : JsString.ofN n = JsString.ofN n' -> n = n'.
Proof.
  unfold JsString.ofN. intros H.
  apply DecimalN.Unsigned.to_uint_inj.
  pose proof (NilZero.usu _ (to_uint_nonnil n)) as A.
  pose proof (NilZero.usu _ (to_uint_nonnil n')) as B.
  rewrite H in A. rewrite A in B. now injection B.
Qed.

(** The underscore after the timestamp separates it from the suffix. *)
Lemma split_at_underscore a : forall a' s s',
  digits a = true -> digits a' = true ->
  a ++ "_" ++ s = a' ++ "_" ++ s' -> a = a' /\ s = s'.
Proof.
  induction a as [|c a IH]; intros [|c' a'] s s' D D' H; simpl in *.
  - injection H as ->. auto.
  - injection H as <- _. discriminate.
  - injection H as -> _. discriminate.
  - injection H as -> H.
    apply andb_true_iff in D, D'.
    destruct (IH a' s s') as [-> ->]; tauto.
Qed.

Lemma generateId_nonempty e : generateId e <> EmptyString.
Proof. discriminate. Qed.

(** Two identifiers are equal exactly when the timestamps agree and the
    random draws agree on the nine digits kept. *)
Lemma generateId_eq_iff e1 e2 :
  generateId e1 = generateId e2 <->
  now e1 = now e2 /\
  JsString.substr 2 9 (random36 e1) = JsString.substr 2 9 (random36 e2).
Proof.
  unfold generateId. split.
  - intros H. simpl in H. injection H as H.
    destruct (split_at_underscore _ _ _ _ (digits_ofN _) (digits_ofN _) H)
      as [A B].
    split; [now apply ofN_inj | exact B].
  - intros [-> ->]. reflexivity.
Qed.

(** C9, as amended. Every identifier is a non-empty string, and two calls
    return the same identifier exactly when they read the same millisecond
    and random numbers whose renderings agree in the nine characters kept;
    so the identifiers of two calls differ whenever the clock readings
    differ, and whenever the nine characters kept differ. *)
Theorem generateId_contract (e1 e2 : Env) :
  generateId e1 <> EmptyString /\
  (generateId e1 = generateId e2 <->
   now e1 = now e2 /\
   JsString.substr 2 9 (random36 e1) = JsString.substr 2 9 (random36 e2)) /\
  (now e1 <> now e2 -> generateId e1 <> generateId e2) /\
  (JsString.substr 2 9 (random36 e1) <> JsString.substr 2 9 (random36 e2) ->
   generateId e1 <> generateId e2).
Proof.
  split; [apply generateId_nonempty|].
  split; [apply generateId_eq_iff|].
  split; intros N E; apply generateId_eq_iff in E; tauto.
Qed.

Lemma generateId_contract_witness :
  now Sample.env <> now Sample.later /\
  generateId Sample.env <> generateId Sample.later.
Proof.
  assert (N : now Sample.env <> now Sample.later) by discriminate.
  split; [exact N|].
  exact (proj1 (proj2 (proj2 (generateId_contract Sample.env Sample.later))) N).
Defined.

(** The claim without the amendment fails: two calls in immediate
    succession, within the same millisecond, whose random numbers are the
    neighbours 555996395596649 * 2^-52 and 555996395596650 * 2^-52, read
    different renderings and return the same identifier. *)
Lemma generateId_collision :
  now SampleIds.first = now SampleIds.second /\
  random36 SampleIds.first <> random36 SampleIds.second /\
  generateId SampleIds.first = "book_1700000000000_4fzyo82mv" /\
  generateId SampleIds.second = "book_1700000000000_4fzyo82mv" /\
  generateId SampleIds.first = generateId SampleIds.second.
Proof.
  split; [reflexivity|]. split; [discriminate|]. repeat split; reflexivity.
Qed.

(** ** Frame *)

Lemma update_frame e id data st id2 :
  id2 <> id ->
  JsMap.get id2 (snd (BookService.update e id data st)) = JsMap.get id2 st.
Proof.
  intros N. rewrite update_eq.
  destruct (validateUpdateBookData _ _); [|reflexivity].
  destruct (JsMap.get id st); [|reflexivity].
  simpl. now apply JsMapFacts.get_set_other.
Qed.

Lemma delete_frame id st id2 :
  id2 <> id ->
  JsMap.get id2 (snd (BookService.delete id st)) = JsMap.get id2 st.
Proof. intros N. simpl. now apply JsMapFacts.get_remove_other. Qed.

(** [create] leaves every key but the generated one alone; when the
    generated identifier is not yet a key, the store grows by one entry. *)
Lemma create_frame e data st id2 :
  id2 <> generateId e ->
  JsMap.get id2 (snd (BookService.create e data st)) = JsMap.get id2 st.
Proof.
  intros N. rewrite create_eq.
  destruct (validateCreateBookData _ _); [|reflexivity].
  simpl. now apply JsMapFacts.get_set_other.
Qed.

Lemma create_fresh e data st :
  validateCreateBookData (fullYear e) data = Returned tt ->
  JsMap.get (generateId e) st = None ->
  snd (BookService.create e data st)
  = (st ++ [(generateId e, created e data)])%list.
Proof.
  intros V G. rewrite create_eq, V. simpl. now apply JsMapFacts.set_fresh.
Qed.

(** C10, as amended. For an identifier [id2] other than [id], [update] and
    [delete] on [id] leave what is stored under [id2] as it is, whatever
    they return or throw. [create] leaves what is stored under every
    identifier other than the one it generates as it is. When the
    identifier it generates is not yet a key of the store, every record
    stored before is still stored under its key; with a request that
    passes validation [create] then returns a record that carries the
    generated identifier and has appended exactly one entry, that record
    under that identifier; with a request that does not, it throws and
    leaves the store as it was. *)
Theorem write_frame
  (e : Env) (st : Store) (id id2 : string)
  (upd : UpdateBookData.t) (data : CreateBookData.t) :
  (id2 <> id ->
   JsMap.get id2 (snd (BookService.update e id upd st)) = JsMap.get id2 st /\
   JsMap.get id2 (snd (BookService.delete id st)) = JsMap.get id2 st) /\
  (id2 <> generateId e ->
   JsMap.get id2 (snd (BookService.create e data st)) = JsMap.get id2 st) /\
  (JsMap.get (generateId e) st = None ->
   (forall k b, JsMap.get k st = Some b ->
                JsMap.get k (snd (BookService.create e data st)) = Some b) /\
   (validateCreateBookData (fullYear e) data = Returned tt ->
    exists b,
      BookService.create e data st
      = (Returned b, (st ++ [(generateId e, b)])%list) /\
      Book.id b = generateId e /\
      JsMap.size (snd (BookService.create e data st)) = S (JsMap.size st)) /\
   (forall err,
      validateCreateBookData (fullYear e) data = Thrown err ->
      (exists msg, err = ValidationError msg) /\
      BookService.create e data st = (Thrown err, st))).
Proof.
  split; [intros N; split; [now apply update_frame | now apply delete_frame]|].
  split; [now apply create_frame|].
  intros F. split; [|split].
  - intros k b G. rewrite create_frame; [exact G|].
    intros ->. rewrite F in G. discriminate.
  - intros V. exists (created e data).
    rewrite create_eq, V, (JsMapFacts.set_fresh _ _ _ F).
    split; [reflexivity|]. split; [reflexivity|].
    unfold JsMap.size. simpl snd. rewrite length_app. simpl. lia.
  - intros err V. split; [now apply (validateCreateBookData_Thrown _ _ _ V)|].
    now rewrite create_eq, V.
Qed.

Lemma write_frame_witness :
  Sample.id1 <> "non-existent-id" /\
  Sample.id1 <> generateId Sample.later /\
  JsMap.get (generateId Sample.later) Sample.store1 = None /\
  validateCreateBookData (fullYear Sample.later) Sample.other = Returned tt /\
  JsMap.get Sample.id1
    (snd (BookService.update Sample.later "non-existent-id" Sample.retitle
            Sample.store1))
  = Some (created Sample.env Sample.request) /\
  JsMap.get Sample.id1
    (snd (BookService.create Sample.later Sample.other Sample.store1))
  = Some (created Sample.env Sample.request) /\
  JsMap.size (snd (BookService.create Sample.later Sample.other Sample.store1))
  = 2%nat.
Proof.
  assert (N : Sample.id1 <> "non-existent-id") by discriminate.
  assert (N' : Sample.id1 <> generateId Sample.later) by discriminate.
  assert (F : JsMap.get (generateId Sample.later) Sample.store1 = None)
    by reflexivity.
  assert (V : validateCreateBookData (fullYear Sample.later) Sample.other
              = Returned tt) by reflexivity.
  destruct (write_frame Sample.later Sample.store1 "non-existent-id" Sample.id1
              Sample.retitle Sample.other) as [U [_ C]].
  destruct (U N) as [U' _]. destruct (C F) as [K [R _]].
  destruct (R V) as [b [_ [_ S]]].
  split; [exact N|]. split; [exact N'|]. split; [exact F|]. split; [exact V|].
  split; [rewrite U'; reflexivity|].
  split; [apply K; reflexivity | exact S].
Defined.

(** The claim without the amendment fails. The store holds one record; a
    second [create], reading the same millisecond and the next random
    number, generates the key of that record again: the record stored before
    is replaced by a different one and no entry is added. *)
Lemma create_overwrites_on_collision :
  JsMap.get (generateId SampleIds.first) SampleIds.store
  = Some (created SampleIds.first Sample.request) /\
  validateCreateBookData (fullYear SampleIds.second) Sample.other = Returned tt /\
  BookService.create SampleIds.second Sample.other SampleIds.store
  = (Returned (created SampleIds.second Sample.other),
     [(generateId SampleIds.first, created SampleIds.second Sample.other)]) /\
  JsMap.get (generateId SampleIds.first)
    (snd (BookService.create SampleIds.second Sample.other SampleIds.store))
  <> JsMap.get (generateId SampleIds.first) SampleIds.store /\
  JsMap.size (snd (BookService.create SampleIds.second Sample.other SampleIds.store))
  = JsMap.size SampleIds.store.
Proof.
  split; [reflexivity|]. split; [reflexivity|]. split; [reflexivity|].
  split; [discriminate | reflexivity].
Qed.

(** ** Agreement with the test suite *)

Example sanitizeString_tests :
  sanitizeString "  hello  " = "hello" /\
  sanitizeString Sample.padded = "world" /\
  sanitizeString "   " = "" /\
  sanitizeString "  hello world  " = "hello world".
Proof. repeat split. Qed.

Example create_tests :
  fst (BookService.create Sample.env Sample.request JsMap.empty)
  = Returned {| Book.id := "book_1700000000000_4fzyo82mv";
                Book.title := "Test Book";
                Book.author := "Test Author";
                Book.year := Int 2023 |} /\
  fst (BookService.create Sample.env
         {| CreateBookData.title := "";
            CreateBookData.author := "Test Author";
            CreateBookData.year := Int 2023 |} JsMap.empty)
  = Thrown (ValidationError "Title is required and must be a non-empty string") /\
  fst (BookService.create Sample.env
         {| CreateBookData.title := "Test Book";
            CreateBookData.author := "Test Author";
            CreateBookData.year := Int (-1) |} JsMap.empty)
  = Thrown (ValidationError "Year must be between 0 and 2024") /\
  fst (BookService.create Sample.env
         {| CreateBookData.title := "Test Book";
            CreateBookData.author := "Test Author";
            CreateBookData.year := Int 2025 |} JsMap.empty)
  = Thrown (ValidationError "Year must be between 0 and 2024").
Proof. repeat split. Qed.

Example update_tests :
  fst (BookService.update Sample.later Sample.id1 Sample.retitle Sample.store1)
  = Returned (Some {| Book.id := Sample.id1;
                      Book.title := "Updated Title";
                      Book.author := "Test Author";
                      Book.year := Int 2023 |}) /\
  fst (BookService.update Sample.later "non-existent-id" Sample.retitle Sample.store1)
  = Returned None /\
  fst (BookService.update Sample.later Sample.id1 Sample.nothing Sample.store1)
  = Thrown (ValidationError "At least one field must be provided for update").
Proof. repeat split. Qed.

Example delete_tests :
  BookService.delete Sample.id1 Sample.store1 = (Returned true, JsMap.empty) /\
  BookService.delete Sample.id1 JsMap.empty = (Returned false, JsMap.empty) /\
  fst (BookService.safeDelete "non-existent-id" Sample.store1)
  = Thrown (BookNotFoundError "non-existent-id").
Proof. repeat split. Qed.

Example search_tests :
  fst (BookService.findByAuthor "test" Sample.store1)
  = Returned [created Sample.env Sample.request] /\
  fst (BookService.findByTitle "test book" Sample.store1)
  = Returned [created Sample.env Sample.request] /\
  fst (BookService.findByAuthor "Non-existent Author" Sample.store1) = Returned [].
Proof. repeat split. Qed.

Example getPaginated_tests :
  (exists p, fst (BookService.getPaginated 1 2 SamplePages.five) = Returned p /\
             List.length (books p) = 2%nat /\ currentPage p = Fin 1 /\
             totalPages p = Fin 3 /\ totalBooks p = 5 /\
             hasNextPage p = true /\ hasPreviousPage p = false) /\
  (exists p, fst (BookService.getPaginated 2 2 SamplePages.five) = Returned p /\
             List.length (books p) = 2%nat /\ currentPage p = Fin 2 /\
             hasNextPage p = true /\ hasPreviousPage p = true) /\
  (exists p, fst (BookService.getPaginated 3 2 SamplePages.five) = Returned p /\
             List.length (books p) = 1%nat /\ currentPage p = Fin 3 /\
             hasNextPage p = false /\ hasPreviousPage p = true) /\
  (exists p, fst (BookService.getPaginated 1 10 JsMap.empty) = Returned p /\
             books p = [] /\ totalBooks p = 0 /\ totalPages p = Fin 0) /\
  (exists p, fst (BookService.getPaginated 10 10 Sample.store1) = Returned p /\
             currentPage p = Fin 1 /\ List.length (books p) = 1%nat).
Proof.
  repeat split; eexists; (split; [vm_compute; reflexivity|]); repeat split.
Qed.

(** * Further properties *)

(** ** What every reachable store satisfies *)

(** The shape of the store after one call. *)
Lemma exec_shapes o st :
  exec o st = st \/
  (exists e d,
     validateCreateBookData (fullYear e) d = Returned tt /\
     exec o st = JsMap.set (generateId e) (created e d) st) \/
  (exists e id d old,
     validateUpdateBookData (fullYear e) d = Returned tt /\
     JsMap.get id st = Some old /\
     exec o st = JsMap.set id (merged old d) st) \/
  (exists k, exec o st = JsMap.remove k st) \/
  exec o st = JsMap.empty.
Proof.
  destruct o as [e d|e d|e id d|e id d|id|id|]; simpl;
    rewrite ?safeCreate_store, ?safeUpdate_store, ?safeDelete_store,
            ?create_eq, ?update_eq.
  1,2: destruct (outcome_unit_cases (validateCreateBookData (fullYear e) d))
         as [R|[err T]]; [rewrite R | rewrite T]; simpl; eauto 8.
  1,2: destruct (outcome_unit_cases (validateUpdateBookData (fullYear e) d))
         as [R|[err T]]; [rewrite R | rewrite T]; simpl; eauto;
       destruct (JsMap.get id st) as [old|] eqn:G; simpl; eauto 12.
  all: eauto 8.
Qed.

(** A property of records that [create] establishes and [update] keeps
    holds of every record of every reachable store. *)
Lemma reachable_forall (P : Book.t -> Prop) :
  (forall e d, validateCreateBookData (fullYear e) d = Returned tt ->
               P (created e d)) ->
  (forall e d old, validateUpdateBookData (fullYear e) d = Returned tt ->
                   P old -> P (merged old d)) ->
  forall st, reachable st -> forall k b, In (k, b) st -> P b.
Proof.
  intros HC HU st [ops ->].
  assert (G : forall ops st,
             (forall k b, In (k, b) st -> P b) ->
             forall k b, In (k, b) (run ops st) -> P b).
  { clear ops. induction ops as [|o ops IH]; intros st H; [exact H|].
    rewrite run_cons. apply IH.
    destruct (exec_shapes o st)
      as [E|[[e [d [V E]]]|[[e [id [d [old [V [G E]]]]]]|[[k E]|E]]]];
      rewrite E; intros k' b' I.
    - eapply H; eauto.
    - destruct (In_set _ _ _ _ _ I) as [X|X].
      + injection X as _ ->. now apply HC.
      + eapply H; eauto.
    - destruct (In_set _ _ _ _ _ I) as [X|X].
      + injection X as _ ->. apply (HU e); [exact V|].
        apply (H id). now apply get_In.
      + eapply H; eauto.
    - apply In_remove in I. eapply H; eauto.
    - destruct I. }
  apply G. intros k b [].
Qed.

Lemma normalized_created e d :
  validateCreateBookData (fullYear e) d = Returned tt -> normalized (created e d).
Proof.
  intros V. apply validateCreateBookData_Returned in V.
  destruct V as [T [A [z [Y R]]]].
  unfold normalized, created, sanitizeString; simpl.
  rewrite !JsStringFacts.trim_idempotent.
  repeat split; auto. exists z. split; [exact Y | lia].
Qed.

Lemma normalized_merged e d old :
  validateUpdateBookData (fullYear e) d = Returned tt ->
  normalized old -> normalized (merged old d).
Proof.
  intros V [T1 [T2 [A1 [A2 Y]]]].
  apply validateUpdateBookData_Returned in V. destruct V as [_ [VT [VA VY]]].
  unfold normalized.
  rewrite merged_title, merged_author by assumption.
  unfold merged, sanitizeString; simpl.
  destruct (UpdateBookData.title d) as [| |t];
    destruct (UpdateBookData.author d) as [| |a];
    rewrite ?JsStringFacts.trim_idempotent;
    repeat split; auto;
    try (destruct (UpdateBookData.year d) as [| |y]; auto;
         destruct (VY y eq_refl) as [z [E R]]; exists z; split; [exact E | lia]).
Qed.

(** X1. In every store the service can reach, whatever the clock and the
    random generator returned, every record [findAll] returns has a title
    and an author that are already trimmed and not empty, and a year that is
    an integer not below 0. *)
Theorem stored_records_normalized (st : Store) (b : Book.t) :
  reachable st ->
  In b (JsMap.values st) ->
  BookService.findAll st = (Returned (JsMap.values st), st) /\
  normalized b.
Proof.
  intros R I. split; [reflexivity|].
  destruct (JsMapFacts.In_values_get _ _ I) as [k K].
  apply (reachable_forall normalized normalized_created normalized_merged st R k b K).
Qed.

Lemma stored_records_normalized_witness :
  reachable Sample2.final /\
  In SampleRun.record (JsMap.values Sample2.final) /\
  normalized SampleRun.record.
Proof.
  assert (R : reachable Sample2.final) by (now exists SampleRun.ops).
  assert (I : In SampleRun.record (JsMap.values Sample2.final))
    by (left; reflexivity).
  split; [exact R|]. split; [exact I|].
  exact (proj2 (stored_records_normalized Sample2.final SampleRun.record R I)).
Defined.

(** ** Reading by year *)

Lemma strictEqualsInt_spec (x : number) (year : Z) :
  strictEqualsInt x year = true <-> x = Int year.
Proof.
  destruct x as [z|]; simpl.
  - rewrite Z.eqb_eq. split; [now intros -> | intros H; now injection H].
  - split; discriminate.
Qed.

(** X2. [findByYear(year)] returns, in the order of [findAll()], exactly the
    stored records whose year is [year], and leaves the store as it is; in
    a store the service can reach it returns nothing for a negative
    [year]. *)
Theorem findByYear_characterization (st : Store) (year : Z) :
  exists found,
    BookService.findByYear year st = (Returned found, st) /\
    found = filter (fun b => strictEqualsInt (Book.year b) year) (JsMap.values st) /\
    (forall b, In b found <-> In b (JsMap.values st) /\ Book.year b = Int year) /\
    (reachable st -> year < 0 -> found = []).
Proof.
  eexists. split; [reflexivity|]. split; [reflexivity|]. split.
  - intros b. now rewrite filter_In, strictEqualsInt_spec.
  - intros R N. apply filter_none. intros b I.
    rewrite strictEqualsInt_spec. intros E.
    destruct (JsMapFacts.In_values_get _ _ I) as [k K].
    destruct (reachable_forall normalized normalized_created normalized_merged
                st R k b K) as [_ [_ [_ [_ [z [Y P]]]]]].
    rewrite E in Y. injection Y as <-. lia.
Qed.

Lemma findByYear_characterization_witness :
  reachable Sample2.final /\ -1 < 0 /\
  BookService.findByYear 1999 Sample2.final
  = (Returned [created Sample.later Sample.other], Sample2.final) /\
  BookService.findByYear (-1) Sample2.final = (Returned [], Sample2.final).
Proof.
  assert (R : reachable Sample2.final) by (now exists SampleRun.ops).
  split; [exact R|]. split; [lia|].
  destruct (findByYear_characterization Sample2.final 1999) as [f [E [F _]]].
  destruct (findByYear_characterization Sample2.final (-1)) as [g [E' [_ [_ N]]]].
  split.
  - rewrite E, F. reflexivity.
  - rewrite E', (N R); [reflexivity | lia].
Defined.

(** ** Deleting *)

Lemma remove_absent {V} (k : string) (m : JsMap.t V) :
  JsMap.get k m = None -> JsMap.remove k m = m.
Proof.
  induction m as [|[k0 v0] m IH]; simpl; [reflexivity|].
  destruct (String.eqb k k0); [discriminate|]. intros H. now rewrite IH.
Qed.

Lemma size_remove {V} (k : string) (m : JsMap.t V) :
  Z.of_nat (JsMap.size (JsMap.remove k m))
  = Z.of_nat (JsMap.size m) - (if JsMap.has k m then 1 else 0).
Proof.
  unfold JsMap.size, JsMap.has.
  induction m as [|[k0 v0] m IH]; simpl List.length; simpl JsMap.get;
    [reflexivity|].
  simpl JsMap.remove. destruct (String.eqb k k0); simpl List.length.
  - lia.
  - destruct (JsMap.get k m); lia.
Qed.

(** X3. In a store the service can reach, [delete(id)] returns [true]
    exactly when a record is stored under [id]; afterwards [findById(id)]
    returns [null], every other identifier reads as before, [count()] has
    dropped by one if a record was removed and not at all otherwise, and a
    second [delete(id)] returns [false] and changes nothing. *)
Theorem delete_contract (st : Store) (id : string) :
  reachable st ->
  exists st',
    BookService.delete id st = (Returned (JsMap.has id st), st') /\
    (JsMap.has id st = true <-> JsMap.get id st <> None) /\
    BookService.findById id st' = (Returned None, st') /\
    (forall id2, id2 <> id ->
       BookService.findById id2 st' = (Returned (JsMap.get id2 st), st')) /\
    BookService.count st'
    = (Returned (Z.of_nat (JsMap.size st) - (if JsMap.has id st then 1 else 0)),
       st') /\
    BookService.delete id st' = (Returned false, st').
Proof.
  intros R. exists (JsMap.remove id st).
  pose proof (get_remove_same id st (reachable_unique_keys st R)) as G.
  split; [reflexivity|]. split.
  { unfold JsMap.has. destruct (JsMap.get id st); split; congruence. }
  split.
  { unfold BookService.findById, gets. now rewrite G. }
  split.
  { intros id2 N. unfold BookService.findById, gets.
    now rewrite JsMapFacts.get_remove_other. }
  split.
  { unfold BookService.count, gets. now rewrite size_remove. }
  unfold BookService.delete, JsMap.has. rewrite G.
  now rewrite (remove_absent id _ G).
Qed.

Lemma delete_contract_witness :
  reachable Sample.store1 /\
  BookService.delete Sample.id1 Sample.store1 = (Returned true, JsMap.empty) /\
  BookService.findById Sample.id1 JsMap.empty = (Returned None, JsMap.empty) /\
  BookService.delete Sample.id1 JsMap.empty = (Returned false, JsMap.empty).
Proof.
  assert (R : reachable Sample.store1)
    by (now exists [OpCreate Sample.env Sample.request]).
  split; [exact R|].
  destruct (delete_contract Sample.store1 Sample.id1 R)
    as [st' [D [_ [F [_ [_ D2]]]]]].
  assert (E : st' = JsMap.empty) by (now injection D as <-).
  rewrite E in *. repeat split; assumption.
Defined.

(** X4. [safeDelete(id)] throws the [BookNotFoundError] built from [id], and
    leaves the store as it is, exactly when no record is stored under [id];
    otherwise it returns and has the effect of [delete(id)]. In a store the
    service can reach a second [safeDelete(id)] always throws. *)
Theorem safeDelete_contract (st : Store) (id : string) :
  BookService.safeDelete id st
  = (if JsMap.has id st
     then (Returned tt, snd (BookService.delete id st))
     else (Thrown (BookNotFoundError id), st)) /\
  (JsMap.has id st = false <-> BookService.findById id st = (Returned None, st)) /\
  (reachable st ->
   BookService.safeDelete id (snd (BookService.safeDelete id st))
   = (Thrown (BookNotFoundError id), snd (BookService.safeDelete id st))).
Proof.
  assert (A : forall m : Store,
             JsMap.has id m = false ->
             BookService.safeDelete id m = (Thrown (BookNotFoundError id), m)).
  { intros m H. unfold BookService.safeDelete, BookService.delete, bind, throw.
    rewrite H. f_equal. apply remove_absent.
    unfold JsMap.has in H. now destruct (JsMap.get id m). }
  split; [|split].
  - destruct (JsMap.has id st) eqn:H; [|now apply A].
    unfold BookService.safeDelete, BookService.delete, bind, ret. now rewrite H.
  - unfold JsMap.has, BookService.findById, gets.
    destruct (JsMap.get id st); split; try reflexivity; discriminate.
  - intros R. apply A. rewrite safeDelete_store. unfold JsMap.has.
    now rewrite (get_remove_same id st (reachable_unique_keys st R)).
Qed.

Lemma safeDelete_contract_witness :
  reachable Sample.store1 /\
  BookService.safeDelete Sample.id1 Sample.store1 = (Returned tt, JsMap.empty) /\
  BookService.safeDelete Sample.id1 JsMap.empty
  = (Thrown (BookNotFoundError Sample.id1), JsMap.empty).
Proof.
  assert (R : reachable Sample.store1)
    by (now exists [OpCreate Sample.env Sample.request]).
  split; [exact R|].
  destruct (safeDelete_contract Sample.store1 Sample.id1) as [E [_ T]].
  split; [exact E | exact (T R)].
Defined.

(** ** Calls that fail *)

(** X5. A call of [create], [safeCreate], [update], [safeUpdate], [delete]
    or [safeDelete] that throws, returns [null] or [false], or returns a
    failure leaves the map exactly as it was. *)
Theorem failed_call_keeps_store (o : Op) (st : Store) :
  reports_failure o st = true -> exec o st = st.
Proof.
  destruct o as [e d|e d|e id d|e id d|id|id|]; simpl;
    rewrite ?safeCreate_store, ?safeUpdate_store, ?safeDelete_store.
  - rewrite create_eq.
    destruct (validateCreateBookData _ _); simpl; [discriminate | reflexivity].
  - unfold BookService.safeCreate, try_catch, bind, ret. rewrite create_eq.
    destruct (validateCreateBookData _ _); simpl; [discriminate | reflexivity].
  - rewrite update_eq.
    destruct (validateUpdateBookData _ _); simpl; [|reflexivity].
    destruct (JsMap.get id st); simpl; [discriminate | reflexivity].
  - unfold BookService.safeUpdate, try_catch, bind, ret. rewrite update_eq.
    destruct (validateUpdateBookData _ _); simpl; [|reflexivity].
    destruct (JsMap.get id st); simpl; [discriminate | reflexivity].
  - destruct (JsMap.has id st) eqn:H; [discriminate|]. intros _.
    apply remove_absent. unfold JsMap.has in H. now destruct (JsMap.get id st).
  - unfold BookService.safeDelete, BookService.delete, bind, ret, throw.
    destruct (JsMap.has id st) eqn:H; simpl; [discriminate|]. intros _.
    apply remove_absent. unfold JsMap.has in H. now destruct (JsMap.get id st).
  - discriminate.
Qed.

Lemma failed_call_keeps_store_witness :
  reports_failure (OpUpdate Sample.env Sample.id1 SampleYear.untitled) Sample.store1
  = true /\
  exec (OpUpdate Sample.env Sample.id1 SampleYear.untitled) Sample.store1
  = Sample.store1.
Proof.
  split; [reflexivity|].
  apply (failed_call_keeps_store
           (OpUpdate Sample.env Sample.id1 SampleYear.untitled) Sample.store1).
  reflexivity.
Defined.

(** X6. [safeCreate] and [safeUpdate] never throw. [safeCreate] returns a
    success carrying [b] exactly when [create] returns [b], and a failure
    carrying [err] exactly when [create] throws [err], which is then a
    [ValidationError]. [safeUpdate] returns a success carrying [b] exactly
    when [update] returns [b]; a failure it returns carries either the
    [ValidationError] [update] threw or, when [update] returned [null], the
    [BookNotFoundError] built from the identifier. Both leave the store as
    [create] and [update] leave it. *)
Theorem safe_calls_never_throw
  (e : Env) (id : string) (c : CreateBookData.t) (d : UpdateBookData.t)
  (st : Store) :
  (exists r, BookService.safeCreate e c st
             = (Returned r, snd (BookService.create e c st)) /\
     match r with
     | success b => fst (BookService.create e c st) = Returned b
     | failure err =>
         fst (BookService.create e c st) = Thrown err /\
         exists msg, err = ValidationError msg
     end) /\
  (exists r, BookService.safeUpdate e id d st
             = (Returned r, snd (BookService.update e id d st)) /\
     match r with
     | success b => fst (BookService.update e id d st) = Returned (Some b)
     | failure err =>
         (fst (BookService.update e id d st) = Thrown err /\
          exists msg, err = ValidationError msg) \/
         (fst (BookService.update e id d st) = Returned None /\
          err = BookNotFoundError id)
     end).
Proof.
  split.
  - unfold BookService.safeCreate, try_catch, bind, ret. rewrite create_eq.
    destruct (validateCreateBookData (fullYear e) c) as [[]|err] eqn:V; simpl.
    + eexists. split; reflexivity.
    + eexists. split; [reflexivity|]. split; [reflexivity|].
      eapply validateCreateBookData_Thrown; eauto.
  - unfold BookService.safeUpdate, try_catch, bind, ret. rewrite update_eq.
    destruct (validateUpdateBookData (fullYear e) d) as [[]|err] eqn:V; simpl.
    + destruct (JsMap.get id st); simpl; eexists; (split; [reflexivity|]);
        simpl; auto.
    + eexists. split; [reflexivity|]. left. split; [reflexivity|].
      eapply validateUpdateBookData_Thrown; eauto.
Qed.

(** ** The two ways to read agree *)

Lemma get_of_In {V} (k : string) (v : V) (m : JsMap.t V) :
  NoDup (JsMap.keys m) -> In (k, v) m -> JsMap.get k m = Some v.
Proof.
  induction m as [|[k0 v0] m IH]; simpl; [intros _ []|].
  intros H I. inversion H as [|? ? N D]; subst.
  destruct (String.eqb k k0) eqn:E.
  - apply String.eqb_eq in E. subst k0. destruct I as [X|X].
    + now injection X as ->.
    + elim N. change k with (fst (k, v)). now apply in_map.
  - destruct I as [X|X]; [|now apply IH].
    injection X as -> _. now rewrite String.eqb_refl in E.
Qed.

Lemma ids_are_keys (st : Store) :
  keys_match st -> map Book.id (JsMap.values st) = JsMap.keys st.
Proof.
  unfold JsMap.values, JsMap.keys. intros H.
  induction st as [|[k b] st IH]; simpl; [reflexivity|].
  rewrite (H k b (or_introl eq_refl)). f_equal.
  apply IH. intros k' b' I. apply H. now right.
Qed.

(** X7. In a store the service can reach, [findById(id)] returns the record
    [b] exactly when [b] is among the records [findAll()] returns and
    carries the identifier [id]; no two records of [findAll()] carry the
    same identifier, and [count()] is the number of records of
    [findAll()]. *)
Theorem findById_agrees_with_findAll (st : Store) (id : string) (b : Book.t) :
  reachable st ->
  (BookService.findById id st = (Returned (Some b), st) <->
   In b (JsMap.values st) /\ Book.id b = id) /\
  NoDup (map Book.id (JsMap.values st)) /\
  BookService.count st = (Returned (Z.of_nat (List.length (JsMap.values st))), st).
Proof.
  intros R.
  pose proof (reachable_keys_match st R) as K.
  pose proof (reachable_unique_keys st R) as U.
  split; [|split].
  - unfold BookService.findById, gets. split.
    + intros H. assert (G : JsMap.get id st = Some b) by congruence.
      split; [eapply JsMapFacts.get_Some_In; eauto|].
      apply K. now apply get_In.
    + intros [I E]. destruct (JsMapFacts.In_values_get _ _ I) as [k X].
      assert (k = id) by (rewrite <- E; symmetry; now apply K). subst k.
      now rewrite (get_of_In id b st U X).
  - now rewrite ids_are_keys.
  - unfold BookService.count, gets, JsMap.size, JsMap.values.
    now rewrite length_map.
Qed.

Lemma findById_agrees_with_findAll_witness :
  reachable Sample2.final /\
  (BookService.findById Sample.id1 Sample2.final
   = (Returned (Some SampleRun.record), Sample2.final) <->
   In SampleRun.record (JsMap.values Sample2.final) /\
   Book.id SampleRun.record = Sample.id1) /\
  BookService.count Sample2.final = (Returned 2, Sample2.final).
Proof.
  assert (R : reachable Sample2.final) by (now exists SampleRun.ops).
  split; [exact R|].
  destruct (findById_agrees_with_findAll Sample2.final Sample.id1
              SampleRun.record R) as [A [_ C]].
  split; [exact A | exact C].
Defined.

(** ** Where a written record goes *)

Lemma run_app ops ops' st : run (ops ++ ops') st = run ops' (run ops st).
Proof. unfold run. apply fold_left_app. Qed.

Lemma reachable_exec o st : reachable st -> reachable (exec o st).
Proof.
  intros [ops ->]. exists (ops ++ [o])%list. now rewrite run_app.
Qed.

(** X8. In a store the service can reach, [update] never moves, adds or
    drops a record: whatever it returns or throws, [findAll()] lists the
    same identifiers in the same order afterwards, and [count()] is
    unchanged. *)
Theorem update_keeps_order
  (e : Env) (id : string) (d : UpdateBookData.t) (st : Store) :
  reachable st ->
  map Book.id (JsMap.values (snd (BookService.update e id d st)))
  = map Book.id (JsMap.values st) /\
  JsMap.size (snd (BookService.update e id d st)) = JsMap.size st.
Proof.
  intros R.
  assert (K : JsMap.keys (snd (BookService.update e id d st)) = JsMap.keys st).
  { rewrite update_eq.
    destruct (validateUpdateBookData _ _); [|reflexivity].
    destruct (JsMap.get id st) eqn:G; [|reflexivity].
    simpl. rewrite keys_set. unfold JsMap.has. now rewrite G. }
  split.
  - rewrite !ids_are_keys; [exact K | now apply reachable_keys_match |].
    apply reachable_keys_match.
    apply (reachable_exec (OpUpdate e id d) st R).
  - unfold JsMap.size. rewrite <- (length_map fst), <- (length_map fst st).
    unfold JsMap.keys in K. now rewrite K.
Qed.

Lemma update_keeps_order_witness :
  reachable SampleSearch.library /\
  map Book.id (JsMap.values
                 (snd (BookService.update Sample.later Sample.id1 Sample.retitle
                         SampleSearch.library)))
  = [generateId Sample.env; generateId Sample.later].
Proof.
  assert (R : reachable SampleSearch.library)
    by (now exists [OpCreate Sample.env Sample.request;
                    OpCreate Sample.later Sample.other]).
  split; [exact R|].
  exact (proj1 (update_keeps_order Sample.later Sample.id1 Sample.retitle
                  SampleSearch.library R)).
Defined.

(** X9. A [create] that passes validation puts its record at the end of
    [findAll()] and raises [count()] by one when the generated identifier is
    not yet a key of the map; when it is one already, the record takes the
    place of the record stored under that key and [count()] stays. *)
Theorem create_position (e : Env) (c : CreateBookData.t) (st : Store) :
  validateCreateBookData (fullYear e) c = Returned tt ->
  exists b st',
    BookService.create e c st = (Returned b, st') /\
    (JsMap.get (Book.id b) st = None ->
     JsMap.values st' = (JsMap.values st ++ [b])%list /\
     JsMap.size st' = S (JsMap.size st)) /\
    (JsMap.get (Book.id b) st <> None ->
     JsMap.keys st' = JsMap.keys st /\
     JsMap.size st' = JsMap.size st /\
     JsMap.get (Book.id b) st' = Some b).
Proof.
  intros V. exists (created e c), (JsMap.set (generateId e) (created e c) st).
  rewrite create_eq, V. split; [reflexivity|]. simpl Book.id. split.
  - intros G. rewrite (JsMapFacts.set_fresh _ _ _ G).
    unfold JsMap.values, JsMap.size. rewrite map_app, length_app. simpl.
    split; [reflexivity | lia].
  - intros G. split; [|split].
    + rewrite keys_set. unfold JsMap.has.
      destruct (JsMap.get (generateId e) st); [reflexivity | now elim G].
    + now apply JsMapFacts.size_set_present.
    + apply JsMapFacts.get_set_same.
Qed.

Lemma create_position_witness :
  validateCreateBookData (fullYear Sample.later) Sample.other = Returned tt /\
  JsMap.get (generateId Sample.later) Sample.store1 = None /\
  exists b st',
    BookService.create Sample.later Sample.other Sample.store1 = (Returned b, st') /\
    JsMap.values st' = [created Sample.env Sample.request; b] /\
    JsMap.size st' = 2%nat.
Proof.
  split; [reflexivity|]. split; [reflexivity|].
  destruct (create_position Sample.later Sample.other Sample.store1 eq_refl)
    as [b [st' [C [F _]]]].
  exists b, st'. split; [exact C|].
  assert (E : b = created Sample.later Sample.other) by (now injection C as <-).
  subst b. exact (F eq_refl).
Defined.

(** ** What a search depends on *)

Lemma toLowerCase_empty (s : string) :
  JsString.toLowerCase s = EmptyString <-> s = EmptyString.
Proof. destruct s; simpl; split; intros H; try reflexivity; discriminate. Qed.

Lemma filter_all {A} (f : A -> bool) (l : list A) :
  (forall x, f x = true) -> filter f l = l.
Proof.
  intros H. induction l as [|x l IH]; simpl; [reflexivity|].
  now rewrite H, IH.
Qed.

(** X10. [findByAuthor] and [findByTitle] depend on their argument only
    through its trimmed, lower-cased form: two arguments with the same such
    form give the same result. An argument that is empty or all white space
    matches every record: the result is [findAll()]. *)
Theorem search_argument (st : Store) (s s' : string) :
  (JsString.toLowerCase (JsString.trim s) = JsString.toLowerCase (JsString.trim s') ->
   BookService.findByAuthor s st = BookService.findByAuthor s' st /\
   BookService.findByTitle s st = BookService.findByTitle s' st) /\
  (JsString.trim s = EmptyString ->
   BookService.findByAuthor s st = BookService.findAll st /\
   BookService.findByTitle s st = BookService.findAll st).
Proof.
  unfold BookService.findByAuthor, BookService.findByTitle, BookService.findAll,
    bind, gets, ret.
  rewrite !JsStringFacts.trim_toLowerCase. split.
  - intros ->. split; reflexivity.
  - intros ->. simpl JsString.toLowerCase.
    rewrite !filter_all; [split; reflexivity | |]; intros b;
      now destruct (JsString.toLowerCase _).
Qed.

Lemma search_argument_witness :
  JsString.toLowerCase (JsString.trim "  TEST auth ")
  = JsString.toLowerCase (JsString.trim "test AUTH") /\
  JsString.trim Sample2.padding = EmptyString /\
  BookService.findByAuthor "  TEST auth " SampleSearch.library
  = BookService.findByAuthor "test AUTH" SampleSearch.library /\
  BookService.findByTitle Sample2.padding SampleSearch.library
  = BookService.findAll SampleSearch.library.
Proof.
  split; [reflexivity|]. split; [reflexivity|].
  destruct (search_argument SampleSearch.library "  TEST auth " "test AUTH")
    as [A _].
  destruct (search_argument SampleSearch.library Sample2.padding Sample2.padding)
    as [_ B].
  split; [exact (proj1 (A eq_refl)) | exact (proj2 (B eq_refl))].
Defined.

(** ** The pages cover the records *)

Lemma skipn_add {A} (a b : nat) (l : list A) :
  skipn (a + b) l = skipn a (skipn b l).
Proof.
  revert l. induction b as [|b IH]; intros l.
  - now rewrite Nat.add_0_r.
  - rewrite Nat.add_succ_r. destruct l as [|x l]; simpl.
    + now rewrite skipn_nil.
    + apply IH.
Qed.

(** Cutting a list into [n] chunks of [k] and gluing them gives the list
    back when the chunks reach its end. *)
Lemma chunks_concat {A} (k : nat) :
  forall (n : nat) (l : list A),
    (List.length l <= n * k)%nat ->
    flat_map (fun i => firstn k (skipn (i * k) l)) (seq 0 n) = l.
Proof.
  induction n as [|n IH]; intros l H.
  - destruct l; [reflexivity | simpl in H; lia].
  - simpl flat_map. rewrite <- seq_shift, flat_map_concat_map, map_map,
      <- flat_map_concat_map.
    rewrite (flat_map_ext _ (fun i => firstn k (skipn (i * k) (skipn k l)))).
    + rewrite IH; [apply firstn_skipn|]. rewrite length_skipn. simpl in H. lia.
    + intros i. replace (S i * k)%nat with (i * k + k)%nat by lia.
      now rewrite skipn_add.
Qed.

(** The records on a page, for a page size of at least 1. *)
Lemma pageBooks_eq (page pageSize : Z) (st : Store) :
  1 <= pageSize ->
  exists tp,
    JsMath.ceil_div (Z.of_nat (JsMap.size st)) pageSize = Fin tp /\
    (tp - 1) * pageSize < Z.of_nat (JsMap.size st) <= tp * pageSize /\
    pageBooks page pageSize st
    = firstn (Z.to_nat pageSize)
        (skipn (Z.to_nat ((Z.max 1 (Z.min page tp) - 1) * pageSize))
               (JsMap.values st)).
Proof.
  intros P.
  destruct (ceil_div_bounds (Z.of_nat (JsMap.size st)) pageSize ltac:(lia))
    as [tp [Q B]].
  exists tp. split; [exact Q|]. split; [exact B|].
  unfold pageBooks, BookService.getPaginated, BookService.count,
    BookService.findAll, bind, gets, ret.
  rewrite Q. simpl JsMath.min. simpl JsMath.max.
  set (cp := Z.max 1 (Z.min page tp)).
  unfold JsMath.sub. simpl.
  replace (cp + -1) with (cp - 1) by lia.
  rewrite slice_index_range by (unfold cp; nia).
  unfold index_range. rewrite range_from_firstn_skipn.
  f_equal; [|f_equal]; unfold cp; nia.
Qed.

(** X11. For a page size of at least 1 the pages 1, ..., [totalPages] of
    [getPaginated] hold, one after the other, exactly the records of
    [findAll()] in their order: no record is left out and none comes twice.
    Each of these pages holds at least one record and at most [pageSize],
    and every page but the last holds [pageSize]. *)
Theorem pages_cover_findAll (st : Store) (pageSize : Z) :
  1 <= pageSize ->
  exists tp,
    (forall page,
       exists p, fst (BookService.getPaginated page pageSize st) = Returned p /\
                 totalPages p = Fin tp) /\
    flat_map (fun page => pageBooks page pageSize st) (pagesUpTo tp)
    = JsMap.values st /\
    (forall page, 1 <= page <= tp ->
       (1 <= List.length (pageBooks page pageSize st))%nat /\
       Z.of_nat (List.length (pageBooks page pageSize st)) <= pageSize /\
       (page < tp ->
        Z.of_nat (List.length (pageBooks page pageSize st)) = pageSize)).
Proof.
  intros P.
  destruct (pageBooks_eq 1 pageSize st P) as [tp [Q [B _]]].
  assert (T : 0 <= tp) by nia.
  assert (L : Z.of_nat (List.length (JsMap.values st)) = Z.of_nat (JsMap.size st))
    by (unfold JsMap.values, JsMap.size; now rewrite length_map).
  exists tp. split; [|split].
  - intros page. eexists. split.
    + unfold BookService.getPaginated, BookService.count, BookService.findAll,
        bind, gets, ret. reflexivity.
    + exact Q.
  - unfold pagesUpTo.
    rewrite <- seq_shift, map_map, flat_map_concat_map, map_map.
    rewrite (map_ext_in _
               (fun i => firstn (Z.to_nat pageSize)
                           (skipn (i * Z.to_nat pageSize) (JsMap.values st)))).
    + rewrite <- flat_map_concat_map. apply chunks_concat. nia.
    + intros i I. apply in_seq in I.
      destruct (pageBooks_eq (Z.of_nat (S i)) pageSize st P) as [tp' [Q' [_ E]]].
      rewrite Q in Q'. injection Q' as <-. rewrite E.
      do 2 f_equal. nia.
  - intros page R.
    destruct (pageBooks_eq page pageSize st P) as [tp' [Q' [_ E]]].
    rewrite Q in Q'. injection Q' as <-. rewrite E.
    rewrite length_firstn, length_skipn.
    replace (Z.max 1 (Z.min page tp)) with page by lia.
    repeat split; nia.
Qed.

Lemma pages_cover_findAll_witness :
  1 <= 2 /\
  flat_map (fun page => pageBooks page 2 SamplePages.five) (pagesUpTo 3)
  = JsMap.values SamplePages.five.
Proof.
  split; [lia|].
  destruct (pages_cover_findAll SamplePages.five 2 ltac:(lia)) as [tp [T [C _]]].
  destruct (T 1) as [p [E Q]].
  assert (tp = 3) by (vm_compute in E; injection E as <-; now injection Q).
  subst tp. exact C.
Defined.

(** ** What [sanitizeString] removes *)

Lemma allWhite_app (a b : string) :
  allWhite (a ++ b) = allWhite a && allWhite b.
Proof.
  induction a as [|c a IH]; simpl; [reflexivity|].
  now rewrite IH, andb_assoc.
Qed.

Lemma trimStart_split (s : string) :
  exists pre, s = pre ++ JsString.trimStart s /\ allWhite pre = true.
Proof.
  induction s as [|c s [pre [E W]]]; simpl.
  - now exists EmptyString.
  - destruct (JsString.isWhiteSpace c) eqn:C.
    + exists (String c pre). simpl. rewrite C, W. split; [now f_equal | reflexivity].
    + now exists EmptyString.
Qed.

Lemma trimEnd_split (s : string) :
  exists post, s = JsString.trimEnd s ++ post /\ allWhite post = true.
Proof.
  induction s as [|c s [post [E W]]]; simpl.
  - now exists EmptyString.
  - destruct (JsString.trimEnd s) as [|d t].
    + simpl in E. subst post.
      destruct (JsString.isWhiteSpace c) eqn:C.
      * exists (String c s). simpl. now rewrite C, W.
      * now exists s.
    + exists post. split; [|exact W]. simpl. f_equal. exact E.
Qed.

Lemma trimEnd_clean_last (s : string) : clean_last (JsString.trimEnd s).
Proof.
  induction s as [|c s IH]; simpl; [exact I|].
  destruct (JsString.trimEnd s) as [|d t].
  - destruct (JsString.isWhiteSpace c) eqn:C; simpl; [exact I | exact C].
  - exact IH.
Qed.

Lemma append_assoc (a b c : string) : (a ++ b) ++ c = a ++ b ++ c.
Proof. induction a as [|x a IH]; simpl; [reflexivity | now rewrite IH]. Qed.

(** X12. [sanitizeString] removes white space from the two ends and
    nothing else: its argument is the result between two runs of white
    space, the result neither starts nor ends with white space, and
    sanitizing twice is sanitizing once. *)
Theorem sanitizeString_characterization (s : string) :
  (exists pre post,
     s = pre ++ sanitizeString s ++ post /\
     allWhite pre = true /\ allWhite post = true) /\
  JsString.clean_head (sanitizeString s) /\
  clean_last (sanitizeString s) /\
  sanitizeString (sanitizeString s) = sanitizeString s /\
  (sanitizeString s = EmptyString <-> allWhite s = true).
Proof.
  unfold sanitizeString, JsString.trim.
  destruct (trimStart_split s) as [pre [E1 W1]].
  destruct (trimEnd_split (JsString.trimStart s)) as [post [E2 W2]].
  assert (D : s = pre ++ JsString.trimEnd (JsString.trimStart s) ++ post)
    by (rewrite <- E2; exact E1).
  split; [now exists pre, post|].
  split; [apply JsStringFacts.trimEnd_clean_head,
            JsStringFacts.trimStart_clean_head|].
  split; [apply trimEnd_clean_last|].
  split; [apply JsStringFacts.trim_idempotent|].
  split.
  - intros Z. rewrite D, Z. simpl. now rewrite allWhite_app, W1, W2.
  - intros W.
    pose proof (JsStringFacts.trimEnd_clean_head _
                  (JsStringFacts.trimStart_clean_head s)) as H.
    rewrite D, !allWhite_app in W.
    destruct (JsString.trimEnd (JsString.trimStart s)) as [|c t];
      [reflexivity|].
    simpl in H, W. rewrite H in W. simpl in W.
    rewrite andb_false_r in W. discriminate.
Qed.

Lemma sanitizeString_characterization_witness :
  (exists pre post,
     Sample.padded = pre ++ "world" ++ post /\
     allWhite pre = true /\ allWhite post = true) /\
  (sanitizeString Sample2.padding = EmptyString <-> allWhite Sample2.padding = true).
Proof.
  destruct (sanitizeString_characterization Sample.padded) as [D _].
  destruct (sanitizeString_characterization Sample2.padding) as [_ [_ [_ [_ E]]]].
  split; [exact D | exact E].
Defined.

(** ** The validators agree *)

(** X13. The two validators accept the same field values: a creation
    request passes [validateCreateBookData] exactly when the update request
    that supplies its three fields passes [validateUpdateBookData]. A
    request either validator accepts in one calendar year is accepted in
    every later one. *)
Theorem validators_agree
  (cy cy' : Z) (c : CreateBookData.t) (d : UpdateBookData.t) :
  (validateCreateBookData cy c = Returned tt <->
   validateUpdateBookData cy (fullUpdate c) = Returned tt) /\
  (cy <= cy' ->
   (validateCreateBookData cy c = Returned tt ->
    validateCreateBookData cy' c = Returned tt) /\
   (validateUpdateBookData cy d = Returned tt ->
    validateUpdateBookData cy' d = Returned tt)).
Proof.
  rewrite !validateCreateBookData_Returned, !validateUpdateBookData_Returned.
  split.
  - unfold fullUpdate; simpl. split.
    + intros [T [A Y]]. split; [discriminate|].
      repeat split; intros x E; injection E as <-; assumption.
    + intros [_ [T [A Y]]]. auto.
  - intros L. split.
    + intros [T [A Y]]. repeat split; auto. eapply valid_year_mono; eauto.
    + intros [K [T [A Y]]]. repeat split; auto.
      intros y E. eapply valid_year_mono; eauto.
Qed.

Lemma validators_agree_witness :
  2024 <= 2025 /\
  validateCreateBookData 2024 Sample.request = Returned tt /\
  validateUpdateBookData 2024 (fullUpdate Sample.request) = Returned tt /\
  validateCreateBookData 2025 Sample.request = Returned tt /\
  validateUpdateBookData 2025 Sample.retitle = Returned tt.
Proof.
  split; [lia|].
  destruct (validators_agree 2024 2025 Sample.request Sample.retitle) as [A B].
  destruct (B ltac:(lia)) as [C U].
  split; [reflexivity|].
  split; [exact (proj1 A eq_refl)|].
  split; [exact (C eq_refl) | exact (U eq_refl)].
Defined.

(** ** Calls in sequence *)

Lemma set_set {V} (k : string) (v w : V) (m : JsMap.t V) :
  JsMap.set k w (JsMap.set k v m) = JsMap.set k w m.
Proof.
  induction m as [|[k0 v0] m IH]; simpl.
  - now rewrite String.eqb_refl.
  - destruct (String.eqb k k0) eqn:E; simpl.
    + now rewrite String.eqb_refl.
    + now rewrite E, IH.
Qed.

Lemma set_same {V} (k : string) (v : V) (m : JsMap.t V) :
  JsMap.get k m = Some v -> JsMap.set k v m = m.
Proof.
  induction m as [|[k0 v0] m IH]; simpl; [discriminate|].
  destruct (String.eqb k k0) eqn:E.
  - apply String.eqb_eq in E. subst k0. intros H. now injection H as ->.
  - intros H. now rewrite IH.
Qed.

Lemma merged_merged old d :
  (forall s, UpdateBookData.title d = Value s -> JsString.trim s <> EmptyString) ->
  (forall s, UpdateBookData.author d = Value s -> JsString.trim s <> EmptyString) ->
  merged (merged old d) d = merged old d.
Proof.
  intros T A. unfold merged; simpl.
  destruct (UpdateBookData.title d) as [| |t];
    destruct (UpdateBookData.author d) as [| |a];
    destruct (UpdateBookData.year d) as [| |y];
    try rewrite (truthy_of_trim t (T t eq_refl));
    try rewrite (truthy_of_trim a (A a eq_refl));
    reflexivity.
Qed.

(** X14. [update] is idempotent: for a stored identifier and a request that
    passes validation, a second [update] with the same request returns the
    same record as the first and leaves the store as the first left it. *)
Theorem update_idempotent
  (e e' : Env) (id : string) (d : UpdateBookData.t) (st : Store) (old : Book.t) :
  JsMap.get id st = Some old ->
  validateUpdateBookData (fullYear e) d = Returned tt ->
  validateUpdateBookData (fullYear e') d = Returned tt ->
  exists b st',
    BookService.update e id d st = (Returned (Some b), st') /\
    BookService.update e' id d st' = (Returned (Some b), st').
Proof.
  intros G V V'.
  exists (merged old d), (JsMap.set id (merged old d) st).
  rewrite !update_eq, V, V', G, JsMapFacts.get_set_same.
  split; [reflexivity|].
  apply validateUpdateBookData_Returned in V. destruct V as [_ [T [A _]]].
  now rewrite merged_merged, set_set.
Qed.

Lemma update_idempotent_witness :
  JsMap.get Sample.id1 Sample.store1 = Some (created Sample.env Sample.request) /\
  validateUpdateBookData (fullYear Sample.later) Sample.retitle = Returned tt /\
  validateUpdateBookData (fullYear SampleRun.nextYear) Sample.retitle = Returned tt /\
  exists b st',
    BookService.update Sample.later Sample.id1 Sample.retitle Sample.store1
    = (Returned (Some b), st') /\
    BookService.update SampleRun.nextYear Sample.id1 Sample.retitle st'
    = (Returned (Some b), st').
Proof.
  split; [reflexivity|]. split; [reflexivity|]. split; [reflexivity|].
  exact (update_idempotent Sample.later SampleRun.nextYear Sample.id1
           Sample.retitle Sample.store1 (created Sample.env Sample.request)
           eq_refl eq_refl eq_refl).
Defined.

Lemma remove_appended {V} (k : string) (v : V) (m : JsMap.t V) :
  JsMap.get k m = None -> JsMap.remove k (m ++ [(k, v)])%list = m.
Proof.
  induction m as [|[k0 v0] m IH]; simpl.
  - now rewrite String.eqb_refl.
  - destruct (String.eqb k k0); [discriminate|]. intros H. now rewrite IH.
Qed.

(** X15. Deleting what was just created restores the store: when [create]
    passes validation and generates an identifier that is not yet a key,
    [delete] on the identifier of the returned record returns [true] and
    leaves the map exactly as it was before the [create], order
    included. *)
Theorem create_then_delete (e : Env) (c : CreateBookData.t) (st : Store) :
  validateCreateBookData (fullYear e) c = Returned tt ->
  JsMap.get (generateId e) st = None ->
  exists b st',
    BookService.create e c st = (Returned b, st') /\
    BookService.delete (Book.id b) st' = (Returned true, st).
Proof.
  intros V G. exists (created e c), (JsMap.set (generateId e) (created e c) st).
  rewrite create_eq, V. split; [reflexivity|].
  unfold BookService.delete, JsMap.has. simpl Book.id.
  rewrite JsMapFacts.get_set_same, (JsMapFacts.set_fresh _ _ _ G).
  now rewrite remove_appended.
Qed.

Lemma create_then_delete_witness :
  validateCreateBookData (fullYear Sample.later) Sample.other = Returned tt /\
  JsMap.get (generateId Sample.later) Sample.store1 = None /\
  exists b st',
    BookService.create Sample.later Sample.other Sample.store1 = (Returned b, st') /\
    BookService.delete (Book.id b) st' = (Returned true, Sample.store1).
Proof.
  split; [reflexivity|]. split; [reflexivity|].
  exact (create_then_delete Sample.later Sample.other Sample.store1
           eq_refl eq_refl).
Defined.

(** ** Keys that hold [undefined] *)

(** X16. [validateUpdateBookData] counts keys, not values: a request with
    at least one key passes when none of its fields holds a value, even if
    every key holds [undefined]. [update] with such a request on a stored
    identifier returns the stored record and leaves the store as it is. *)
Theorem update_with_undefined_keys
  (e : Env) (id : string) (d : UpdateBookData.t) (st : Store) (old : Book.t) :
  UpdateBookData.keys_length d <> 0%nat ->
  suppliesNothing d ->
  JsMap.get id st = Some old ->
  validateUpdateBookData (fullYear e) d = Returned tt /\
  BookService.update e id d st = (Returned (Some old), st).
Proof.
  intros K [T [A Y]] G.
  assert (V : validateUpdateBookData (fullYear e) d = Returned tt).
  { apply validateUpdateBookData_Returned. split; [exact K|].
    repeat split; intros x E; exfalso; [eapply T | eapply A | eapply Y]; eauto. }
  split; [exact V|]. rewrite update_eq, V, G.
  assert (M : merged old d = old).
  { unfold merged. destruct old as [i t a y]; simpl.
    destruct (UpdateBookData.title d) as [| |s]; [| |now elim (T s)];
      (destruct (UpdateBookData.author d) as [| |s']; [| |now elim (A s')]);
      (destruct (UpdateBookData.year d) as [| |y']; [| |now elim (Y y')]);
      reflexivity. }
  now rewrite M, (set_same id old st G).
Qed.

Lemma update_with_undefined_keys_witness :
  UpdateBookData.keys_length Sample3.undefinedTitle <> 0%nat /\
  suppliesNothing Sample3.undefinedTitle /\
  JsMap.get Sample.id1 Sample.store1 = Some (created Sample.env Sample.request) /\
  BookService.update Sample.later Sample.id1 Sample3.undefinedTitle Sample.store1
  = (Returned (Some (created Sample.env Sample.request)), Sample.store1).
Proof.
  assert (K : UpdateBookData.keys_length Sample3.undefinedTitle <> 0%nat)
    by discriminate.
  assert (N : suppliesNothing Sample3.undefinedTitle)
    by (repeat split; discriminate).
  split; [exact K|]. split; [exact N|]. split; [reflexivity|].
  exact (proj2 (update_with_undefined_keys Sample.later Sample.id1
                  Sample3.undefinedTitle Sample.store1
                  (created Sample.env Sample.request) K N eq_refl)).
Defined.

(** ** The form of an identifier *)

Lemma length_take (n : nat) (s : string) :
  (String.length (JsString.take n s) <= n)%nat.
Proof.
  revert s. induction n as [|n IH]; intros [|c s]; simpl; try lia.
  apply le_n_S, IH.
Qed.

Lemma ofN_nonempty (n : N) : JsString.ofN n <> EmptyString.
Proof.
  unfold JsString.ofN, NilZero.string_of_uint.
  destruct (N.to_uint n); discriminate.
Qed.

(** X17. Every identifier [generateId] returns reads [book_], the decimal
    digits of the timestamp (at least one), an underscore and at most nine
    characters taken from the random number. The timestamp and those
    characters determine the identifier and can be read back from it: two
    identifiers are equal exactly when both agree, so identifiers generated
    in different milliseconds always differ. *)
Theorem generateId_shape (e e' : Env) :
  (exists stamp suffix,
     generateId e = "book_" ++ stamp ++ "_" ++ suffix /\
     stamp = JsString.ofN (now e) /\
     digits stamp = true /\ stamp <> EmptyString /\
     suffix = JsString.substr 2 9 (random36 e) /\
     (String.length suffix <= 9)%nat) /\
  (generateId e = generateId e' <->
   now e = now e' /\
   JsString.substr 2 9 (random36 e) = JsString.substr 2 9 (random36 e')) /\
  (now e <> now e' -> generateId e <> generateId e').
Proof.
  split; [|split].
  - exists (JsString.ofN (now e)), (JsString.substr 2 9 (random36 e)).
    split; [reflexivity|]. split; [reflexivity|].
    split; [apply digits_ofN|]. split; [apply ofN_nonempty|].
    split; [reflexivity | apply length_take].
  - apply generateId_eq_iff.
  - intros N E. apply generateId_eq_iff in E. now elim N.
Qed.

Lemma generateId_shape_witness :
  now Sample.env <> now Sample.later /\
  generateId Sample.env <> generateId Sample.later.
Proof.
  assert (N : now Sample.env <> now Sample.later) by discriminate.
  split; [exact N|].
  exact (proj2 (proj2 (generateId_shape Sample.env Sample.later)) N).
Defined.

(** ** Reading a year typed by the user *)

Ltac eval_digit :=
  match goal with
  | |- context [JsGlobal.digitOf ?c] =>
      let v := eval vm_compute in (JsGlobal.digitOf c) in
      change (JsGlobal.digitOf c) with v
  end.

Lemma digitsValue_stop (acc : Z) (rest : string) :
  noDigitAhead rest -> JsGlobal.digitsValue acc rest = acc.
Proof.
  destruct rest as [|c rest]; simpl; [reflexivity|]. now intros ->.
Qed.

Lemma digitsValue_acc (d : Decimal.uint) :
  forall (acc : positive) (rest : string),
    noDigitAhead rest ->
    JsGlobal.digitsValue (Z.pos acc) (NilEmpty.string_of_uint d ++ rest)
    = Z.pos (Pos.of_uint_acc d acc).
Proof.
  induction d; intros acc rest H;
    cbn [NilEmpty.string_of_uint append JsGlobal.digitsValue Pos.of_uint_acc];
    [now apply digitsValue_stop | ..];
    eval_digit; cbv iota; rewrite <- (IHd _ rest H); f_equal; lia.
Qed.

Lemma digitsValue_of_uint (d : Decimal.uint) (rest : string) :
  noDigitAhead rest ->
  JsGlobal.digitsValue 0 (NilEmpty.string_of_uint d ++ rest)
  = Z.of_N (Pos.of_uint d).
Proof.
  intros H. induction d;
    cbn [NilEmpty.string_of_uint append JsGlobal.digitsValue Pos.of_uint];
    [now apply digitsValue_stop | ..];
    eval_digit; cbv iota;
    first [ exact IHd
          | cbn [Z.of_N]; rewrite <- (digitsValue_acc d _ rest H); reflexivity ].
Qed.

Lemma trimStart_allWhite (ws s : string) :
  allWhite ws = true -> JsString.trimStart (ws ++ s) = JsString.trimStart s.
Proof.
  induction ws as [|c ws IH]; simpl; [reflexivity|].
  intros H. apply andb_true_iff in H. destruct H as [C W].
  rewrite C. now apply IH.
Qed.

Lemma allWhite_trimStart (s : string) :
  allWhite s = true -> JsString.trimStart s = EmptyString.
Proof.
  induction s as [|c s IH]; simpl; [reflexivity|].
  intros H. apply andb_true_iff in H. destruct H as [C W].
  rewrite C. now apply IH.
Qed.

(** The digits of a positive number, read back. *)
Lemma parse_digits (p : positive) (rest : string) :
  noDigitAhead rest ->
  exists c s,
    NilEmpty.string_of_uint (Pos.to_uint p) ++ rest = String c s /\
    JsString.isWhiteSpace c = false /\
    c <> "-"%char /\ c <> "+"%char /\
    JsGlobal.digitOf c <> None /\
    JsGlobal.digitsValue 0 (String c s) = Z.pos p.
Proof.
  intros H.
  pose proof (digitsValue_of_uint (Pos.to_uint p) rest H) as V.
  rewrite DecimalPos.Unsigned.of_to in V. simpl Z.of_N in V.
  pose proof (DecimalPos.Unsigned.to_uint_nonnil p) as N.
  destruct (Pos.to_uint p) as [|u|u|u|u|u|u|u|u|u|u]; [now elim N| ..];
    simpl NilEmpty.string_of_uint in *; simpl append in *;
    eexists; eexists; (split; [reflexivity|]);
    repeat split; try discriminate; exact V.
Qed.

Lemma string_of_uint_pos (p : positive) :
  NilZero.string_of_uint (Pos.to_uint p)
  = NilEmpty.string_of_uint (Pos.to_uint p).
Proof.
  pose proof (DecimalPos.Unsigned.to_uint_nonnil p) as N.
  destruct (Pos.to_uint p); [now elim N | reflexivity ..].
Qed.

Lemma ofZ_pos (p : positive) :
  JsString.ofZ (Z.pos p) = NilEmpty.string_of_uint (Pos.to_uint p).
Proof. apply string_of_uint_pos. Qed.

Lemma ofZ_neg (p : positive) :
  JsString.ofZ (Z.neg p) = String "-" (NilEmpty.string_of_uint (Pos.to_uint p)).
Proof.
  unfold JsString.ofZ. simpl Z.to_int. cbn [NilZero.string_of_int].
  now rewrite string_of_uint_pos.
Qed.

(** The sign and the digits [parseInt] sees in a string that starts with a
    digit. *)
Lemma parseInt10_digit_first (c : ascii) (s : string) :
  JsString.isWhiteSpace c = false ->
  JsGlobal.digitOf c <> None ->
  JsGlobal.parseInt10 (String c s)
  = Some (JsGlobal.ofInteger (JsGlobal.digitsValue 0 (String c s))).
Proof.
  intros W D. unfold JsGlobal.parseInt10. simpl JsString.trimStart. rewrite W.
  destruct c as [[] [] [] [] [] [] [] []];
    try (now elim D); try discriminate W;
    cbv iota; (destruct (JsGlobal.digitOf _) eqn:E; [|discriminate E]);
    now rewrite Z.mul_1_l.
Qed.

(** [parseInt(s, 10)] reads back what the decimal rendering wrote: for an
    integer [z] of magnitude below [2^53], white space before it and any
    text after it that does not start with a digit, the result is [z]. A
    string that is empty or all white space gives NaN. *)
Lemma parseInt_reads_back (ws rest : string) (z : Z) :
  Z.abs z < 2 ^ 53 ->
  allWhite ws = true ->
  noDigitAhead rest ->
  JsGlobal.parseInt10 (ws ++ JsString.ofZ z ++ rest) = Some (Int z) /\
  JsGlobal.parseInt10 ws = None /\
  JsGlobal.isNaN (JsGlobal.parseInt10 ws) = true.
Proof.
  intros B W H.
  assert (E : JsGlobal.parseInt10 ws = None).
  { unfold JsGlobal.parseInt10. now rewrite (allWhite_trimStart ws W). }
  split; [|split; [exact E | now rewrite E]].
  assert (O : forall v, Z.abs v < 2 ^ 53 -> JsGlobal.ofInteger v = Int v).
  { intros v Bv. unfold JsGlobal.ofInteger.
    assert (2 ^ 53 < 2 ^ 1024 - 2 ^ 970) by (vm_compute; reflexivity).
    destruct (Z.ltb_spec (Z.abs v) (2 ^ 1024 - 2 ^ 970)); [reflexivity | lia]. }
  assert (T : JsGlobal.parseInt10 (ws ++ JsString.ofZ z ++ rest)
              = JsGlobal.parseInt10 (JsString.ofZ z ++ rest)).
  { unfold JsGlobal.parseInt10. now rewrite (trimStart_allWhite ws _ W). }
  rewrite T. clear T.
  destruct z as [|p|p].
  - change (JsString.ofZ 0 ++ rest) with (String "0" rest).
    rewrite parseInt10_digit_first; [|reflexivity|discriminate].
    cbn [JsGlobal.digitsValue]. eval_digit. cbv iota.
    now rewrite (digitsValue_stop _ rest H).
  - rewrite ofZ_pos.
    destruct (parse_digits p rest H) as [c [s [D [C [M [Q [G V]]]]]]].
    rewrite D, (parseInt10_digit_first c s C G), V. now rewrite O.
  - rewrite ofZ_neg.
    destruct (parse_digits p rest H) as [c [s [D [C [M [Q [G V]]]]]]].
    unfold JsGlobal.parseInt10. cbn [append JsString.trimStart].
    change (JsString.isWhiteSpace "-") with false. cbv iota.
    rewrite D. destruct (JsGlobal.digitOf c); [|now elim G].
    rewrite V. change (-1 * Z.pos p) with (Z.neg p). now rewrite O.
Qed.

(** ** The front end: adding, updating and deleting *)

Lemma instanceof_ValidationError (msg : string) :
  BookCLI.instanceof (ValidationError msg) "ValidationError" = true.
Proof. reflexivity. Qed.

(** X19. [addBook] never lets an exception out and never reaches its
    [else] branch for other errors. Either the year typed has no digits to
    read, then it reports an invalid year and leaves the store as it is; or
    [create] rejects the request, then it reports that [ValidationError] and
    leaves the store as it is; or it reports the record [create] stored,
    which carries the trimmed title and author and the year read. *)
Theorem addBook_outcomes (e : Env) (title author yearStr : string) (st : Store) :
  exists lines st',
    BookCLI.addBook e title author yearStr st = (Returned lines, st') /\
    ((JsGlobal.parseInt10 yearStr = None /\
      lines = [BookCLI.InvalidYear] /\ st' = st) \/
     (exists year msg,
        JsGlobal.parseInt10 yearStr = Some year /\
        validateCreateBookData (fullYear e)
          (CreateBookData.mk title author year)
        = Thrown (ValidationError msg) /\
        lines = [BookCLI.ValidationErrorLine (message (ValidationError msg))] /\
        st' = st) \/
     (exists year book,
        JsGlobal.parseInt10 yearStr = Some year /\
        valid_year (fullYear e) year /\
        lines = [BookCLI.BookAdded book] /\
        Book.title book = JsString.trim title /\
        Book.author book = JsString.trim author /\
        Book.year book = year /\
        BookService.findById (Book.id book) st' = (Returned (Some book), st'))).
Proof.
  unfold BookCLI.addBook.
  destruct (JsGlobal.parseInt10 yearStr) as [year|].
  2:{ exists [BookCLI.InvalidYear], st. split; [reflexivity|]. left. auto. }
  unfold try_catch, bind, ret. rewrite create_eq.
  set (data := {| CreateBookData.title := title;
                  CreateBookData.author := author;
                  CreateBookData.year := year |}).
  destruct (outcome_unit_cases (validateCreateBookData (fullYear e) data))
    as [R|[err T]].
  - rewrite R. eexists. eexists. split; [reflexivity|]. right. right.
    exists year, (created e data).
    apply validateCreateBookData_Returned in R. destruct R as [_ [_ Y]].
    repeat split; auto.
    unfold BookService.findById, gets. simpl.
    now rewrite JsMapFacts.get_set_same.
  - rewrite T. destruct (validateCreateBookData_Thrown _ _ _ T) as [msg ->].
    rewrite instanceof_ValidationError.
    eexists. eexists. split; [reflexivity|]. right. left.
    exists year, msg. auto.
Qed.

(** X18. [addBook] reads the year as [parseInt] does: white space before
    the digits and any text after them that does not start with a digit are
    ignored. With a title and an author that are not blank and a year
    between 0 and the current year written in the answer, it stores and
    reports a record with that year; an answer that is empty or all white
    space is reported as an invalid year and nothing is stored. *)
Theorem addBook_reads_year
  (e : Env) (title author ws rest : string) (z : Z) (st : Store) :
  allWhite ws = true ->
  noDigitAhead rest ->
  JsString.trim title <> EmptyString ->
  JsString.trim author <> EmptyString ->
  0 <= z <= fullYear e ->
  fullYear e < 2 ^ 53 ->
  (exists book st',
     BookCLI.addBook e title author (ws ++ JsString.ofZ z ++ rest) st
     = (Returned [BookCLI.BookAdded book], st') /\
     Book.year book = Int z /\
     JsMap.get (Book.id book) st' = Some book) /\
  BookCLI.addBook e title author ws st = (Returned [BookCLI.InvalidYear], st).
Proof.
  intros W H T A R B.
  destruct (parseInt_reads_back ws rest z ltac:(lia) W H) as [P [N _]].
  split.
  - unfold BookCLI.addBook. rewrite P.
    unfold try_catch, bind, ret. rewrite create_eq.
    assert (V : validateCreateBookData (fullYear e)
                  {| CreateBookData.title := title;
                     CreateBookData.author := author;
                     CreateBookData.year := Int z |} = Returned tt).
    { apply validateCreateBookData_Returned. simpl.
      repeat split; auto. now exists z. }
    rewrite V. eexists. eexists. split; [reflexivity|].
    split; [reflexivity|]. apply JsMapFacts.get_set_same.
  - unfold BookCLI.addBook. now rewrite N.
Qed.

Lemma addBook_reads_year_witness :
  allWhite " " = true /\
  noDigitAhead ".5 AD" /\
  JsString.trim "Emma" <> EmptyString /\
  JsString.trim "Jane Austen" <> EmptyString /\
  0 <= 1815 <= fullYear Sample.later /\
  fullYear Sample.later < 2 ^ 53 /\
  fst (BookCLI.addBook Sample.later "Emma" "Jane Austen" " 1815.5 AD" Sample.store1)
  = Returned [BookCLI.BookAdded
                {| Book.id := generateId Sample.later;
                   Book.title := "Emma";
                   Book.author := "Jane Austen";
                   Book.year := Int 1815 |}] /\
  BookCLI.addBook Sample.later "Emma" "Jane Austen" " " Sample.store1
  = (Returned [BookCLI.InvalidYear], Sample.store1).
Proof.
  assert (R : 0 <= 1815 <= fullYear Sample.later) by (simpl; lia).
  assert (B : fullYear Sample.later < 2 ^ 53) by (vm_compute; reflexivity).
  assert (T : JsString.trim "Emma" <> EmptyString) by discriminate.
  assert (A : JsString.trim "Jane Austen" <> EmptyString) by discriminate.
  split; [reflexivity|]. split; [reflexivity|].
  split; [exact T|]. split; [exact A|]. split; [exact R|]. split; [exact B|].
  destruct (addBook_reads_year Sample.later "Emma" "Jane Austen" " " ".5 AD"
              1815 Sample.store1 eq_refl eq_refl T A R B) as [[b [st' [E _]]] I].
  split; [|exact I].
  change (" " ++ JsString.ofZ 1815 ++ ".5 AD") with " 1815.5 AD" in E.
  rewrite E. simpl fst.
  vm_compute in E. injection E as <- _. reflexivity.
Defined.

Lemma typed_valid (answer s : string) :
  BookCLI.typed answer = Value s -> JsString.trim s <> EmptyString.
Proof.
  unfold BookCLI.typed.
  destruct (JsString.trim answer) eqn:E; simpl; [discriminate|].
  intros H. injection H as <-. rewrite E. discriminate.
Qed.

Lemma typed_blank (answer : string) :
  BookCLI.typed answer = Absent <-> JsString.trim answer = EmptyString.
Proof.
  unfold BookCLI.typed.
  destruct (JsString.trim answer); simpl; split; try reflexivity; discriminate.
Qed.

Lemma truthy_trim (s : string) :
  JsString.truthy (JsString.trim s) = false <-> JsString.trim s = EmptyString.
Proof.
  destruct (JsString.trim s); simpl; split; try reflexivity; discriminate.
Qed.

(** The record [update] builds from the answers that were typed. *)
Lemma merged_typed (old : Book.t) (title author : string) (year : optional number) :
  merged old {| UpdateBookData.title := BookCLI.typed title;
                UpdateBookData.author := BookCLI.typed author;
                UpdateBookData.year := year |}
  = answered old title author year.
Proof.
  unfold merged, answered, BookCLI.typed; simpl. f_equal.
  - destruct (JsString.truthy (JsString.trim title)) eqn:X; [|reflexivity].
    destruct title; [discriminate X | reflexivity].
  - destruct (JsString.truthy (JsString.trim author)) eqn:X; [|reflexivity].
    destruct author; [discriminate X | reflexivity].
Qed.

(** [updateBook] on a stored identifier, branch by branch. *)
Lemma updateBook_present
  (e : Env) (id title author yearStr : string) (st : Store) (old : Book.t) :
  JsMap.get id st = Some old ->
  BookCLI.updateBook e id title author yearStr st =
  if JsString.truthy (JsString.trim yearStr) then
    match JsGlobal.parseInt10 yearStr with
    | None => (Returned [BookCLI.BookDetails old; BookCLI.InvalidYear], st)
    | Some y =>
        match validateYear (fullYear e) y with
        | Returned _ =>
            (Returned [BookCLI.BookDetails old;
                       BookCLI.BookUpdated (answered old title author (Value y))],
             JsMap.set id (answered old title author (Value y)) st)
        | Thrown err =>
            (Returned [BookCLI.BookDetails old;
                       BookCLI.ValidationErrorLine (message err)], st)
        end
    end
  else if negb (JsString.truthy (JsString.trim title))
          && negb (JsString.truthy (JsString.trim author))
  then (Returned [BookCLI.BookDetails old; BookCLI.NoChanges], st)
  else (Returned [BookCLI.BookDetails old;
                  BookCLI.BookUpdated (answered old title author Absent)],
        JsMap.set id (answered old title author Absent) st).
Proof.
  intros G.
  unfold BookCLI.updateBook, BookService.findById, gets. unfold bind at 1.
  rewrite G.
  pose proof (proj2 (validateField_Returned "Title" (BookCLI.typed title))
                (typed_valid title)) as FT.
  pose proof (proj2 (validateField_Returned "Author" (BookCLI.typed author))
                (typed_valid author)) as FA.
  destruct (JsString.truthy (JsString.trim yearStr)).
  - destruct (JsGlobal.parseInt10 yearStr) as [y|]; [|reflexivity].
    set (data := {| UpdateBookData.title := BookCLI.typed title;
                    UpdateBookData.author := BookCLI.typed author;
                    UpdateBookData.year := Value y |}).
    assert (K : (UpdateBookData.keys_length data =? 0)%nat = false).
    { unfold UpdateBookData.keys_length, data; simpl.
      destruct (hasKey _), (hasKey _); reflexivity. }
    rewrite K. unfold try_catch, bind, ret. rewrite update_eq, G.
    assert (V : validateUpdateBookData (fullYear e) data
                = validateYear (fullYear e) y).
    { unfold validateUpdateBookData. rewrite K. unfold data; simpl.
      now rewrite FT, FA. }
    rewrite V.
    destruct (outcome_unit_cases (validateYear (fullYear e) y)) as [R|[err T]].
    + rewrite R. unfold data. now rewrite merged_typed.
    + rewrite T. destruct (validateYear_Thrown _ _ _ T) as [msg ->].
      now rewrite instanceof_ValidationError.
  - set (data := {| UpdateBookData.title := BookCLI.typed title;
                    UpdateBookData.author := BookCLI.typed author;
                    UpdateBookData.year := Absent |}).
    assert (K : (UpdateBookData.keys_length data =? 0)%nat
                = negb (JsString.truthy (JsString.trim title))
                  && negb (JsString.truthy (JsString.trim author))).
    { unfold UpdateBookData.keys_length, data, BookCLI.typed; simpl.
      destruct (JsString.truthy (JsString.trim title)),
               (JsString.truthy (JsString.trim author)); reflexivity. }
    rewrite K.
    destruct (negb (JsString.truthy (JsString.trim title))
              && negb (JsString.truthy (JsString.trim author))) eqn:B;
      [reflexivity|].
    unfold try_catch, bind, ret. rewrite update_eq, G.
    assert (V : validateUpdateBookData (fullYear e) data = Returned tt).
    { unfold validateUpdateBookData. rewrite K. unfold data; simpl.
      now rewrite FT, FA. }
    rewrite V. unfold data. now rewrite merged_typed.
Qed.

(** X20. [updateBook] never lets an exception out, never reaches its
    [else] branch for other errors and never comes back from [update]
    without a record. It reports "not found", and nothing else, exactly when
    the identifier is not stored. On a stored identifier it shows the
    stored record and then, decided by the answers alone: an invalid year
    when the year typed has no digits to read; no changes exactly when the
    three answers are blank; the [ValidationError] of the year when the year
    read is not an integer between 0 and the current year, so never one
    about the title or the author; and in every other case the updated
    record, which is the stored one with each field that was answered
    replaced (title and author trimmed), and which is then what the store
    holds under the identifier. In every case but the last the store is
    left as it is. *)
Theorem updateBook_outcomes
  (e : Env) (id title author yearStr : string) (st : Store) :
  (JsMap.get id st = None ->
   BookCLI.updateBook e id title author yearStr st
   = (Returned [BookCLI.BookNotFound], st)) /\
  (forall old, JsMap.get id st = Some old ->
     (JsString.trim yearStr <> EmptyString ->
      JsGlobal.parseInt10 yearStr = None ->
      BookCLI.updateBook e id title author yearStr st
      = (Returned [BookCLI.BookDetails old; BookCLI.InvalidYear], st)) /\
     (JsString.trim title = EmptyString ->
      JsString.trim author = EmptyString ->
      JsString.trim yearStr = EmptyString ->
      BookCLI.updateBook e id title author yearStr st
      = (Returned [BookCLI.BookDetails old; BookCLI.NoChanges], st)) /\
     (forall y,
        JsString.trim yearStr <> EmptyString ->
        JsGlobal.parseInt10 yearStr = Some y ->
        ~ valid_year (fullYear e) y ->
        exists err,
          validateYear (fullYear e) y = Thrown err /\
          BookCLI.updateBook e id title author yearStr st
          = (Returned [BookCLI.BookDetails old;
                       BookCLI.ValidationErrorLine (message err)], st)) /\
     (forall year,
        (JsString.trim yearStr = EmptyString /\ year = Absent /\
         ~ (JsString.trim title = EmptyString /\
            JsString.trim author = EmptyString)) \/
        (exists y, JsString.trim yearStr <> EmptyString /\
                   JsGlobal.parseInt10 yearStr = Some y /\
                   valid_year (fullYear e) y /\ year = Value y) ->
        BookCLI.updateBook e id title author yearStr st
        = (Returned [BookCLI.BookDetails old;
                     BookCLI.BookUpdated (answered old title author year)],
           JsMap.set id (answered old title author year) st) /\
        JsMap.get id (JsMap.set id (answered old title author year) st)
        = Some (answered old title author year))) /\
  (exists lines st',
     BookCLI.updateBook e id title author yearStr st = (Returned lines, st') /\
     (lines = [BookCLI.BookNotFound] <-> JsMap.get id st = None) /\
     (In BookCLI.BookNotFound lines -> lines = [BookCLI.BookNotFound]) /\
     (In BookCLI.NoChanges lines <->
      JsMap.get id st <> None /\
      JsString.trim title = EmptyString /\
      JsString.trim author = EmptyString /\
      JsString.trim yearStr = EmptyString) /\
     (In BookCLI.InvalidYear lines <->
      JsMap.get id st <> None /\
      JsString.trim yearStr <> EmptyString /\
      JsGlobal.parseInt10 yearStr = None) /\
     ((exists msg, In (BookCLI.ValidationErrorLine msg) lines) <->
      JsMap.get id st <> None /\
      JsString.trim yearStr <> EmptyString /\
      exists y, JsGlobal.parseInt10 yearStr = Some y /\
                ~ valid_year (fullYear e) y) /\
     (forall msg, ~ In (BookCLI.OtherErrorLine msg) lines) /\
     ((forall book, ~ In (BookCLI.BookUpdated book) lines) -> st' = st)).
Proof.
  split.
  { intros G. unfold BookCLI.updateBook, BookService.findById, gets.
    unfold bind at 1. now rewrite G. }
  split.
  { intros old G. rewrite (updateBook_present e id title author yearStr st old G).
    split; [|split; [|split]].
    - intros NE P.
      destruct (JsString.truthy (JsString.trim yearStr)) eqn:TY;
        [now rewrite P | now apply truthy_trim in TY].
    - intros T A Y. apply truthy_trim in T, A, Y. now rewrite T, A, Y.
    - intros y NE P NV.
      destruct (JsString.truthy (JsString.trim yearStr)) eqn:TY;
        [|now apply truthy_trim in TY].
      rewrite P.
      destruct (outcome_unit_cases (validateYear (fullYear e) y)) as [R|[err T]];
        [now apply validateYear_Returned in R|].
      exists err. now rewrite T.
    - intros year H. split; [|apply JsMapFacts.get_set_same].
      destruct H as [[Y [-> NB]] | [y [NE [P [V ->]]]]].
      + apply truthy_trim in Y. rewrite Y.
        destruct (JsString.truthy (JsString.trim title)) eqn:T;
          [reflexivity|].
        destruct (JsString.truthy (JsString.trim author)) eqn:A;
          [reflexivity|].
        apply truthy_trim in T, A. now elim NB.
      + destruct (JsString.truthy (JsString.trim yearStr)) eqn:TY;
          [|now apply truthy_trim in TY].
        rewrite P. apply validateYear_Returned in V. now rewrite V. }
  destruct (JsMap.get id st) as [old|] eqn:G.
  2:{ exists [BookCLI.BookNotFound], st.
      split.
      { unfold BookCLI.updateBook, BookService.findById, gets.
        unfold bind at 1. now rewrite G. }
      split; [tauto|]. split; [tauto|].
      split; [split; [intros [H|[]]; discriminate H | intros [H _]; now elim H]|].
      split; [split; [intros [H|[]]; discriminate H | intros [H _]; now elim H]|].
      split; [split; [intros [msg [H|[]]]; discriminate H
                     | intros [H _]; now elim H]|].
      split; [intros msg [H|[]]; discriminate H | reflexivity]. }
  rewrite (updateBook_present e id title author yearStr st old G).
  assert (S : Some old <> None) by discriminate.
  destruct (JsString.truthy (JsString.trim yearStr)) eqn:TY.
  - assert (NE : JsString.trim yearStr <> EmptyString).
    { intros E. apply truthy_trim in E. congruence. }
    destruct (JsGlobal.parseInt10 yearStr) as [y|] eqn:P.
    + destruct (outcome_unit_cases (validateYear (fullYear e) y)) as [R|[err T]].
      * rewrite R. apply validateYear_Returned in R.
        eexists. eexists. split; [reflexivity|].
        split; [split; discriminate|].
        split; [intros [H|[H|[]]]; discriminate H|].
        split; [split; [intros [H|[H|[]]]; discriminate H | tauto]|].
        split; [split; [intros [H|[H|[]]]; discriminate H
                       | intros [_ [_ H]]; discriminate H]|].
        split; [split; [intros [msg [H|[H|[]]]]; discriminate H|]|].
        { intros [_ [_ [y' [E NV]]]]. injection E as <-. now elim NV. }
        split; [intros msg [H|[H|[]]]; discriminate H|].
        intros H. elim (H _ (or_intror (or_introl eq_refl))).
      * rewrite T.
        assert (NV : ~ valid_year (fullYear e) y).
        { intros V. apply validateYear_Returned in V. congruence. }
        eexists. eexists. split; [reflexivity|].
        split; [split; discriminate|].
        split; [intros [H|[H|[]]]; discriminate H|].
        split; [split; [intros [H|[H|[]]]; discriminate H | tauto]|].
        split; [split; [intros [H|[H|[]]]; discriminate H
                       | intros [_ [_ H]]; discriminate H]|].
        split; [split; [intros _; split; [exact S|]; split; [exact NE|];
                        now exists y
                       | intros _; eexists; right; left; reflexivity]|].
        split; [intros msg [H|[H|[]]]; discriminate H | reflexivity].
    + eexists. eexists. split; [reflexivity|].
      split; [split; discriminate|].
      split; [intros [H|[H|[]]]; discriminate H|].
      split; [split; [intros [H|[H|[]]]; discriminate H | tauto]|].
      split; [split; [tauto | intros _; right; left; reflexivity]|].
      split; [split; [intros [msg [H|[H|[]]]]; discriminate H
                     | intros [_ [_ [y [H _]]]]; discriminate H]|].
      split; [intros msg [H|[H|[]]]; discriminate H | reflexivity].
  - assert (Y : JsString.trim yearStr = EmptyString) by now apply truthy_trim.
    destruct (JsString.truthy (JsString.trim title)) eqn:T;
      [|destruct (JsString.truthy (JsString.trim author)) eqn:A]; cbn [negb andb].
    + assert (NT : JsString.trim title <> EmptyString).
      { intros E. apply truthy_trim in E. congruence. }
      eexists. eexists. split; [reflexivity|].
      split; [split; discriminate|].
      split; [intros [H|[H|[]]]; discriminate H|].
      split; [split; [intros [H|[H|[]]]; discriminate H | tauto]|].
      split; [split; [intros [H|[H|[]]]; discriminate H | tauto]|].
      split; [split; [intros [msg [H|[H|[]]]]; discriminate H | tauto]|].
      split; [intros msg [H|[H|[]]]; discriminate H|].
      intros H. elim (H _ (or_intror (or_introl eq_refl))).
    + assert (NA : JsString.trim author <> EmptyString).
      { intros E. apply truthy_trim in E. congruence. }
      eexists. eexists. split; [reflexivity|].
      split; [split; discriminate|].
      split; [intros [H|[H|[]]]; discriminate H|].
      split; [split; [intros [H|[H|[]]]; discriminate H | tauto]|].
      split; [split; [intros [H|[H|[]]]; discriminate H | tauto]|].
      split; [split; [intros [msg [H|[H|[]]]]; discriminate H | tauto]|].
      split; [intros msg [H|[H|[]]]; discriminate H|].
      intros H. elim (H _ (or_intror (or_introl eq_refl))).
    + apply truthy_trim in T, A.
      eexists. eexists. split; [reflexivity|].
      split; [split; discriminate|].
      split; [intros [H|[H|[]]]; discriminate H|].
      split; [split; [tauto | intros _; right; left; reflexivity]|].
      split; [split; [intros [H|[H|[]]]; discriminate H | tauto]|].
      split; [split; [intros [msg [H|[H|[]]]]; discriminate H | tauto]|].
      split; [intros msg [H|[H|[]]]; discriminate H | reflexivity].
Qed.

Lemma updateBook_outcomes_witness :
  JsMap.get Sample.id1 Sample.store1 = Some (created Sample.env Sample.request) /\
  BookCLI.updateBook Sample.later Sample.id1 " " "" "  " Sample.store1
  = (Returned [BookCLI.BookDetails (created Sample.env Sample.request);
               BookCLI.NoChanges], Sample.store1) /\
  BookCLI.updateBook Sample.later Sample.id1 "" "" " 1999 " Sample.store1
  = (Returned [BookCLI.BookDetails (created Sample.env Sample.request);
               BookCLI.BookUpdated
                 {| Book.id := Sample.id1;
                    Book.title := "Test Book";
                    Book.author := "Test Author";
                    Book.year := Int 1999 |}],
     [(Sample.id1, {| Book.id := Sample.id1;
                      Book.title := "Test Book";
                      Book.author := "Test Author";
                      Book.year := Int 1999 |})]).
Proof.
  assert (G : JsMap.get Sample.id1 Sample.store1
              = Some (created Sample.env Sample.request)) by reflexivity.
  destruct (updateBook_outcomes Sample.later Sample.id1 " " "" "  " Sample.store1)
    as [_ [P _]].
  destruct (P _ G) as [_ [N _]].
  destruct (updateBook_outcomes Sample.later Sample.id1 "" "" " 1999 "
              Sample.store1) as [_ [Q _]].
  destruct (Q _ G) as [_ [_ [_ U]]].
  split; [exact G|].
  split; [exact (N eq_refl eq_refl eq_refl)|].
  refine (proj1 (U (Value (Int 1999)) _)).
  right. exists (Int 1999).
  split; [discriminate|]. split; [reflexivity|].
  split; [|reflexivity]. exists 1999. split; [reflexivity | simpl; lia].
Defined.

Lemma safeDelete_present (id : string) (st : Store) (old : Book.t) :
  JsMap.get id st = Some old ->
  BookService.safeDelete id st = (Returned tt, JsMap.remove id st).
Proof.
  intros G. unfold BookService.safeDelete, BookService.delete, bind, ret, JsMap.has.
  now rewrite G.
Qed.

(** X21. [deleteBook] never lets an exception out and never reports a
    [BookNotFoundError]: the identifier is looked up first. It reports "not
    found" exactly when the identifier is not stored; otherwise it deletes
    the record exactly when the confirmation is [yes] or [y] in any mix of
    cases, and reports a cancellation, leaving the store as it is, for any
    other answer. *)
Theorem deleteBook_outcomes (id confirm : string) (st : Store) :
  exists lines st',
    BookCLI.deleteBook id confirm st = (Returned lines, st') /\
    ((JsMap.get id st = None /\ lines = [BookCLI.BookNotFound] /\ st' = st) \/
     exists old,
       JsMap.get id st = Some old /\
       (((JsString.toLowerCase confirm = "yes" \/
          JsString.toLowerCase confirm = "y") /\
         lines = [BookCLI.BookDetails old; BookCLI.BookDeleted] /\
         st' = snd (BookService.delete id st)) \/
        (JsString.toLowerCase confirm <> "yes" /\
         JsString.toLowerCase confirm <> "y" /\
         lines = [BookCLI.BookDetails old; BookCLI.DeleteCancelled] /\
         st' = st))).
Proof.
  unfold BookCLI.deleteBook, BookService.findById, gets.
  unfold bind at 1.
  destruct (JsMap.get id st) as [old|] eqn:G.
  2:{ exists [BookCLI.BookNotFound], st. split; [reflexivity|]. left. auto. }
  assert (D : try_catch
                (BookService.safeDelete id;;;
                 ret [BookCLI.BookDetails old; BookCLI.BookDeleted])
                (fun error =>
                   if BookCLI.instanceof error "BookNotFoundError"
                   then ret [BookCLI.BookDetails old;
                             BookCLI.NotFoundErrorLine (message error)]
                   else ret [BookCLI.BookDetails old;
                             BookCLI.OtherErrorLine (message error)]) st
              = (Returned [BookCLI.BookDetails old; BookCLI.BookDeleted],
                 JsMap.remove id st)).
  { unfold try_catch, bind. now rewrite (safeDelete_present id st old G). }
  destruct (String.eqb_spec (JsString.toLowerCase confirm) "yes") as [Y|Y];
    [|destruct (String.eqb_spec (JsString.toLowerCase confirm) "y") as [Y'|Y']];
    cbn [orb].
  - eexists. eexists. split; [exact D|]. right. exists old.
    split; [reflexivity|]. left. auto.
  - eexists. eexists. split; [exact D|]. right. exists old.
    split; [reflexivity|]. left. auto.
  - eexists. exists st. split; [reflexivity|]. right. exists old.
    split; [reflexivity|]. right. auto.
Qed.

(** ** The front end: statistics *)

Lemma authorCounts_fold (books : list Book.t) :
  BookCLI.authorCounts books = fold_left tallyStep books JsMap.empty.
Proof. reflexivity. Qed.

Lemma get_set {V} (k k' : string) (v : V) (m : JsMap.t V) :
  JsMap.get k' (JsMap.set k v m)
  = if String.eqb k' k then Some v else JsMap.get k' m.
Proof.
  destruct (String.eqb_spec k' k) as [->|N].
  - apply JsMapFacts.get_set_same.
  - now apply JsMapFacts.get_set_other.
Qed.

Lemma booksBy_cons (a : string) (b : Book.t) (books : list Book.t) :
  booksBy a (b :: books)
  = ((if String.eqb (Book.author b) a then 1 else 0) + booksBy a books)%nat.
Proof.
  unfold booksBy. simpl. now destruct (String.eqb (Book.author b) a).
Qed.

Lemma tallyOf_fold (a : string) (books : list Book.t) :
  forall counts,
    tallyOf a (fold_left tallyStep books counts)
    = (tallyOf a counts + booksBy a books)%nat.
Proof.
  induction books as [|b books IH]; intros counts; simpl fold_left.
  - unfold booksBy. simpl. lia.
  - rewrite IH, booksBy_cons. unfold tallyStep, tallyOf at 1.
    rewrite get_set, (String.eqb_sym a).
    destruct (String.eqb_spec (Book.author b) a) as [->|N];
      fold (tallyOf a counts); lia.
Qed.

Lemma tally_positive (books : list Book.t) :
  forall counts,
    (forall a n, JsMap.get a counts = Some n -> (1 <= n)%nat) ->
    forall a n, JsMap.get a (fold_left tallyStep books counts) = Some n ->
                (1 <= n)%nat.
Proof.
  induction books as [|b books IH]; intros counts H; [exact H|].
  simpl fold_left. apply IH. intros a n. unfold tallyStep. rewrite get_set.
  destruct (String.eqb a (Book.author b)).
  - intros E. injection E as <-. lia.
  - apply H.
Qed.

Lemma tally_unique (books : list Book.t) :
  forall counts : JsMap.t nat,
    NoDup (JsMap.keys counts) ->
    NoDup (JsMap.keys (fold_left tallyStep books counts)).
Proof.
  induction books as [|b books IH]; intros counts H; [exact H|].
  simpl fold_left. apply IH. now apply NoDup_set.
Qed.

Lemma tallySum_set (k : string) (m : JsMap.t nat) :
  tallySum (JsMap.set k (tallyOf k m + 1)%nat m) = S (tallySum m).
Proof.
  unfold tallySum, JsMap.values, tallyOf.
  induction m as [|[k0 n0] m IH]; simpl; [reflexivity|].
  destruct (String.eqb k k0); simpl; [lia|].
  rewrite IH. lia.
Qed.

Lemma tallySum_fold (books : list Book.t) :
  forall counts,
    tallySum (fold_left tallyStep books counts)
    = (tallySum counts + List.length books)%nat.
Proof.
  induction books as [|b books IH]; intros counts; simpl fold_left; simpl List.length.
  - lia.
  - rewrite IH. unfold tallyStep. rewrite tallySum_set. lia.
Qed.

(** The walk of [mostProlific]: the entry it ends with is the first of
    those that beat everything before them and are beaten by nothing
    after. *)
Lemma mostProlific_walk (entries : list (string * nat)) :
  forall best,
    let r := fold_left
               (fun best entry =>
                  if (snd best <? snd entry)%nat then entry else best)
               entries best in
    (r = best /\ forall x, In x entries -> (snd x <= snd best)%nat) \/
    (exists before after,
       entries = (before ++ r :: after)%list /\
       (snd best < snd r)%nat /\
       (forall x, In x before -> (snd x < snd r)%nat) /\
       (forall x, In x after -> (snd x <= snd r)%nat)).
Proof.
  induction entries as [|x entries IH]; intros best; simpl.
  - left. split; [reflexivity | intros x []].
  - destruct (Nat.ltb_spec (snd best) (snd x)) as [L|L].
    + destruct (IH x) as [[E H]|[before [after [E [B [HB HA]]]]]].
      * right. exists [], entries. simpl in E. rewrite E.
        split; [reflexivity|]. split; [exact L|].
        split; [intros y []|exact H].
      * right. exists (x :: before), after. simpl in E, B, HB, HA |- *.
        split; [now rewrite E at 1|]. split; [lia|].
        split; [|exact HA]. intros y [<-|I]; [exact B|now apply HB].
    + destruct (IH best) as [[E H]|[before [after [E [B [HB HA]]]]]].
      * left. simpl in E. split; [exact E|].
        intros y [<-|I]; [exact L | now apply H].
      * right. exists (x :: before), after. simpl in E, B, HB, HA |- *.
        split; [now rewrite E at 1|]. split; [exact B|].
        split; [|exact HA]. intros y [<-|I]; [lia|now apply HB].
Qed.

Lemma booksBy_zero (a : string) (books : list Book.t) :
  booksBy a books = 0%nat <-> ~ In a (map Book.author books).
Proof.
  induction books as [|b books IH]; simpl.
  - split; [intros _ [] | reflexivity].
  - rewrite booksBy_cons.
    destruct (String.eqb_spec (Book.author b) a) as [E|E].
    + split; [discriminate | intros H; elim H; now left].
    + simpl. rewrite IH. split; [intros H [X|X]; [now elim E | now elim H] | tauto].
Qed.

(** X22. The tally of [viewStatistics] holds one entry for each author that
    occurs, with the number of books of exactly that author; the counts add
    up to the number of books and the size of the tally is the number of
    different authors. For a collection that is not empty the
    author reported as most prolific has at least one book and no author
    has more; among the authors with as many, it is the one that comes first
    in the tally. *)
Theorem author_statistics (books : list Book.t) :
  let counts := BookCLI.authorCounts books in
  NoDup (JsMap.keys counts) /\
  (forall a, JsMap.get a counts
             = if (booksBy a books =? 0)%nat then None else Some (booksBy a books)) /\
  tallySum counts = List.length books /\
  JsMap.size counts = List.length (nodup string_dec (map Book.author books)) /\
  (forall a, (booksBy a books <= snd (BookCLI.mostProlific counts))%nat) /\
  (books <> [] ->
   (1 <= snd (BookCLI.mostProlific counts))%nat /\
   booksBy (fst (BookCLI.mostProlific counts)) books
   = snd (BookCLI.mostProlific counts) /\
   exists before after,
     counts = (before ++ BookCLI.mostProlific counts :: after)%list /\
     (forall x, In x before ->
                (snd x < snd (BookCLI.mostProlific counts))%nat)).
Proof.
  intros counts. unfold counts. rewrite authorCounts_fold.
  set (m := fold_left tallyStep books JsMap.empty).
  assert (U : NoDup (JsMap.keys m)) by (apply tally_unique; constructor).
  assert (P : forall a n, JsMap.get a m = Some n -> (1 <= n)%nat)
    by (apply tally_positive; intros a n; discriminate).
  assert (T : forall a, tallyOf a m = booksBy a books)
    by (intros a; unfold m; now rewrite tallyOf_fold).
  assert (G : forall a, JsMap.get a m
                        = if (booksBy a books =? 0)%nat then None
                          else Some (booksBy a books)).
  { intros a. specialize (T a). unfold tallyOf in T.
    destruct (JsMap.get a m) as [n|] eqn:E.
    - specialize (P a n E). subst n.
      destruct (Nat.eqb_spec (booksBy a books) 0); [lia | reflexivity].
    - now rewrite <- T. }
  assert (S : tallySum m = List.length books)
    by (unfold m; now rewrite tallySum_fold).
  assert (Q : JsMap.size m
              = List.length (nodup string_dec (map Book.author books))).
  { unfold JsMap.size. rewrite <- (length_map fst). fold (JsMap.keys m).
    apply Permutation_length, NoDup_Permutation;
      [exact U | apply NoDup_nodup |].
    intros a. rewrite nodup_In.
    specialize (G a). pose proof (get_None_keys a m) as K.
    pose proof (booksBy_zero a books) as B.
    destruct (Nat.eqb_spec (booksBy a books) 0) as [Z|Z].
    - apply K in G. apply B in Z. tauto.
    - split; intros _.
      + destruct (in_dec string_dec a (map Book.author books)) as [I|I];
          [exact I | apply B in I; now elim Z].
      + destruct (in_dec string_dec a (JsMap.keys m)) as [I|I]; [exact I|].
        apply K in I. rewrite I in G. discriminate. }
  split; [exact U|]. split; [exact G|]. split; [exact S|]. split; [exact Q|].
  pose proof (mostProlific_walk m (EmptyString, 0%nat)) as W.
  cbv zeta in W. fold (BookCLI.mostProlific m) in W.
  set (r := BookCLI.mostProlific m) in *.
  assert (A : forall x, In x m -> (snd x <= snd r)%nat).
  { destruct W as [[E H]|[before [after [E [B [HB HA]]]]]].
    - rewrite E. exact H.
    - intros x I. rewrite E in I. apply in_app_or in I.
      destruct I as [I|[<-|I]]; [apply HB in I; lia | lia | now apply HA]. }
  split.
  - intros a. specialize (G a).
    destruct (Nat.eqb_spec (booksBy a books) 0) as [Z|Z]; [lia|].
    apply get_In in G. apply (A _ G).
  - intros NE.
    destruct W as [[E H]|[before [after [E [B [HB HA]]]]]].
    + exfalso. destruct books as [|b books]; [now elim NE|].
      specialize (G (Book.author b)). rewrite booksBy_cons, String.eqb_refl in G.
      simpl in G. apply get_In in G. apply H in G. simpl in G. lia.
    + split; [simpl in B; lia|]. split.
      * assert (I : In r m) by (rewrite E; apply in_or_app; right; now left).
        destruct r as [a n]. apply (get_of_In a n m U) in I. simpl.
        rewrite G in I.
        destruct (Nat.eqb_spec (booksBy a books) 0); [discriminate|].
        now injection I.
      * exists before, after. split; [exact E | exact HB].
Qed.

Lemma author_statistics_witness :
  Sample4.shelf <> [] /\
  BookCLI.mostProlific (BookCLI.authorCounts Sample4.shelf) = ("Jane Austen", 2%nat) /\
  booksBy "Jane Austen" Sample4.shelf = 2%nat /\
  tallySum (BookCLI.authorCounts Sample4.shelf) = 4%nat.
Proof.
  assert (N : Sample4.shelf <> []) by discriminate.
  split; [exact N|]. split; [reflexivity|].
  destruct (author_statistics Sample4.shelf) as [_ [_ [S [_ [_ H]]]]].
  destruct (H N) as [_ [B _]].
  split; [exact B | exact S].
Defined.

(** ** The empty store *)

(** X23. The ways to see that the store is empty agree: [isEmpty()] is
    true exactly when [count()] is 0, exactly when [findAll()] is empty and
    exactly when [findById] returns [null] for every identifier. [clear()]
    always leaves such a store, and on it every page request with a page
    size of at least 1 reports 0 pages, current page 1 and no records. *)
Theorem empty_store (st : Store) (page pageSize : Z) :
  (fst (BookService.isEmpty st) = Returned true <->
   fst (BookService.count st) = Returned 0) /\
  (fst (BookService.isEmpty st) = Returned true <->
   fst (BookService.findAll st) = Returned []) /\
  (fst (BookService.isEmpty st) = Returned true <->
   forall id, fst (BookService.findById id st) = Returned None) /\
  fst (BookService.isEmpty (snd (BookService.clear st))) = Returned true /\
  (1 <= pageSize ->
   BookService.getPaginated page pageSize (snd (BookService.clear st))
   = (Returned {| books := [];
                  totalBooks := 0;
                  totalPages := Fin 0;
                  currentPage := Fin 1;
                  hasNextPage := false;
                  hasPreviousPage := false |}, JsMap.empty)).
Proof.
  unfold BookService.isEmpty, BookService.count, BookService.findAll,
    BookService.findById, gets. simpl fst.
  assert (E : (JsMap.size st =? 0)%nat = true <-> st = []).
  { destruct st; simpl; split; intros H; try reflexivity; discriminate. }
  split; [|split; [|split; [|split]]].
  - destruct (Nat.eqb_spec (JsMap.size st) 0) as [Z|Z].
    + rewrite Z. split; reflexivity.
    + split; [discriminate|]. intros H. injection H as H. lia.
  - split.
    + intros H. injection H as H. apply E in H. now subst st.
    + intros H. injection H as H. f_equal. apply E.
      destruct st; [reflexivity | discriminate].
  - split.
    + intros H id. injection H as H. apply E in H. now subst st.
    + intros H. f_equal. apply E. destruct st as [|[k b] st]; [reflexivity|].
      specialize (H k). simpl in H. rewrite String.eqb_refl in H. discriminate.
  - reflexivity.
  - intros P. unfold BookService.getPaginated, BookService.count,
      BookService.findAll, BookService.clear, modify, bind, gets, ret.
    simpl snd. unfold JsMath.ceil_div.
    destruct (Z.eqb_spec pageSize 0) as [Z|_]; [lia|].
    change (Z.of_nat (JsMap.size (@JsMap.empty Book.t))) with 0.
    change (- (- 0 / pageSize)) with (- (0 / pageSize)).
    rewrite Z.div_0_l by lia.
    cbn [JsMath.min JsMath.max JsMath.sub JsMath.add JsMath.neg JsMath.mul
         JsMath.lt JsMath.gt Z.opp].
    replace (Z.max 1 (Z.min page 0)) with 1 by lia.
    unfold JsArray.slice. simpl JsMap.values.
    now rewrite skipn_nil, firstn_nil.
Qed.

Lemma empty_store_witness :
  1 <= 10 /\
  fst (BookService.isEmpty Sample.store1) <> Returned true /\
  ~ (forall id, fst (BookService.findById id Sample.store1) = Returned None) /\
  BookService.getPaginated 1 10 (snd (BookService.clear Sample.store1))
  = (Returned {| books := [];
                 totalBooks := 0;
                 totalPages := Fin 0;
                 currentPage := Fin 1;
                 hasNextPage := false;
                 hasPreviousPage := false |}, JsMap.empty).
Proof.
  assert (N : fst (BookService.isEmpty Sample.store1) <> Returned true)
    by discriminate.
  destruct (empty_store Sample.store1 1 10) as [_ [_ [D [_ G]]]].
  split; [lia|]. split; [exact N|].
  split; [intros H; apply N, D, H | apply G; lia].
Defined.

(** ** What a call leaves alone, and what it can throw *)

(** X24. Every call but [clear] touches one identifier only: [update],
    [safeUpdate], [delete] and [safeDelete] leave the record of every other
    identifier as it was, and so do [create] and [safeCreate] for every
    identifier other than the one they generate. *)
Theorem frame_of_writes (o : Op) (st : Store) (id id2 : string) :
  target o = Some id ->
  id2 <> id ->
  BookService.findById id2 (exec o st)
  = (Returned (JsMap.get id2 st), exec o st).
Proof.
  unfold BookService.findById, gets. intros T N. f_equal. f_equal.
  destruct o as [e d|e d|e i d|e i d|i|i|]; simpl in T; try discriminate T;
    injection T as <-; simpl exec;
    rewrite ?safeCreate_store, ?safeUpdate_store, ?safeDelete_store.
  - now apply create_frame.
  - now apply create_frame.
  - now apply update_frame.
  - now apply update_frame.
  - now apply JsMapFacts.get_remove_other.
  - now apply JsMapFacts.get_remove_other.
Qed.

Lemma frame_of_writes_witness :
  target (OpDelete Sample.id1) = Some Sample.id1 /\
  generateId Sample.later <> Sample.id1 /\
  BookService.findById (generateId Sample.later)
    (exec (OpDelete Sample.id1) SampleSearch.library)
  = (Returned (Some (created Sample.later Sample.other)),
     exec (OpDelete Sample.id1) SampleSearch.library).
Proof.
  assert (N : generateId Sample.later <> Sample.id1) by discriminate.
  split; [reflexivity|]. split; [exact N|].
  exact (frame_of_writes (OpDelete Sample.id1) SampleSearch.library Sample.id1
           (generateId Sample.later) eq_refl N).
Defined.

Lemma safe_never_throws_create e c st :
  exists r, fst (BookService.safeCreate e c st) = Returned r.
Proof.
  unfold BookService.safeCreate, try_catch, bind, ret.
  destruct (BookService.create e c st) as [[b|err] st']; simpl; eauto.
Qed.

Lemma safe_never_throws_update e id d st :
  exists r, fst (BookService.safeUpdate e id d st) = Returned r.
Proof.
  unfold BookService.safeUpdate, try_catch, bind, ret.
  destruct (BookService.update e id d st) as [[[b|]|err] st']; simpl; eauto.
Qed.

(** X25. The writing calls throw two kinds of error only. What [create]
    or [update] throws is the [ValidationError] their validator threw for
    the request; what [safeDelete] throws is the [BookNotFoundError] of its
    identifier, which is then not stored; [safeCreate], [safeUpdate],
    [delete] and [clear] never throw. *)
Theorem only_two_kinds_of_error (o : Op) (st : Store) (err : Error) :
  thrown o st = Some err ->
  (exists msg, err = ValidationError msg /\
     ((exists e data, (o = OpCreate e data) /\
                      validateCreateBookData (fullYear e) data = Thrown err) \/
      (exists e id data, (o = OpUpdate e id data) /\
                         validateUpdateBookData (fullYear e) data = Thrown err))) \/
  (exists id, o = OpSafeDelete id /\ err = BookNotFoundError id /\
              JsMap.get id st = None).
Proof.
  destruct o as [e d|e d|e id d|e id d|id|id|]; unfold thrown; simpl fst.
  - rewrite create_eq.
    destruct (validateCreateBookData (fullYear e) d) as [[]|x] eqn:V; simpl;
      [discriminate|].
    intros H. injection H as <-.
    destruct (validateCreateBookData_Thrown _ _ _ V) as [msg ->].
    left. exists msg. split; [reflexivity|]. left. eauto.
  - destruct (safe_never_throws_create e d st) as [r ->]. discriminate.
  - rewrite update_eq.
    destruct (validateUpdateBookData (fullYear e) d) as [[]|x] eqn:V; simpl.
    + destruct (JsMap.get id st); discriminate.
    + intros H. injection H as <-.
      destruct (validateUpdateBookData_Thrown _ _ _ V) as [msg ->].
      left. exists msg. split; [reflexivity|]. right. eauto.
  - destruct (safe_never_throws_update e id d st) as [r ->]. discriminate.
  - discriminate.
  - unfold BookService.safeDelete, BookService.delete, bind, ret, throw, JsMap.has.
    destruct (JsMap.get id st) eqn:G; simpl; [discriminate|].
    intros H. injection H as <-. right. exists id. auto.
  - discriminate.
Qed.

Lemma only_two_kinds_of_error_witness :
  thrown (OpSafeDelete "non-existent-id") Sample.store1
  = Some (BookNotFoundError "non-existent-id") /\
  JsMap.get "non-existent-id" Sample.store1 = None.
Proof.
  assert (T : thrown (OpSafeDelete "non-existent-id") Sample.store1
              = Some (BookNotFoundError "non-existent-id")) by reflexivity.
  split; [exact T|].
  destruct (only_two_kinds_of_error _ _ _ T)
    as [[msg [E _]]|[id [O [_ G]]]]; [discriminate E|].
  injection O as <-. exact G.
Defined.
